(** * nola-buddy-api: the scheduling and coaching analysis core

    A shallow embedding of the analysis helpers of the Express server
    ([toISOLocal], [readProp], [startEndOfToday], [getPrimaryWhen],
    [asCoachLine] and the bodies of the [/analysis/today], [/analysis/7day]
    and [/analysis/period] handlers), followed by the properties the
    specification states about them.  The embedding goes on with
    [next7Window], [findDatabaseByName] and the notes kept in the sheet
    ([chicagoNow], [formatChicago], [classifyTag], [generateTitle],
    [listAllNotes], [readNote], [updateNote], [/notes/list], [topN],
    [suggestFromAnalysis]), and the file ends with further properties of
    the code.

    JavaScript values are modelled as far as the embedded code can observe
    them: strings as [string] (the date and time texts handled here are
    ASCII, so bytes and UTF-16 code units coincide), numbers that hold
    integers as [Z] with the non-finite values written out, [Date] objects
    as a time value or an invalid date, plain objects used as maps as
    property lists in creation order with the inherited names of
    [Object.prototype]. *)

From Stdlib Require Import ZArith List String Ascii Bool Lia.
From Stdlib Require Import QArith Permutation Sorted DecimalString.
Import ListNotations.

Local Open Scope string_scope.
Local Open Scope Z_scope.

(** ** JavaScript strings *)

Module JsString.

(** [s ? a : b] on a string: the empty string is falsy. *)
Definition truthy (s : string) : bool :=
  match s with
  | EmptyString => false
  | String _ _ => true
  end.

(** [s.includes(c)] for a one-character needle. *)
Fixpoint includes (c : ascii) (s : string) : bool :=
  match s with
  | EmptyString => false
  | String x rest => if Ascii.eqb x c then true else includes c rest
  end.

(** [s.split(c)] for a one-character separator: never the empty list. *)
Fixpoint split (c : ascii) (s : string) : list string :=
  match s with
  | EmptyString => [EmptyString]
  | String x rest =>
      if Ascii.eqb x c then EmptyString :: split c rest
      else match split c rest with
           | [] => [String x EmptyString]
           | p :: ps => String x p :: ps
           end
  end.

Fixpoint repeat (c : ascii) (n : nat) : string :=
  match n with
  | O => EmptyString
  | S k => String c (repeat c k)
  end.

(** [s.padStart(n, c)] for a one-character filler. *)
Definition padStart (n : nat) (c : ascii) (s : string) : string :=
  repeat c (n - String.length s) ++ s.

(** [String(v)] where [v] is a string, or [undefined] ([None]): an array
    element that destructuring did not find. *)
Definition ofOptional (v : option string) : string :=
  match v with
  | Some s => s
  | None => "undefined"
  end.

Definition isDigit (c : ascii) : bool :=
  let n := nat_of_ascii c in (48 <=? n)%nat && (n <=? 57)%nat.

Fixpoint allDigits (s : string) : bool :=
  match s with
  | EmptyString => true
  | String c rest => isDigit c && allDigits rest
  end.

(** A run of exactly [n] decimal digits. *)
Definition digits (n : nat) (s : string) : bool :=
  (String.length s =? n)%nat && allDigits s.

End JsString.

(** ** Date text normalisation: [toISOLocal] *)

(** The optional [timeStr] argument: [None] is an absent ([undefined] or
    [null]) argument. *)
Definition timePart (timeStr : option string) : string :=
  match timeStr with
  | Some t => if JsString.truthy t then t ++ ":00" else "00:00:00"
  | None => "00:00:00"
  end.

(** [toISOLocal] of the full server (the first unnamed part): the three
    parts of a slash date are destructured first and the year part
    decides. *)
Definition toISOLocal (dateStr : string) (timeStr : option string) : string :=
  let parts :=
    if JsString.includes "/" dateStr
    then map Some (JsString.split "/" dateStr) else [None; None; None] in
  let m := nth 0 parts None in
  let d := nth 1 parts None in
  let y := nth 2 parts None in
  let isoBase :=
    match y with
    | Some yv =>
        if JsString.truthy yv then
          let mm := JsString.padStart 2 "0" (JsString.ofOptional m) in
          let dd := JsString.padStart 2 "0" (JsString.ofOptional d) in
          yv ++ "-" ++ mm ++ "-" ++ dd
        else dateStr
    | None => dateStr
    end in
  isoBase ++ "T" ++ timePart timeStr.

(** The variant of [src/server.js] (and of the second unnamed part): the
    presence of a slash alone selects the slash branch. *)
Module ServerJs.

Definition toISOLocal (dateStr : string) (timeStr : option string) : string :=
  let asParts :=
    if JsString.includes "/" dateStr
    then Some (JsString.split "/" dateStr) else None in
  let isoBase :=
    match asParts with
    | Some parts =>
        let m := nth_error parts 0 in
        let d := nth_error parts 1 in
        let y := nth_error parts 2 in
        let mm := JsString.padStart 2 "0" (JsString.ofOptional m) in
        let dd := JsString.padStart 2 "0" (JsString.ofOptional d) in
        JsString.ofOptional y ++ "-" ++ mm ++ "-" ++ dd
    | None => dateStr
    end in
  isoBase ++ "T" ++ timePart timeStr.

End ServerJs.

(** The shape [YYYY-MM-DDTHH:MM:SS]. *)
Definition isoLocalShape (s : string) : bool :=
  match s with
  | String y1 (String y2 (String y3 (String y4 (String s1
    (String m1 (String m2 (String s2
    (String d1 (String d2 (String t
    (String h1 (String h2 (String c1
    (String n1 (String n2 (String c2
    (String e1 (String e2 EmptyString)))))))))))))))))) =>
      forallb JsString.isDigit [y1; y2; y3; y4; m1; m2; d1; d2; h1; h2; n1; n2; e1; e2]
      && Ascii.eqb s1 "-" && Ascii.eqb s2 "-" && Ascii.eqb t "T"
      && Ascii.eqb c1 ":" && Ascii.eqb c2 ":"
  | _ => false
  end.

(** The two date patterns the function documents. *)
Definition slashDate (s : string) : bool :=
  match JsString.split "/" s with
  | [m; d; y] => JsString.digits 2 m && JsString.digits 2 d && JsString.digits 4 y
  | _ => false
  end.

Definition dashDate (s : string) : bool :=
  match JsString.split "-" s with
  | [y; m; d] => JsString.digits 4 y && JsString.digits 2 m && JsString.digits 2 d
  | _ => false
  end.

(** The [HH:MM] pattern of the optional time. *)
Definition clockTime (s : string) : bool :=
  match s with
  | String h1 (String h2 (String c (String m1 (String m2 EmptyString)))) =>
      forallb JsString.isDigit [h1; h2; m1; m2] && Ascii.eqb c ":"
  | _ => false
  end.

(** ** JavaScript numbers and dates *)

(** A number that holds an integer, or one of the non-finite values.  Time
    values, ranks and their differences are integers; only their sign and
    their order are observed, which the rounding of doubles preserves. *)
Inductive number : Type :=
| Num (z : Z)
| PosInfinity
| NegInfinity
| NaN.

Module JsNumber.

Definition MAX_SAFE_INTEGER : Z := 9007199254740991.

(** [a - b] *)
Definition sub (a b : number) : number :=
  match a, b with
  | NaN, _ | _, NaN => NaN
  | Num x, Num y => Num (x - y)
  | PosInfinity, PosInfinity | NegInfinity, NegInfinity => NaN
  | PosInfinity, _ | _, NegInfinity => PosInfinity
  | NegInfinity, _ | _, PosInfinity => NegInfinity
  end.

(** [a < b]: false as soon as one side is [NaN]. *)
Definition ltb (a b : number) : bool :=
  match a, b with
  | NaN, _ | _, NaN => false
  | Num x, Num y => x <? y
  | NegInfinity, NegInfinity | PosInfinity, _ | _, NegInfinity => false
  | NegInfinity, _ | _, PosInfinity => true
  end.

(** [a > b] *)
Definition gtb (a b : number) : bool := ltb b a.

(** [a !== b] on numbers: [NaN] differs from everything, itself included. *)
Definition strictNe (a b : number) : bool :=
  match a, b with
  | Num x, Num y => negb (x =? y)
  | PosInfinity, PosInfinity | NegInfinity, NegInfinity => false
  | _, _ => true
  end.

End JsNumber.

(** A [Date] object: a time value in milliseconds since the epoch, or the
    invalid date (time value [NaN]). *)
Inductive Date : Type :=
| TimeValue (t : Z)
| InvalidDate.

Module JsDate.

(** [d.getTime()], also the number a date is read as by [<], [>], [-]. *)
Definition getTime (d : Date) : number :=
  match d with
  | TimeValue t => Num t
  | InvalidDate => NaN
  end.

(** The largest magnitude of a time value. *)
Definition maxTime : Z := 8640000000000000.

(** [new Date(n)] from a number. *)
Definition TimeClip (n : number) : Date :=
  match n with
  | Num t => if Z.abs t <=? maxTime then TimeValue t else InvalidDate
  | _ => InvalidDate
  end.

(** [a < b] and [a > b] on dates. *)
Definition ltb (a b : Date) : bool := JsNumber.ltb (getTime a) (getTime b).
Definition gtb (a b : Date) : bool := JsNumber.gtb (getTime a) (getTime b).

End JsDate.

(** What the code takes from its runtime: the text parser behind
    [new Date(text)], the [Intl] formatters it calls with the zone
    [TZ = 'America/Chicago'], the offset of that zone, and the local zone of
    the process. *)
Class Host : Type := {
  (** [new Date(text)] *)
  DateParse : string -> Date;
  (** [d.toLocaleString('en-US', { timeZone: TZ, hour: 'numeric',
      minute: '2-digit' })] *)
  toLocaleString_hm : Date -> string;
  (** [d.toLocaleTimeString('en-US', { timeZone: TZ, hour: 'numeric',
      minute: '2-digit' })] *)
  toLocaleTimeString_hm : Date -> string;
  (** [d.toLocaleString('en-US', { timeZone: TZ, month: '2-digit',
      day: '2-digit', hour: 'numeric', minute: '2-digit' })] *)
  toLocaleString_mdhm : Date -> string;
  (** offset of [TZ] from UTC at a UTC instant, in milliseconds *)
  zoneOffset : Z -> Z;
  (** [LocalTZA(t, isUTC)] of the process: the offset of its local zone, at
      the UTC instant [t] or at the local time [t] *)
  LocalTZA : Z -> bool -> Z
}.

(** ** Pages of the task database *)

(** The payload of a date property. *)
Record DateValue : Type := {
  start : string;
  end_ : option string;
  time_zone : option string
}.

(** A property of a page, by its [type] discriminator; a payload that is
    [null] is [None]. *)
Inductive Property : Type :=
| date_ (date : option DateValue)
| status_ (name : option string)
| select_ (name : option string)
| relation_ (ids : list string)
| title_ (plain_text : list string)
| other_.

Record Page : Type := {
  id : string;
  properties : list (string * Property)
}.

(** What [readProp] returns. *)
Inductive PropValue : Type :=
| Null
| DateObj (d : DateValue)
| Str (s : string)
| Ids (l : list string).

Module JsValue.

Definition truthy (v : PropValue) : bool :=
  match v with
  | Null => false
  | Str s => JsString.truthy s
  | DateObj _ | Ids _ => true
  end.

(** [v || 'text'] *)
Definition orStr (v : PropValue) (text : string) : PropValue :=
  if truthy v then v else Str text.

(** [name || null] on an optional name *)
Definition orNull (name : option string) : PropValue :=
  match name with
  | Some s => if JsString.truthy s then Str s else Null
  | None => Null
  end.

(** [v === 'text'] *)
Definition strictEq (v : PropValue) (text : string) : bool :=
  match v with
  | Str s => String.eqb s text
  | _ => false
  end.

(** [String(v)], as a template literal and a property key convert [v]: an
    array joins its elements with commas. *)
Definition toString (v : PropValue) : string :=
  match v with
  | Null => "null"
  | Str s => s
  | DateObj _ => "[object Object]"
  | Ids l => String.concat "," l
  end.

(** [v?.start]: only a date payload has a [start]; [None] is
    [undefined]. *)
Definition startOf (v : PropValue) : option string :=
  match v with
  | DateObj d => Some (start d)
  | _ => None
  end.

(** [a || b] on optional texts *)
Definition orElse (a b : option string) : option string :=
  match a with
  | Some s => if JsString.truthy s then a else b
  | None => b
  end.

(** [v?.start || null] *)
Definition startOrNull (v : PropValue) : option string :=
  orElse (startOf v) None.

End JsValue.

(** [page.properties?.[key]] *)
Fixpoint lookupProperty (props : list (string * Property)) (key : string)
  : option Property :=
  match props with
  | [] => None
  | (k, p) :: rest => if String.eqb k key then Some p else lookupProperty rest key
  end.

Definition readProp (page : Page) (key : string) : PropValue :=
  match lookupProperty (properties page) key with
  | None => Null
  | Some (date_ None) => Null
  | Some (date_ (Some d)) => DateObj d
  | Some (status_ name) => JsValue.orNull name
  | Some (select_ name) => JsValue.orNull name
  | Some (relation_ ids) => Ids ids
  | Some (title_ texts) => Str (String.concat "" texts)
  | Some other_ => Null
  end.

(** ** Coach helpers *)

Definition coachWhyMatters (page : Page) : string :=
  let t := JsValue.orStr (readProp page "Type") "" in
  let pr := JsValue.orStr (readProp page "Priority Level") "" in
  if JsValue.strictEq pr "HIGH" then
    "High-impact lever — moves a top outcome forward."
  else if JsValue.strictEq t "Event" then
    "Time-bound; missing it creates downstream delays."
  else if JsValue.strictEq t "Call" then
    "Maintains momentum and unblocks next steps."
  else "Keeps your cadence strong and reduces task spillover.".

Definition coachNextMove (page : Page) : string :=
  let t := JsValue.orStr (readProp page "Type") "" in
  if JsValue.strictEq t "Call" then
    "Confirm agenda + dial in five minutes early."
  else if JsValue.strictEq t "Event" then
    "Skim notes + prep one question to ask."
  else "Define the first 10-minute action and start it.".

Definition coachFixNow : string :=
  "Do the smallest unblocked step right now and log it in the page.".

(** [iso ? new Date(iso) : null] *)
Definition tsLocal `{Host} (iso : option string) : option Date :=
  match iso with
  | Some text => if JsString.truthy text then Some (DateParse text) else None
  | None => None
  end.

Module PrimaryWhen.
Record t : Type := {
  which : string;
  iso : option string;
  date : option Date
}.
End PrimaryWhen.

Definition getPrimaryWhen `{Host} (page : Page) : PrimaryWhen.t :=
  let dd := JsValue.startOrNull (readProp page "Do Date") in
  let due := JsValue.startOrNull (readProp page "Due Date") in
  let which := match dd with Some _ => "do" | None => "due" end in
  let pick := match dd with Some _ => dd | None => due end in
  {| PrimaryWhen.which := which;
     PrimaryWhen.iso := pick;
     PrimaryWhen.date := tsLocal pick |}.

Module CoachLine.
Record t : Type := {
  id : string;
  line : string;
  why : string;
  next : string;
  fix_ : string;
  suggestReminder : bool
}.
End CoachLine.

Definition asCoachLine `{Host} (page : Page) (which : string) (now : Z)
  : CoachLine.t :=
  let name := JsValue.orStr (readProp page "Name") "(Untitled)" in
  let type := JsValue.orStr (readProp page "Type") "" in
  let alignment := JsValue.orStr (readProp page "Alignment") "" in
  let status := JsValue.orStr (readProp page "Status") "" in
  let dd := JsValue.startOrNull (readProp page "Do Date") in
  let due := JsValue.startOrNull (readProp page "Due Date") in
  let label := if String.eqb which "do" then "Do" else "Due" in
  let dtISO := if String.eqb which "do" then dd else due in
  let dt := tsLocal dtISO in
  let timeLabel :=
    match dt with
    | Some d => toLocaleString_hm d
    | None => "no time"
    end in
  {| CoachLine.id := id page;
     CoachLine.line :=
       "**" ++ JsValue.toString name ++ "** — " ++ label ++ " • " ++ timeLabel
       ++ (if JsValue.truthy type then " — " ++ JsValue.toString type else "")
       ++ (if JsValue.truthy alignment
           then " — " ++ JsValue.toString alignment else "")
       ++ " — Status: " ++ JsValue.toString (JsValue.orStr status "N/A");
     CoachLine.why := coachWhyMatters page;
     CoachLine.next := coachNextMove page;
     CoachLine.fix_ := coachFixNow;
     CoachLine.suggestReminder :=
       match dt with
       | Some d => JsDate.gtb d (TimeValue now)
       | None => false
       end |}.

(** ** Plain objects used as maps *)

Module JsObject.

(** The property names every plain object inherits from
    [Object.prototype]. *)
Definition prototypeNames : list string :=
  [ "constructor"; "__defineGetter__"; "__defineSetter__"; "hasOwnProperty";
    "__lookupGetter__"; "__lookupSetter__"; "isPrototypeOf";
    "propertyIsEnumerable"; "toString"; "valueOf"; "__proto__";
    "toLocaleString" ].

Definition inherited (key : string) : bool :=
  existsb (String.eqb key) prototypeNames.

(** The result of [o[key]]: an own property, a value inherited under that
    name (a function, or the prototype itself for [__proto__]), or
    [undefined]. *)
Inductive lookup (V : Type) : Type :=
| Own (v : V)
| Inherited (name : string)
| Undefined.

Arguments Own {V} v.
Arguments Inherited {V} name.
Arguments Undefined {V}.

(** Own properties, in the order of their creation. *)
Fixpoint getOwn {V : Type} (o : list (string * V)) (key : string) : option V :=
  match o with
  | [] => None
  | (k, v) :: rest => if String.eqb k key then Some v else getOwn rest key
  end.

Definition get {V : Type} (o : list (string * V)) (key : string) : lookup V :=
  match getOwn o key with
  | Some v => Own v
  | None => if inherited key then Inherited key else Undefined
  end.

Fixpoint setOwn {V : Type} (o : list (string * V)) (key : string) (v : V)
  : list (string * V) :=
  match o with
  | [] => [(key, v)]
  | (k, w) :: rest =>
      if String.eqb k key then (k, v) :: rest else (k, w) :: setOwn rest key v
  end.

(** [o[key] = v] for a primitive [v]: an existing own property keeps its
    place, a new one is created last; [__proto__] is an accessor whose
    setter ignores a primitive, so that no property is created. *)
Definition set {V : Type} (o : list (string * V)) (key : string) (v : V)
  : list (string * V) :=
  if String.eqb key "__proto__" then o else setOwn o key v.

Fixpoint decimalValue (acc : Z) (s : string) : Z :=
  match s with
  | EmptyString => acc
  | String c rest =>
      decimalValue (10 * acc + Z.of_nat (nat_of_ascii c) - 48) rest
  end.

(** An array index: the canonical decimal text of an integer from [0] to
    [2^32 - 2]. *)
Definition arrayIndex (key : string) : option Z :=
  match key with
  | EmptyString => None
  | String c rest =>
      if JsString.allDigits key
         && (negb (Ascii.eqb c "0") || negb (JsString.truthy rest))
      then
        let v := decimalValue 0 key in
        if v <? 4294967295 then Some v else None
      else None
  end.

Definition isArrayIndex (key : string) : bool :=
  match arrayIndex key with
  | Some _ => true
  | None => false
  end.

Definition indexOf (key : string) : Z :=
  match arrayIndex key with
  | Some i => i
  | None => 0
  end.

End JsObject.

(** ** Arrays *)

Module JsArray.

(** How [sort] reads the value of the comparator: positive, or not ([NaN]
    counts as zero). *)
Definition positive (v : number) : bool :=
  match v with
  | Num z => 0 <? z
  | PosInfinity => true
  | NegInfinity | NaN => false
  end.

Fixpoint insert {A : Type} (cmp : A -> A -> number) (x : A) (l : list A)
  : list A :=
  match l with
  | [] => [x]
  | y :: rest =>
      if positive (cmp x y) then y :: insert cmp x rest else x :: y :: rest
  end.

(** [l.sort(cmp)].  The sort is stable, and for a comparator that orders the
    elements consistently the result is fixed by the language: the sorted
    rearrangement that keeps equal elements in their order, which stable
    insertion computes.  (With an inconsistent comparator the order is left
    to the engine.) *)
Definition sort {A : Type} (cmp : A -> A -> number) (l : list A) : list A :=
  fold_right (insert cmp) [] l.

(** [l.push(x)] *)
Definition push {A : Type} (l : list A) (x : A) : list A := l ++ [x].

End JsArray.

(** The own enumerable properties in the order [Object.entries] lists them:
    array indices in ascending numeric order, then the other names in the
    order of their creation. *)
Definition objectEntries {V : Type} (o : list (string * V)) : list (string * V) :=
  JsArray.sort
    (fun a b => Num (JsObject.indexOf (fst a) - JsObject.indexOf (fst b)))
    (filter (fun e => JsObject.isArrayIndex (fst e)) o)
  ++ filter (fun e => negb (JsObject.isArrayIndex (fst e))) o.

(** ** [/analysis/today] *)

Definition prioRank : list (string * Z) :=
  [("HIGH", 1); ("MID", 2); ("LOW", 3); ("", 4)].

Definition statusRank : list (string * Z) :=
  [("Not started", 1); ("In progress", 2); ("Done", 3); ("", 4)].

(** The value of [table[key] || 99]: a number, or the object inherited
    under a name of [Object.prototype]. *)
Inductive rank : Type :=
| RankNumber (n : Z)
| RankObject (name : string).

Definition rankOr99 (table : list (string * Z)) (key : PropValue) : rank :=
  match JsObject.get table (JsValue.toString key) with
  | JsObject.Own n => if n =? 0 then RankNumber 99 else RankNumber n
  | JsObject.Inherited name => RankObject name
  | JsObject.Undefined => RankNumber 99
  end.

(** [a !== b] on ranks: two inherited objects are the same object exactly
    when they are inherited under the same name. *)
Definition rankStrictNe (a b : rank) : bool :=
  match a, b with
  | RankNumber x, RankNumber y => negb (x =? y)
  | RankObject n, RankObject m => negb (String.eqb n m)
  | _, _ => true
  end.

(** [a - b] on ranks: an object converts to [NaN]. *)
Definition rankSub (a b : rank) : number :=
  match a, b with
  | RankNumber x, RankNumber y => Num (x - y)
  | _, _ => NaN
  end.

Definition getTime `{Host} (p : Page) : number :=
  match PrimaryWhen.date (getPrimaryWhen p) with
  | Some w => JsDate.getTime w
  | None => Num JsNumber.MAX_SAFE_INTEGER
  end.

(** The comparator handed to [items.sort]. *)
Definition compareItems `{Host} (a b : Page) : number :=
  let ap := JsValue.orStr (readProp a "Priority Level") "" in
  let bp := JsValue.orStr (readProp b "Priority Level") "" in
  let aP := rankOr99 prioRank ap in
  let bP := rankOr99 prioRank bp in
  if rankStrictNe aP bP then rankSub aP bP
  else
    let at_ := getTime a in
    let bt := getTime b in
    if JsNumber.strictNe at_ bt then JsNumber.sub at_ bt
    else
      let as_ := rankOr99 statusRank (JsValue.orStr (readProp a "Status") "") in
      let bs := rankOr99 statusRank (JsValue.orStr (readProp b "Status") "") in
      rankSub as_ bs.

Module Timed.
Record t : Type := {
  date : Date;
  line : CoachLine.t
}.
End Timed.

Module Gap.
Record t : Type := {
  window : string;
  suggestions : list PropValue
}.
End Gap.

(** The three arrays the partition loop fills. *)
Module Buckets.
Record t : Type := {
  overdue : list CoachLine.t;
  scheduled : list CoachLine.t;
  scheduledTimed : list Timed.t
}.
Definition empty : t :=
  {| overdue := []; scheduled := []; scheduledTimed := [] |}.
End Buckets.

(** One turn of [for (const page of items)]. *)
Definition partitionStep `{Host} (now : Z) (b : Buckets.t) (page : Page)
  : Buckets.t :=
  let pw := getPrimaryWhen page in
  let which := PrimaryWhen.which pw in
  match PrimaryWhen.date pw with
  | Some date =>
      if JsDate.ltb date (TimeValue now) then
        {| Buckets.overdue :=
             JsArray.push (Buckets.overdue b) (asCoachLine page which now);
           Buckets.scheduled := Buckets.scheduled b;
           Buckets.scheduledTimed := Buckets.scheduledTimed b |}
      else
        let line := asCoachLine page which now in
        {| Buckets.overdue := Buckets.overdue b;
           Buckets.scheduled := JsArray.push (Buckets.scheduled b) line;
           Buckets.scheduledTimed :=
             JsArray.push (Buckets.scheduledTimed b)
               {| Timed.date := date; Timed.line := line |} |}
  | None =>
      {| Buckets.overdue := Buckets.overdue b;
         Buckets.scheduled :=
           JsArray.push (Buckets.scheduled b) (asCoachLine page "do" now);
         Buckets.scheduledTimed := Buckets.scheduledTimed b |}
  end.

Definition partitionLoop `{Host} (now : Z) (items : list Page) : Buckets.t :=
  fold_left (partitionStep now) items Buckets.empty.

(** The quotient [(b - a) / 60000], which need not be an integer.  It is
    kept exact: the double nearest to it lies on the same side of 60, a
    double itself, as the quotient does. *)
Inductive quotient : Type :=
| Quot (q : Q)
| QuotPosInfinity
| QuotNegInfinity
| QuotNaN.

Definition divide (n : number) (d : positive) : quotient :=
  match n with
  | Num z => Quot (z # d)
  | PosInfinity => QuotPosInfinity
  | NegInfinity => QuotNegInfinity
  | NaN => QuotNaN
  end.

(** [q >= k] *)
Definition quotientGe (q : quotient) (k : Z) : bool :=
  match q with
  | Quot x => Qle_bool (inject_Z k) x
  | QuotPosInfinity => true
  | QuotNegInfinity | QuotNaN => false
  end.

(** The names offered with every gap: the first two items of the sorted
    list whose priority is not HIGH. *)
Definition gapSuggestions (items : list Page) : list PropValue :=
  map (fun p => readProp p "Name")
    (firstn 2
       (filter
          (fun p =>
             let pr := JsValue.orStr (readProp p "Priority Level") "" in
             negb (JsValue.strictEq pr "HIGH"))
          items)).

(** The body of the gap loop at index [i]. *)
Definition gapAt `{Host} (items : list Page) (scheduledTimed : list Timed.t)
  (i : nat) : list Gap.t :=
  match nth_error scheduledTimed i, nth_error scheduledTimed (S i) with
  | Some ta, Some tb =>
      let a := Timed.date ta in
      let b := Timed.date tb in
      let diffMin :=
        divide (JsNumber.sub (JsDate.getTime b) (JsDate.getTime a)) 60000 in
      if quotientGe diffMin 60 then
        [ {| Gap.window :=
               toLocaleTimeString_hm a ++ "–" ++ toLocaleTimeString_hm b;
             Gap.suggestions := gapSuggestions items |} ]
      else []
  | _, _ => []
  end.

(** [for (let i = 0; i < scheduledTimed.length - 1; i++)] over the timed
    entries, already sorted. *)
Definition gapLoop `{Host} (items : list Page) (scheduledTimed : list Timed.t)
  : list Gap.t :=
  flat_map (gapAt items scheduledTimed) (seq 0 (List.length scheduledTimed - 1)).

Definition compareTimed (a b : Timed.t) : number :=
  JsNumber.sub (JsDate.getTime (Timed.date a)) (JsDate.getTime (Timed.date b)).

Module StatusMix.
Record t : Type := {
  notStarted : nat;
  inProgress : nat;
  done : nat
}.
End StatusMix.

Module QuickTally.
Record t : Type := {
  total : nat;
  high : nat;
  dueHard : nat;
  doCount : nat;
  statusMix : StatusMix.t
}.
End QuickTally.

Definition countWhere (f : Page -> bool) (items : list Page) : nat :=
  List.length (filter f items).

Definition quickTally (items : list Page) : QuickTally.t :=
  let hasStart key p :=
    match JsValue.startOf (readProp p key) with
    | Some s => JsString.truthy s
    | None => false
    end in
  let statusIs text p := JsValue.strictEq (readProp p "Status") text in
  {| QuickTally.total := List.length items;
     QuickTally.high :=
       countWhere (fun p => JsValue.strictEq (readProp p "Priority Level") "HIGH")
         items;
     QuickTally.dueHard := countWhere (hasStart "Due Date") items;
     QuickTally.doCount := countWhere (hasStart "Do Date") items;
     QuickTally.statusMix :=
       {| StatusMix.notStarted := countWhere (statusIs "Not started") items;
          StatusMix.inProgress := countWhere (statusIs "In progress") items;
          StatusMix.done := countWhere (statusIs "Done") items |} |}.

Module TodayReport.
Record t : Type := {
  overdue : list CoachLine.t;
  scheduled : list CoachLine.t;
  gaps : list Gap.t;
  quickTally : QuickTally.t
}.
End TodayReport.

(** The handler after the query: [results] are the pages the database
    returned, [now] the clock.  (The header and the closing nudge are fixed
    text around the date of the day.) *)
Definition analysisToday `{Host} (results : list Page) (now : Z)
  : TodayReport.t :=
  let items := JsArray.sort compareItems results in
  let b := partitionLoop now items in
  let scheduledTimed := JsArray.sort compareTimed (Buckets.scheduledTimed b) in
  {| TodayReport.overdue := Buckets.overdue b;
     TodayReport.scheduled := Buckets.scheduled b;
     TodayReport.gaps := gapLoop items scheduledTimed;
     TodayReport.quickTally := quickTally items |}.

(** ** [/analysis/7day] and [/analysis/period] *)

Definition getPriority (p : Page) : PropValue :=
  JsValue.orStr (readProp p "Priority Level") "".
Definition getStatus (p : Page) : PropValue :=
  JsValue.orStr (readProp p "Status") "".
Definition getType (p : Page) : PropValue :=
  JsValue.orStr (readProp p "Type") "".
Definition getAlign (p : Page) : PropValue :=
  JsValue.orStr (readProp p "Alignment") "".

(** [Date.now() + 48 * 3600 * 1000] *)
Definition soonAfter (now : Z) : Z := now + 48 * 3600 * 1000.

(** The predicate of the [riskWatch] filter of [/analysis/7day]. *)
Definition riskWatch7day `{Host} (soon : Z) (p : Page) : bool :=
  let st := getStatus p in
  let doStart := JsValue.startOf (readProp p "Do Date") in
  let dueStart := JsValue.startOf (readProp p "Due Date") in
  let first := JsValue.orElse doStart dueStart in
  let t :=
    match first with
    | Some text =>
        if JsString.truthy text then JsDate.getTime (DateParse text)
        else PosInfinity
    | None => PosInfinity
    end in
  JsValue.strictEq st "Not started" && JsNumber.ltb t (Num soon).

(** The predicate of the [riskWatch] filter of [/analysis/period]. *)
Definition riskWatchPeriod `{Host} (soon : Z) (p : Page) : bool :=
  JsValue.strictEq (getStatus p) "Not started"
  && (let dd :=
        JsValue.orElse
          (JsValue.orElse (JsValue.startOf (readProp p "Do Date"))
             (JsValue.startOf (readProp p "Due Date")))
          None in
      match dd with
      | Some text =>
          if JsString.truthy text
          then JsNumber.ltb (JsDate.getTime (DateParse text)) (Num soon)
          else false
      | None => false
      end).

(** The value stored under a label: a number, or a text once something
    other than a number was found under the label. *)
Inductive count : Type :=
| CountNumber (n : Z)
| CountText (s : string).

(** [String(v)] of the value inherited under [name]: the source text of a
    built-in function, or of the prototype object for [__proto__]. *)
Definition inheritedText (name : string) : string :=
  if String.eqb name "__proto__" then "[object Object]"
  else
    "function "
    ++ (if String.eqb name "constructor" then "Object" else name)
    ++ "() { [native code] }".

(** [(m[a] || 0) + 1] *)
Definition bump (m : list (string * count)) (a : string) : count :=
  match JsObject.get m a with
  | JsObject.Own (CountNumber n) => CountNumber (n + 1)
  | JsObject.Own (CountText s) =>
      if JsString.truthy s then CountText (s ++ "1") else CountNumber 1
  | JsObject.Inherited name => CountText (inheritedText name ++ "1")
  | JsObject.Undefined => CountNumber 1
  end.

(** The reducer of [items.reduce((m, p) => ..., {})]. *)
Definition groupStep (m : list (string * count)) (p : Page)
  : list (string * count) :=
  let a := JsValue.toString (JsValue.orStr (getAlign p) "Unassigned") in
  JsObject.set m a (bump m a).

Definition groups (items : list Page) : list (string * count) :=
  fold_left groupStep items [].

Module AlignmentCount.
Record t : Type := {
  alignment : string;
  count_ : count
}.
End AlignmentCount.

Definition alignmentCheck (items : list Page) : list AlignmentCount.t :=
  map (fun e => {| AlignmentCount.alignment := fst e;
                   AlignmentCount.count_ := snd e |})
    (objectEntries (groups items)).

(** The line of an item in the period reports. *)
Definition line `{Host} (page : Page) : string :=
  let name := JsValue.orStr (readProp page "Name") "(Untitled)" in
  let type := getType page in
  let alignment := getAlign page in
  let status := JsValue.orStr (getStatus page) "N/A" in
  let pr := JsValue.orStr (getPriority page) "N/A" in
  let dd := JsValue.startOrNull (readProp page "Do Date") in
  let due := JsValue.startOrNull (readProp page "Due Date") in
  let which := match dd with Some _ => "Do" | None => "Due" end in
  let pick := match dd with Some _ => dd | None => due end in
  let dt :=
    match pick with
    | Some text =>
        if JsString.truthy text then toLocaleString_mdhm (DateParse text)
        else "no time"
    | None => "no time"
    end in
  "**" ++ JsValue.toString name ++ "** — " ++ which ++ " • " ++ dt
  ++ (if JsValue.truthy type then " — " ++ JsValue.toString type else "")
  ++ (if JsValue.truthy alignment then " — " ++ JsValue.toString alignment else "")
  ++ " — Priority: " ++ JsValue.toString pr
  ++ " — Status: " ++ JsValue.toString status.

Module Sections.
Record t : Type := {
  highPriority : list string;
  strategicWins : list string;
  riskWatch : list string;
  alignmentCheck : list AlignmentCount.t
}.
End Sections.

Definition isHigh (p : Page) : bool := JsValue.strictEq (getPriority p) "HIGH".

Definition isStrategic (p : Page) : bool :=
  let pr := getPriority p in
  JsValue.strictEq pr "MID" || JsValue.strictEq pr "LOW" || JsValue.strictEq pr "".

(** The items [/analysis/7day] keeps for its [riskWatch] section. *)
Definition riskWatch `{Host} (items : list Page) (now : Z) : list Page :=
  filter (riskWatch7day (soonAfter now)) items.

Definition analysis7day `{Host} (items : list Page) (now : Z) : Sections.t :=
  {| Sections.highPriority := map line (filter isHigh items);
     Sections.strategicWins := map line (filter isStrategic items);
     Sections.riskWatch := map line (riskWatch items now);
     Sections.alignmentCheck := alignmentCheck items |}.

Definition analysisPeriod `{Host} (items : list Page) (now : Z) : Sections.t :=
  {| Sections.highPriority := map line (filter isHigh items);
     Sections.strategicWins := map line (filter isStrategic items);
     Sections.riskWatch :=
       map line (filter (riskWatchPeriod (soonAfter now)) items);
     Sections.alignmentCheck := alignmentCheck items |}.

(** ** Time values and civil fields *)

Module JsTime.

Definition msPerDay : Z := 86400000.
Definition msPerHour : Z := 3600000.
Definition msPerMinute : Z := 60000.
Definition msPerSecond : Z := 1000.

Definition Day (t : Z) : Z := t / msPerDay.
Definition TimeWithinDay (t : Z) : Z := t mod msPerDay.

(** Year, month (from 0) and day of the month of a day number, in the
    proleptic Gregorian calendar. *)
Definition civilFromDays (day : Z) : Z * Z * Z :=
  let z := day + 719468 in
  let era := z / 146097 in
  let doe := z - era * 146097 in
  let yoe := (doe - doe / 1460 + doe / 36524 - doe / 146096) / 365 in
  let y := yoe + era * 400 in
  let doy := doe - (365 * yoe + yoe / 4 - yoe / 100) in
  let mp := (5 * doy + 2) / 153 in
  let d := doy - (153 * mp + 2) / 5 + 1 in
  let m := if mp <? 10 then mp + 3 else mp - 9 in
  (if m <=? 2 then y + 1 else y, m - 1, d).

(** The day number of the first day of month [m] (from 0) of year [y]. *)
Definition daysFromCivil (y m : Z) : Z :=
  let y' := if m <=? 1 then y - 1 else y in
  let era := y' / 400 in
  let yoe := y' - era * 400 in
  let doy := (153 * (if 1 <? m then m - 2 else m + 10) + 2) / 5 in
  let doe := yoe * 365 + yoe / 4 - yoe / 100 + doy in
  era * 146097 + doe - 719468.

Definition YearFromTime (t : Z) : Z := fst (fst (civilFromDays (Day t))).
Definition MonthFromTime (t : Z) : Z := snd (fst (civilFromDays (Day t))).
Definition DateFromTime (t : Z) : Z := snd (civilFromDays (Day t)).
Definition HourFromTime (t : Z) : Z := (t / msPerHour) mod 24.
Definition MinFromTime (t : Z) : Z := (t / msPerMinute) mod 60.
Definition SecFromTime (t : Z) : Z := (t / msPerSecond) mod 60.
Definition msFromTime (t : Z) : Z := t mod msPerSecond.

Definition MakeTime (hour min sec ms : Z) : Z :=
  hour * msPerHour + min * msPerMinute + sec * msPerSecond + ms.

Definition MakeDay (year month date : Z) : Z :=
  let ym := year + month / 12 in
  let mn := month mod 12 in
  daysFromCivil ym mn + date - 1.

Definition MakeDate (day time : Z) : Z := day * msPerDay + time.

(** Local time of the process and back. *)
Definition LocalTime `{Host} (t : Z) : Z := t + LocalTZA t true.
Definition UTC `{Host} (t : Z) : Z := t - LocalTZA t false.

(** [new Date(y, m, d, h, mi, s)]: fields read in the local zone of the
    process; a year from 0 to 99 counts from 1900. *)
Definition newDate `{Host} (y m d h mi s : Z) : Date :=
  let yr := if (0 <=? y) && (y <=? 99) then 1900 + y else y in
  JsDate.TimeClip (Num (UTC (MakeDate (MakeDay yr m d) (MakeTime h mi s 0)))).

Definition decimal (n : Z) : string :=
  NilZero.string_of_uint (N.to_uint (Z.to_N n)).

Definition pad (width : nat) (n : Z) : string :=
  JsString.padStart width "0" (decimal n).

(** [d.toISOString()]; [None] is the [RangeError] of an invalid date. *)
Definition toISOString (d : Date) : option string :=
  match d with
  | InvalidDate => None
  | TimeValue t =>
      let y := YearFromTime t in
      let year :=
        if (0 <=? y) && (y <=? 9999) then pad 4 y
        else (if y <? 0 then "-" else "+") ++ pad 6 (Z.abs y) in
      Some (year ++ "-" ++ pad 2 (MonthFromTime t + 1) ++ "-"
            ++ pad 2 (DateFromTime t) ++ "T" ++ pad 2 (HourFromTime t) ++ ":"
            ++ pad 2 (MinFromTime t) ++ ":" ++ pad 2 (SecFromTime t) ++ "."
            ++ pad 3 (msFromTime t) ++ "Z")
  end.

End JsTime.

(** ** The window of today: [startEndOfToday] *)

(** [new Date(now.toLocaleString('en-US', { timeZone: TZ }))]: the text
    carries the wall clock of the zone at [now], to the second, and is read
    back as a local time of the process.  (Years of four digits, which the
    text shows as they are.) *)
Definition zoneClock `{Host} (now : Z) : Date :=
  let w := now + zoneOffset now in
  JsTime.newDate (JsTime.YearFromTime w) (JsTime.MonthFromTime w)
    (JsTime.DateFromTime w) (JsTime.HourFromTime w) (JsTime.MinFromTime w)
    (JsTime.SecFromTime w).

Module TodayBounds.
Record t : Type := {
  start_ : Date;
  end_ : Date;
  y : Z;
  m : Z;
  d : Z
}.
End TodayBounds.

(** The dates [start] and [end] and the civil date, before the texts are
    made; [None] when the zone clock is an invalid date, whose fields are
    [NaN]. *)
Definition todayBounds `{Host} (now : Z) : option TodayBounds.t :=
  match zoneClock now with
  | InvalidDate => None
  | TimeValue chicagoNow =>
      let delta := now - chicagoNow in
      let y := JsTime.YearFromTime (JsTime.LocalTime chicagoNow) in
      let m := JsTime.MonthFromTime (JsTime.LocalTime chicagoNow) in
      let d := JsTime.DateFromTime (JsTime.LocalTime chicagoNow) in
      let startLocal := JsTime.newDate y m d 0 0 0 in
      let endLocal := JsTime.newDate y m d 23 59 59 in
      let shift (local : Date) : Date :=
        JsDate.TimeClip
          (match JsDate.getTime local with
           | Num t => Num (t + delta)
           | other => other
           end) in
      Some {| TodayBounds.start_ := shift startLocal;
              TodayBounds.end_ := shift endLocal;
              TodayBounds.y := y;
              TodayBounds.m := m;
              TodayBounds.d := d |}
  end.

Module TodayWindow.
Record t : Type := {
  startISO : string;
  endISO : string;
  y : Z;
  m : Z;
  d : Z
}.
End TodayWindow.

(** [None] is the [RangeError] that [toISOString] throws. *)
Definition startEndOfToday `{Host} (now : Z) : option TodayWindow.t :=
  match todayBounds now with
  | None => None
  | Some b =>
      match JsTime.toISOString (TodayBounds.start_ b),
            JsTime.toISOString (TodayBounds.end_ b) with
      | Some startISO, Some endISO =>
          Some {| TodayWindow.startISO := startISO;
                  TodayWindow.endISO := endISO;
                  TodayWindow.y := TodayBounds.y b;
                  TodayWindow.m := TodayBounds.m b + 1;
                  TodayWindow.d := TodayBounds.d b |}
      | _, _ => None
      end
  end.

(** ** A concrete runtime

    A process running in UTC, with [TZ] on daylight time (five hours behind
    UTC, as Chicago is in June), dates exchanged in the ISO format of the
    database, and the [en-US] clock texts. *)

Module SummerHost.

Definition field (s : string) (pos len : nat) : option Z :=
  let f := substring pos len s in
  if JsString.digits len f then Some (JsObject.decimalValue 0 f) else None.

Definition charIs (s : string) (pos : nat) (c : ascii) : bool :=
  match String.get pos s with
  | Some x => Ascii.eqb x c
  | None => false
  end.

(** [YYYY-MM-DD], read as midnight UTC. *)
Definition parseDay (s : string) : option Z :=
  match field s 0 4, field s 5 2, field s 8 2 with
  | Some y, Some m, Some d =>
      if charIs s 4 "-" && charIs s 7 "-"
         && (1 <=? m) && (m <=? 12) && (1 <=? d) && (d <=? 31)
      then Some (JsTime.MakeDate (JsTime.MakeDay y (m - 1) d) 0)
      else None
  | _, _, _ => None
  end.

(** [THH:mm:ss.sss] from position 10, as milliseconds within the day. *)
Definition parseClock (s : string) : option Z :=
  match field s 11 2, field s 14 2, field s 17 2, field s 20 3 with
  | Some h, Some mi, Some sec, Some ms =>
      if charIs s 10 "T" && charIs s 13 ":" && charIs s 16 ":"
         && charIs s 19 "." && (h <=? 23) && (mi <=? 59) && (sec <=? 59)
      then Some (JsTime.MakeTime h mi sec ms)
      else None
  | _, _, _, _ => None
  end.

(** [Z] or [+HH:mm] or [-HH:mm] from position 23, as milliseconds. *)
Definition parseOffset (s : string) : option Z :=
  if (String.length s =? 24)%nat && charIs s 23 "Z" then Some 0
  else if (String.length s =? 29)%nat && charIs s 26 ":" then
    match field s 24 2, field s 27 2 with
    | Some h, Some mi =>
        let off := JsTime.MakeTime h mi 0 0 in
        if charIs s 23 "+" then Some off
        else if charIs s 23 "-" then Some (- off)
        else None
    | _, _ => None
    end
  else None.

Definition parse (s : string) : Date :=
  if (String.length s =? 10)%nat then
    match parseDay s with
    | Some t => JsDate.TimeClip (Num t)
    | None => InvalidDate
    end
  else
    match parseDay (substring 0 10 s), parseClock s, parseOffset s with
    | Some day, Some clock, Some off => JsDate.TimeClip (Num (day + clock - off))
    | _, _, _ => InvalidDate
    end.

Definition offset : Z := -18000000.

(** [9:30 AM] *)
Definition clockText (d : Date) : string :=
  match d with
  | InvalidDate => "Invalid Date"
  | TimeValue t =>
      let w := t + offset in
      let h := JsTime.HourFromTime w in
      JsTime.decimal (if h mod 12 =? 0 then 12 else h mod 12) ++ ":"
      ++ JsTime.pad 2 (JsTime.MinFromTime w)
      ++ (if h <? 12 then " AM" else " PM")
  end.

(** [06/15, 9:30 AM] *)
Definition dayClockText (d : Date) : string :=
  match d with
  | InvalidDate => "Invalid Date"
  | TimeValue t =>
      let w := t + offset in
      JsTime.pad 2 (JsTime.MonthFromTime w + 1) ++ "/"
      ++ JsTime.pad 2 (JsTime.DateFromTime w) ++ ", " ++ clockText d
  end.

#[export] Instance host : Host := {
  DateParse := parse;
  toLocaleString_hm := clockText;
  toLocaleTimeString_hm := clockText;
  toLocaleString_mdhm := dayClockText;
  zoneOffset := fun _ => offset;
  LocalTZA := fun _ _ => 0
}.

End SummerHost.

(** ** The vocabulary of the specification *)

(** The start text of a date property that is set. *)
Definition startText (p : Page) (key : string) : option string :=
  match lookupProperty (properties p) key with
  | Some (date_ (Some d)) =>
      if String.eqb (start d) "" then None else Some (start d)
  | _ => None
  end.

(** The instant a start text denotes, when it denotes one. *)
Definition instantOfText `{Host} (text : option string) : option Z :=
  match text with
  | Some s =>
      match DateParse s with
      | TimeValue t => Some t
      | InvalidDate => None
      end
  | None => None
  end.

Definition doInstant `{Host} (p : Page) : option Z :=
  instantOfText (startText p "Do Date").

Definition dueInstant `{Host} (p : Page) : option Z :=
  instantOfText (startText p "Due Date").

(** The primary instant: the do start if present, else the due start. *)
Definition primaryText (p : Page) : option string :=
  match startText p "Do Date" with
  | Some s => Some s
  | None => startText p "Due Date"
  end.

Definition primaryInstant `{Host} (p : Page) : option Z :=
  instantOfText (primaryText p).

(** The label under which the primary instant is shown. *)
Definition primaryWhich (p : Page) : string :=
  match startText p "Do Date" with
  | Some _ => "do"
  | None => "due"
  end.

(** The label of a single-choice property, [""] when unset. *)
Definition choiceLabel (p : Page) (key : string) : string :=
  match lookupProperty (properties p) key with
  | Some (select_ (Some s)) | Some (status_ (Some s)) => s
  | _ => ""
  end.

(** A well-formed item: priority and status are single choices among the
    known labels, or unset, and the start texts that are set denote
    instants within the range of time values. *)
Definition choiceAmong (allowed : list string) (p : Page) (key : string) : bool :=
  match lookupProperty (properties p) key with
  | None | Some (select_ None) | Some (status_ None) => true
  | Some (select_ (Some s)) | Some (status_ (Some s)) =>
      existsb (String.eqb s) ("" :: allowed)
  | Some _ => false
  end.

Definition validStart `{Host} (p : Page) (key : string) : bool :=
  match startText p key with
  | Some s =>
      match DateParse s with
      | TimeValue t => Z.abs t <=? JsDate.maxTime
      | InvalidDate => false
      end
  | None => true
  end.

Definition wellFormed `{Host} (p : Page) : bool :=
  choiceAmong ["HIGH"; "MID"; "LOW"] p "Priority Level"
  && choiceAmong ["Not started"; "In progress"; "Done"] p "Status"
  && validStart p "Do Date" && validStart p "Due Date".

(** The sort key: priority rank, primary instant ([None] is the instant
    after all others), status rank. *)
Definition priorityRank (p : Page) : Z :=
  let l := choiceLabel p "Priority Level" in
  if String.eqb l "HIGH" then 1
  else if String.eqb l "MID" then 2
  else if String.eqb l "LOW" then 3
  else 4.

Definition statusRankOf (p : Page) : Z :=
  let l := choiceLabel p "Status" in
  if String.eqb l "Not started" then 1
  else if String.eqb l "In progress" then 2
  else if String.eqb l "Done" then 3
  else 4.

Definition sortKey `{Host} (p : Page) : Z * option Z * Z :=
  (priorityRank p, primaryInstant p, statusRankOf p).

Definition instantLtb (a b : option Z) : bool :=
  match a, b with
  | Some x, Some y => x <? y
  | Some _, None => true
  | None, _ => false
  end.

Definition instantEqb (a b : option Z) : bool :=
  match a, b with
  | Some x, Some y => x =? y
  | None, None => true
  | _, _ => false
  end.

(** The lexicographic order of the keys. *)
Definition keyLeb (k1 k2 : Z * option Z * Z) : bool :=
  let '(p1, t1, s1) := k1 in
  let '(p2, t2, s2) := k2 in
  (p1 <? p2)
  || ((p1 =? p2)
      && (instantLtb t1 t2 || (instantEqb t1 t2 && (s1 <=? s2)))).

Definition keyEqb (k1 k2 : Z * option Z * Z) : bool :=
  let '(p1, t1, s1) := k1 in
  let '(p2, t2, s2) := k2 in
  (p1 =? p2) && instantEqb t1 t2 && (s1 =? s2).

(** Overdue: a primary instant strictly before the reference instant. *)
Definition isOverdue `{Host} (now : Z) (p : Page) : bool :=
  match primaryInstant p with
  | Some t => t <? now
  | None => false
  end.

(** At risk: not started, and a primary instant
    before [soon]. *)
Definition atRisk `{Host} (soon : Z) (p : Page) : bool :=
  JsValue.strictEq (readProp p "Status") "Not started"
  && match primaryInstant p with
     | Some t => t <? soon
     | None => false
     end.

(** At risk, in the words of the specification: the status label is
    "Not started" and the primary instant is before [soon]. *)
Definition notStartedBefore `{Host} (soon : Z) (p : Page) : bool :=
  String.eqb (choiceLabel p "Status") "Not started"
  && match primaryInstant p with
     | Some t => t <? soon
     | None => false
     end.

(** The label under which an item is shown: that of its primary instant,
    and "do" for an item without one. *)
Definition shownWhich (p : Page) : string :=
  match primaryText p with
  | Some _ => primaryWhich p
  | None => "do"
  end.

(** The instants at or after the reference instant: those of the timed
    scheduled items. *)
Definition upcomingOf `{Host} (now : Z) (p : Page) : list Z :=
  match primaryInstant p with
  | Some t => if now <=? t then [t] else []
  | None => []
  end.

Definition upcoming `{Host} (now : Z) (items : list Page) : list Z :=
  flat_map (upcomingOf now) items.

(** The timed entry of an item that has a primary start text. *)
Definition timedEntry `{Host} (now : Z) (p : Page) : list Timed.t :=
  match primaryText p with
  | Some s =>
      [ {| Timed.date := DateParse s;
           Timed.line := asCoachLine p (primaryWhich p) now |} ]
  | None => []
  end.

(** The gap record of two instants. *)
Definition gapBetween `{Host} (items : list Page) (pair : Z * Z) : Gap.t :=
  {| Gap.window :=
       toLocaleTimeString_hm (TimeValue (fst pair)) ++ "–"
       ++ toLocaleTimeString_hm (TimeValue (snd pair));
     Gap.suggestions := gapSuggestions items |}.

(** The pairs of neighbours of a list. *)
Definition consecutive {A : Type} (l : list A) : list (A * A) :=
  combine l (tl l).

Definition hourApart (pair : Z * Z) : bool :=
  3600000 <=? snd pair - fst pair.

(** The labels of a list in the order of their first occurrence, and the
    number of occurrences of each. *)
Fixpoint firstSeen (l : list string) : list string :=
  match l with
  | [] => []
  | x :: rest => x :: filter (fun y => negb (String.eqb y x)) (firstSeen rest)
  end.

Definition occurrences (k : string) (l : list string) : Z :=
  Z.of_nat (List.length (filter (String.eqb k) l)).

Definition firstSeenCounts (l : list string) : list (string * count) :=
  map (fun k => (k, CountNumber (occurrences k l))) (firstSeen l).

(** The label an item is counted under. *)
Definition alignLabel (p : Page) : string :=
  JsValue.toString (JsValue.orStr (getAlign p) "Unassigned").

Definition asAlignmentCount (e : string * count) : AlignmentCount.t :=
  {| AlignmentCount.alignment := fst e; AlignmentCount.count_ := snd e |}.

(** The contract of [parseFlexibleLocalDateTime] in the words of the
    specification: a text in one of the two patterns gives the composite
    text, any other date text is a format error. *)
Inductive parsed : Type :=
| Composite (text : string)
| FormatError.

Definition parseFlexibleLocalDateTime (dateText : string)
  (timeText : option string) : parsed :=
  match JsString.split "/" dateText with
  | [m; d; y] =>
      if slashDate dateText
      then Composite (y ++ "-" ++ m ++ "-" ++ d ++ "T" ++ timePart timeText)
      else FormatError
  | _ =>
      if dashDate dateText
      then Composite (dateText ++ "T" ++ timePart timeText)
      else FormatError
  end.

(** A page with the given properties. *)
Definition page (name : string) (props : list (string * Property)) : Page :=
  {| id := name; properties := ("Name", title_ [name]) :: props |}.

Definition dateAt (text : string) : Property :=
  date_ (Some {| start := text; end_ := None;
                 time_zone := Some "America/Chicago" |}).

(** Three items of one morning, at 09:00, 09:30 and 11:00 in the zone. *)
Definition morning : list Page :=
  [ page "Standup" [("Do Date", dateAt "2024-06-15T09:00:00.000-05:00");
                    ("Priority Level", select_ (Some "HIGH"))];
    page "Review" [("Do Date", dateAt "2024-06-15T11:00:00.000-05:00");
                   ("Priority Level", select_ (Some "MID"));
                   ("Status", status_ (Some "Not started"))];
    page "Call back" [("Due Date", dateAt "2024-06-15T09:30:00.000-05:00");
                      ("Type", select_ (Some "Call"))] ].

(** 08:00 in the zone on that day. *)
Definition morningClock : Z := 1718456400000.

(** The body of the gap loop on two neighbours. *)
Definition gapOf `{Host} (items : list Page) (pair : Timed.t * Timed.t) : list Gap.t :=
  gapAt items [fst pair; snd pair] 0.

(** The time value of a timed entry, and the entries that have one. *)
Definition timeOf (e : Timed.t) : Z :=
  match Timed.date e with
  | TimeValue t => t
  | InvalidDate => 0
  end.

Definition timedValid (e : Timed.t) : Prop :=
  exists t, Timed.date e = TimeValue t.

(** Items by their alignment alone; [None] is an unset alignment. *)
Definition aligned (name : string) (alignment : option string) : Page :=
  page name [("Alignment", select_ alignment)].

Definition fourAligned : list Page :=
  [ aligned "first" (Some "A"); aligned "second" None;
    aligned "third" (Some "A"); aligned "fourth" (Some "B") ].

(** The order of two entries by the array index of their labels. *)
Definition indexLe {V : Type} (a b : string * V) : Prop :=
  JsObject.indexOf (fst a) <= JsObject.indexOf (fst b).

(** The number an entry stands for: a count. *)
Definition countValue (c : count) : Z :=
  match c with
  | CountNumber n => n
  | CountText _ => 0
  end.

Definition totalCount (entries : list AlignmentCount.t) : Z :=
  fold_right (fun e acc => countValue (AlignmentCount.count_ e) + acc) 0 entries.

(** An item whose priority is none of the known labels. *)
Definition urgentItem : Page :=
  page "Tax return" [("Priority Level", select_ (Some "URGENT"))].

(** ** The window of the next seven days: [next7Window] *)

(** [d.setDate(dt)], the date after the call; [dt] comes from [getDate],
    which is [NaN] on an invalid date. *)
Definition setDate `{Host} (d : Date) (dt : number) : Date :=
  match d, dt with
  | TimeValue t, Num n =>
      let lt := JsTime.LocalTime t in
      JsDate.TimeClip
        (Num (JsTime.UTC
                (JsTime.MakeDate
                   (JsTime.MakeDay (JsTime.YearFromTime lt)
                      (JsTime.MonthFromTime lt) n)
                   (JsTime.TimeWithinDay lt))))
  | _, _ => InvalidDate
  end.

(** [d.getDate()] *)
Definition getDate `{Host} (d : Date) : number :=
  match d with
  | TimeValue t => Num (JsTime.DateFromTime (JsTime.LocalTime t))
  | InvalidDate => NaN
  end.

(** [endUTC]: the end of the window as a date. *)
Definition next7End `{Host} (now : Z) : Date :=
  let chicagoNow := zoneClock now in
  let delta := JsNumber.sub (Num now) (JsDate.getTime chicagoNow) in
  let endChic :=
    setDate chicagoNow
      (match getDate chicagoNow with Num d => Num (d + 7) | other => other end) in
  let endLocal :=
    match endChic with
    | TimeValue e =>
        let le := JsTime.LocalTime e in
        JsTime.newDate (JsTime.YearFromTime le) (JsTime.MonthFromTime le)
          (JsTime.DateFromTime le) 23 59 59
    | InvalidDate => InvalidDate
    end in
  JsDate.TimeClip
    (match JsDate.getTime endLocal, delta with
     | Num t, Num dl => Num (t + dl)
     | _, _ => NaN
     end).

Module Next7Window.
Record t : Type := {
  startISO : string;
  endISO : string
}.
End Next7Window.

(** The clock is read twice: [now] at the top and [later] for [startISO].
    [None] is the [RangeError] that [toISOString] throws. *)
Definition next7Window `{Host} (now later : Z) : option Next7Window.t :=
  match JsTime.toISOString (JsDate.TimeClip (Num later)),
        JsTime.toISOString (next7End now) with
  | Some startISO, Some endISO =>
      Some {| Next7Window.startISO := startISO; Next7Window.endISO := endISO |}
  | _, _ => None
  end.

(** ** The stamp of a note: [chicagoNow], [formatChicago] *)

(** [`${n}`] of an integer. *)
Definition integerText (n : Z) : string :=
  if n <? 0 then "-" ++ JsTime.decimal (- n) else JsTime.decimal n.

(** The text the two stamp functions build from the fields [getFullYear],
    [getMonth], [getDate], [getHours] and [getMinutes] of a date whose
    local time is [l]. *)
Definition stampAt (l : Z) (withTime : bool) : string :=
  let y := integerText (JsTime.YearFromTime l) in
  let m := JsString.padStart 2 "0" (integerText (JsTime.MonthFromTime l + 1)) in
  let day := JsString.padStart 2 "0" (integerText (JsTime.DateFromTime l)) in
  let hh := JsString.padStart 2 "0" (integerText (JsTime.HourFromTime l)) in
  let mm := JsString.padStart 2 "0" (integerText (JsTime.MinFromTime l)) in
  if withTime then y ++ "-" ++ m ++ "-" ++ day ++ " " ++ hh ++ ":" ++ mm
  else y ++ "-" ++ m ++ "-" ++ day.

(** The same on a date object; the fields of an invalid date are [NaN]. *)
Definition stampOf `{Host} (d : Date) (withTime : bool) : string :=
  match d with
  | TimeValue t => stampAt (JsTime.LocalTime t) withTime
  | InvalidDate => if withTime then "NaN-NaN-NaN NaN:NaN" else "NaN-NaN-NaN"
  end.

(** [chicagoNow()], with the clock at [now]. *)
Definition chicagoNow `{Host} (now : Z) : Date := zoneClock now.

(** [formatChicago(ts, withTime)]: the zone clock of [ts] is taken, then
    its fields. *)
Definition formatChicago `{Host} (ts : Date) (withTime : bool) : string :=
  let d :=
    match ts with
    | TimeValue t => zoneClock t
    | InvalidDate => InvalidDate
    end in
  stampOf d withTime.

(** [fixedTimestamp] of [createNote] in [src/server.js]. *)
Definition fixedTimestamp `{Host} (now : Z) : string :=
  formatChicago (chicagoNow now) true.

(** [formatChicagoStamp()] of the second unnamed part, which is the
    [fixedTimestamp] of its [createNote]. *)
Definition formatChicagoStamp `{Host} (now : Z) : string :=
  stampOf (chicagoNow now) true.

(** ** The header of [/analysis/today] *)

(** [header], from the fields [y], [m] and [d] of [startEndOfToday()];
    [None] when that call throws. *)
Definition todayHeader `{Host} (now : Z) : option string :=
  match startEndOfToday now with
  | Some w =>
      Some ("TODAY FOCUS ("
            ++ JsString.padStart 2 "0" (integerText (TodayWindow.m w)) ++ "/"
            ++ JsString.padStart 2 "0" (integerText (TodayWindow.d w)) ++ "/"
            ++ integerText (TodayWindow.y w)
            ++ ") — “Alright J-Maal, here’s what wins the day. Tight focus, clean execution, ya heard me.”")
  | None => None
  end.

(** ** Notes kept in the sheet

    The texts of notes are sequences of code units as the date texts are;
    the character classes below are those of the code units up to 255. *)

(** The case mappings of the runtime. *)
Class CaseHost : Type := {
  toLowerCase : string -> string;
  toUpperCase : string -> string
}.

Module JsText.

(** [x || ''] on an optional text *)
Definition orEmpty (x : option string) : string :=
  match x with
  | Some s => s
  | None => EmptyString
  end.

(** [a || b] on texts *)
Definition orText (a b : string) : string :=
  if JsString.truthy a then a else b.

(** [s.startsWith(w)] *)
Fixpoint startsWith (w s : string) : bool :=
  match w, s with
  | EmptyString, _ => true
  | String a w', String b s' => Ascii.eqb a b && startsWith w' s'
  | String _ _, EmptyString => false
  end.

(** [s.includes(w)] *)
Fixpoint includes (w s : string) : bool :=
  startsWith w s
  || match s with
     | EmptyString => false
     | String _ rest => includes w rest
     end.

(** White space and line terminators: the class [\s] and what [trim]
    removes. *)
Definition isSpace (c : ascii) : bool :=
  let n := nat_of_ascii c in
  ((9 <=? n)%nat && (n <=? 13)%nat) || (n =? 32)%nat || (n =? 160)%nat.

Fixpoint trimStart (s : string) : string :=
  match s with
  | EmptyString => EmptyString
  | String c rest => if isSpace c then trimStart rest else s
  end.

Fixpoint trimEnd (s : string) : string :=
  match s with
  | EmptyString => EmptyString
  | String c rest =>
      match trimEnd rest with
      | EmptyString => if isSpace c then EmptyString else String c EmptyString
      | kept => String c kept
      end
  end.

(** [s.trim()] *)
Definition trim (s : string) : string := trimEnd (trimStart s).

(** [s.slice(0, n)] *)
Definition sliceTo (n : nat) (s : string) : string := substring 0 n s.

(** [s.split(/\s+/)]: the texts between the runs of white space, the empty
    text before a leading run and after a trailing one included.  [inRun]
    says that the code unit before was white space. *)
Fixpoint splitSpaces (inRun : bool) (s : string) : list string :=
  match s with
  | EmptyString => [EmptyString]
  | String c rest =>
      if isSpace c then
        if inRun then splitSpaces true rest
        else EmptyString :: splitSpaces true rest
      else
        match splitSpaces false rest with
        | [] => [String c EmptyString]
        | p :: ps => String c p :: ps
        end
  end.

End JsText.

Module NoteRow.
Record t : Type := {
  rowIndex : Z;
  title : string;
  dateTime : string;
  tag : string;
  notes : string
}.
End NoteRow.

(** [row[i] || ''] on a row of the sheet, which ends at its last filled
    cell. *)
Definition cell (row : list string) (i : nat) : string := nth i row "".

(** The note of the row that [rows.map] finds at index [i]. *)
Definition noteOf (i : Z) (row : list string) : NoteRow.t :=
  {| NoteRow.rowIndex := i + 2;
     NoteRow.title := cell row 0;
     NoteRow.dateTime := cell row 1;
     NoteRow.tag := cell row 2;
     NoteRow.notes := cell row 3 |}.

Fixpoint notesFrom (i : Z) (values : list (list string)) : list NoteRow.t :=
  match values with
  | [] => []
  | row :: rest => noteOf i row :: notesFrom (i + 1) rest
  end.

(** The rows of [listAllNotes], from the values of the range [A2:D]. *)
Definition listAllNotes (values : list (list string)) : list NoteRow.t :=
  notesFrom 0 values.

(** [Number(rowIndex)] for the [rowIndex] of a request, which nothing
    checks: a number that need not be whole.  A finite number is kept as
    the rational it is. *)
Inductive anyNumber : Type :=
| Finite (q : Q)
| PlusInfinity
| MinusInfinity
| NotANumber.

(** [k === idx], for a whole number [k] *)
Definition isWhole (k : Z) (idx : anyNumber) : bool :=
  match idx with
  | Finite q => Qeq_bool (inject_Z k) q
  | PlusInfinity | MinusInfinity | NotANumber => false
  end.

(** [readNote]; [idx] is [Number(rowIndex)], [None] is [null]. *)
Definition readNote (values : list (list string)) (idx : anyNumber)
  : option NoteRow.t :=
  find (fun r => isWhole (NoteRow.rowIndex r) idx) (listAllNotes values).

(** [- n] *)
Definition negate (n : number) : number :=
  match n with
  | Num z => Num (- z)
  | PosInfinity => NegInfinity
  | NegInfinity => PosInfinity
  | NaN => NaN
  end.

(** [l.slice(start)] *)
Definition sliceFrom {A : Type} (start : number) (l : list A) : list A :=
  let len := Z.of_nat (List.length l) in
  let k :=
    match start with
    | Num z => if z <? 0 then Z.max (len + z) 0 else Z.min z len
    | PosInfinity => len
    | NegInfinity | NaN => 0
    end in
  skipn (Z.to_nat k) l.

(** The rows left by the filters of [/notes/list]; an absent filter is
    [None]. *)
Definition filteredNotes `{CaseHost} (values : list (list string))
  (tag fromDate toDate : option string) : list NoteRow.t :=
  let rows := listAllNotes values in
  let byTag :=
    match tag with
    | Some t =>
        if JsString.truthy t then
          filter (fun r => String.eqb (toLowerCase (NoteRow.tag r))
                             (toLowerCase t)) rows
        else rows
    | None => rows
    end in
  let byFrom :=
    match fromDate with
    | Some f =>
        if JsString.truthy f then
          filter (fun r => String.leb (f ++ " 00:00") (NoteRow.dateTime r)) byTag
        else byTag
    | None => byTag
    end in
  match toDate with
  | Some t =>
      if JsString.truthy t then
        filter (fun r => String.leb (NoteRow.dateTime r) (t ++ " 23:59")) byFrom
      else byFrom
  | None => byFrom
  end.

Module NotesList.
Record t : Type := {
  count : nat;
  rows : list NoteRow.t
}.
End NotesList.

(** The answer of [/notes/list]; an absent [limit] is 50. *)
Definition notesList `{CaseHost} (values : list (list string))
  (tag fromDate toDate : option string) (limit : option number) : NotesList.t :=
  let limit := match limit with Some n => n | None => Num 50 end in
  let filtered := filteredNotes values tag fromDate toDate in
  {| NotesList.count := List.length filtered;
     NotesList.rows := sliceFrom (negate limit) filtered |}.

(** *** The tag and the title of a note *)

Definition EDU_WORDS : list string :=
  [ "codecademy"; "freecodecamp"; "javascript"; "node"; "react"; "express";
    "firebase"; "gsap"; "html"; "css"; "data structures"; "algorithms";
    "study"; "course"; "tutorial"; "lesson"; "practice"; "design refresher";
    "photoshop"; "illustrator"; "indesign"; "after effects"; "premiere";
    "premier pro"; "adobe"; "bootcamp" ].

Definition WORK_WORDS : list string :=
  [ "client"; "invoice"; "proposal"; "deliverable"; "website"; "web design";
    "web dev"; "branding"; "logo"; "video"; "edit"; "render"; "notion buddy";
    "crazy monkey"; "krazy monkee"; "marketing"; "ad"; "campaign";
    "portfolio"; "mockup" ].

Definition LIFE_WORDS : list string :=
  [ "mom"; "dad"; "son"; "daughter"; "kids"; "jordan"; "jace"; "jamal jr";
    "family"; "school"; "homework"; "pickup"; "dropoff"; "work schedule";
    "gentilly mail and copy center"; "luz"; "joe"; "van"; "dave"; "rob";
    "exercise"; "workout"; "gym"; "meditate"; "meditation"; "pray"; "prayer";
    "court"; "appointment"; "doctor"; "volunteer"; "service"; "church";
    "temple" ].

Definition bagContains `{CaseHost} (text : string) (list : list string) : bool :=
  let t := " " ++ toLowerCase text ++ " " in
  existsb (fun w => JsText.includes (" " ++ w ++ " ") t || JsText.includes w t)
    list.

(** The text [classifyTag] looks at. *)
Definition tagText `{CaseHost} (title notes : option string) : string :=
  toLowerCase (JsText.orText (JsText.orEmpty title) ""
               ++ " " ++ JsText.orText (JsText.orEmpty notes) "").

Definition classifyTag `{CaseHost} (title notes : option string) : string :=
  let text := tagText title notes in
  if bagContains text EDU_WORDS then "Dev & Design Education"
  else if bagContains text WORK_WORDS then "Krazy Monkee"
  else if bagContains text LIFE_WORDS then "Hanuman Life"
  else "Krazy Monkee".

(** The pattern of [generateTitle]: one of five words in either case, one
    or more of the colon, the hyphen and the space, then the rest of the
    line.  A letter of the pattern matches itself in either case. *)
Definition lowerAscii (c : ascii) : ascii :=
  let n := nat_of_ascii c in
  if (65 <=? n)%nat && (n <=? 90)%nat then ascii_of_nat (n + 32) else c.

(** The word [w] at the head of [s]: the text it matched and the rest. *)
Fixpoint headWord (w s : string) : option (string * string) :=
  match w, s with
  | EmptyString, _ => Some (EmptyString, s)
  | String a w', String b s' =>
      if Ascii.eqb a (lowerAscii b) then
        match headWord w' s' with
        | Some (m, rest) => Some (String b m, rest)
        | None => None
        end
      else None
  | String _ _, EmptyString => None
  end.

Definition isSeparator (c : ascii) : bool :=
  Ascii.eqb c ":" || Ascii.eqb c "-" || Ascii.eqb c " ".

Fixpoint skipSeparators (s : string) : string :=
  match s with
  | EmptyString => EmptyString
  | String c rest => if isSeparator c then skipSeparators rest else s
  end.

(** What the second group takes: all up to a line terminator. *)
Fixpoint untilTerminator (s : string) : string :=
  match s with
  | EmptyString => EmptyString
  | String c rest =>
      if Ascii.eqb c "010" || Ascii.eqb c "013" then EmptyString
      else String c (untilTerminator rest)
  end.

Definition meetingWords : list string :=
  [ "meeting"; "call"; "client"; "task"; "idea" ].

(** A match that starts at the head of [s]: the groups 1 and 2. *)
Definition meetingAt (s : string) : option (string * string) :=
  fold_right
    (fun w other =>
       match headWord w s with
       | Some (m, String c rest) =>
           if isSeparator c
           then Some (m, untilTerminator (skipSeparators rest))
           else other
       | _ => other
       end)
    None meetingWords.

(** [firstLine.match(...)]: the leftmost match. *)
Fixpoint meetingMatch (s : string) : option (string * string) :=
  match meetingAt s with
  | Some groups => Some groups
  | None =>
      match s with
      | EmptyString => None
      | String _ rest => meetingMatch rest
      end
  end.

(** [generateTitle(notes)]; [None] is the [TypeError] of reading the first
    code unit of an empty first group. *)
Definition generateTitle `{CaseHost} (notes : option string) : option string :=
  let str := JsText.trim (JsText.orText (JsText.orEmpty notes) "") in
  if negb (JsString.truthy str) then Some "General Note"
  else
    let firstLine := nth 0 (JsString.split "010" str) "" in
    let words :=
      let short :=
        String.concat " " (firstn 6 (JsText.splitSpaces false firstLine)) in
      Some (JsText.orText (JsText.sliceTo 60 short) "General Note") in
    match meetingMatch firstLine with
    | Some (m1, m2) =>
        if JsString.truthy m2 then
          match m1 with
          | String c rest =>
              Some (JsText.sliceTo 60
                      (toUpperCase (String c EmptyString) ++ toLowerCase rest
                       ++ ": " ++ m2))
          | EmptyString => None
          end
        else words
    | None => words
    end.

(** [(x && x.trim()) || other] *)
Definition trimmedOr (x : option string) (other : option string)
  : option string :=
  match x with
  | Some s =>
      if JsString.truthy s && JsString.truthy (JsText.trim s)
      then Some (JsText.trim s) else other
  | None => other
  end.

(** [finalTitle] and [finalTag] of [createNote]. *)
Definition createNoteFields `{CaseHost} (title tag notes : option string)
  : option (string * string) :=
  match trimmedOr title (generateTitle notes) with
  | Some finalTitle =>
      match trimmedOr tag (Some (classifyTag (Some finalTitle) notes)) with
      | Some finalTag => Some (finalTitle, finalTag)
      | None => None
      end
  | None => None
  end.

(** *** Updating a note: [updateNote] *)

(** A field of the body of a request, which nothing checks, as far as the
    code can tell one value from another: absent ([undefined] or [null]),
    a text, or another value (a number, a boolean, an array, an object), of
    which the code sees whether it is truthy and the text that a template
    makes of it, if it makes one.  Such a value has no method [trim] or
    [toUpperCase]. *)
Inductive bodyValue : Type :=
| Absent
| Text (s : string)
| Other (truthy : bool) (text : option string).

Module BodyValue.

Definition truthy (v : bodyValue) : bool :=
  match v with
  | Absent => false
  | Text s => JsString.truthy s
  | Other t _ => t
  end.

(** The text of [v || ''] in a template; [None] is the [TypeError] of a
    value that has no text. *)
Definition templateOrEmpty (v : bodyValue) : option string :=
  match v with
  | Absent => Some ""
  | Text s => Some s
  | Other true text => text
  | Other false _ => Some ""
  end.


End BodyValue.

(** The [deleteFields] of a request: an array, or no array (absent, or
    another value, truthy or not). *)
Inductive bodyList : Type :=
| NoArray (truthy : bool)
| Elements (l : list bodyValue).

(** [l.map(s => s.toUpperCase())]; [None] is the [TypeError] of an element
    that is no text. *)
Fixpoint upperCased `{CaseHost} (l : list bodyValue) : option (list string) :=
  match l with
  | [] => Some []
  | Text s :: rest =>
      match upperCased rest with
      | Some done => Some (toUpperCase s :: done)
      | None => None
      end
  | _ :: _ => None
  end.

(** [(deleteFields || []).map(s => s.toUpperCase())] *)
Definition toClearOf `{CaseHost} (deleteFields : bodyList)
  : option (list string) :=
  match deleteFields with
  | NoArray false => Some []
  | NoArray true => None
  | Elements l => upperCased l
  end.


(** What [updateNote] throws: its two errors, and the [TypeError] of a
    method called on a value that has none. *)
Inductive UpdateError : Type :=
| RowIndexTooSmall
| RowNotFound (idx : anyNumber)
| TypeError.

(** The row written over the range [A{idx}:D{idx}]. *)
Module NoteUpdate.
Record t : Type := {
  rowIndex : anyNumber;
  values : list bodyValue
}.
End NoteUpdate.

(** [x ?? other] *)
Definition orCurrent (x : bodyValue) (other : string) : bodyValue :=
  match x with
  | Absent => Text other
  | Text _ | Other _ _ => x
  end.

(** [!idx || idx < 2] *)
Definition tooSmall (idx : anyNumber) : bool :=
  match idx with
  | Finite q => Qeq_bool q (inject_Z 0) || negb (Qle_bool (inject_Z 2) q)
  | PlusInfinity => false
  | MinusInfinity | NotANumber => true
  end.

(** [generateTitle(notes)] on a field of the body: [(notes || '').trim()]
    throws on a truthy value that is no text. *)
Definition generateTitleOf `{CaseHost} (notes : bodyValue) : option string :=
  match notes with
  | Text s => generateTitle (Some s)
  | Other true _ => None
  | Absent | Other false _ => generateTitle None
  end.

(** [classifyTag({ title, notes })] on fields of the body. *)
Definition classifyTagOf `{CaseHost} (title notes : bodyValue) : option string :=
  match BodyValue.templateOrEmpty title, BodyValue.templateOrEmpty notes with
  | Some a, Some b => Some (classifyTag (Some a) (Some b))
  | _, _ => None
  end.

(** [updateNote], on the values of the sheet; [idx] is
    [Number(rowIndex)]. *)
Definition updateNote `{CaseHost} (sheet : list (list string)) (idx : anyNumber)
  (title tag notes : bodyValue) (deleteFields : bodyList)
  : UpdateError + NoteUpdate.t :=
  if tooSmall idx then inl RowIndexTooSmall
  else
    match readNote sheet idx with
    | None => inl (RowNotFound idx)
    | Some current =>
        match toClearOf deleteFields with
        | None => inl TypeError
        | Some toClear =>
            let has name := existsb (String.eqb name) toClear in
            let newTitle :=
              if has "TITLE" then Text ""
              else orCurrent title (NoteRow.title current) in
            let newTag :=
              if has "TAG" then Text ""
              else orCurrent tag (NoteRow.tag current) in
            let newNotes :=
              if has "NOTES" then Text ""
              else orCurrent notes (NoteRow.notes current) in
            let finalTitle :=
              if BodyValue.truthy newTitle then Some newTitle
              else option_map Text (generateTitleOf newNotes) in
            match finalTitle with
            | None => inl TypeError
            | Some finalTitle =>
                let finalTag :=
                  if BodyValue.truthy newTag then Some newTag
                  else option_map Text (classifyTagOf finalTitle newNotes) in
                match finalTag with
                | None => inl TypeError
                | Some finalTag =>
                    inr {| NoteUpdate.rowIndex := idx;
                           NoteUpdate.values :=
                             [ finalTitle; Text (NoteRow.dateTime current);
                               finalTag; newNotes ] |}
                end
            end
        end
    end.

(** *** What the notes lean toward: [analyzeRows], [suggestFromAnalysis] *)

Definition byTagStart : list (string * count) :=
  [ ("Hanuman Life", CountNumber 0); ("Krazy Monkee", CountNumber 0);
    ("Dev & Design Education", CountNumber 0); ("", CountNumber 0) ].

(** [byTag[r.tag || ''] = (byTag[r.tag || ''] || 0) + 1] *)
Definition tagStep (m : list (string * count)) (r : NoteRow.t)
  : list (string * count) :=
  let k := JsText.orText (NoteRow.tag r) "" in
  JsObject.set m k (bump m k).

(** [byTag] of [analyzeRows]. *)
Definition byTag (rows : list NoteRow.t) : list (string * count) :=
  fold_left tagStep rows byTagStart.

(** [c || 0], as the subtraction reads it: the texts that [bump] makes hold
    the source text of a function and are no numerals. *)
Definition countOrZero (c : count) : number :=
  match c with
  | CountNumber n => Num n
  | CountText s => if JsString.truthy s then NaN else Num 0
  end.

Definition maxTag (byTag : list (string * count)) : string :=
  match JsArray.sort
          (fun a b => JsNumber.sub (countOrZero (snd b)) (countOrZero (snd a)))
          (objectEntries byTag) with
  | e :: _ => JsText.orText (fst e) ""
  | [] => ""
  end.

Module Suggestion.
Record t : Type := {
  headline : string;
  recommendations : list string
}.
End Suggestion.

(** [topTerms] is given by its terms. *)
Definition suggestFromAnalysis (byTag : list (string * count))
  (topTerms : list string) : Suggestion.t :=
  let maxTag := maxTag byTag in
  let focus :=
    if String.eqb maxTag "Krazy Monkee" then "client work & marketing"
    else if String.eqb maxTag "Dev & Design Education"
    then "skills growth & study blocks"
    else "personal logistics & well-being" in
  let headline :=
    "Focus is leaning toward **" ++ JsText.orText maxTag "Unassigned"
    ++ "** — prioritize " ++ focus ++ "." in
  let keywords := firstn 5 topTerms in
  let recs :=
    if String.eqb maxTag "Krazy Monkee" then
      [ "Turn top mentions into tasks (“proposal”, “edit”, “invoice”) with Do/Due times.";
        "Schedule a 60–90 min deep block for a Strategic Win inside your biggest gap." ]
    else if String.eqb maxTag "Dev & Design Education" then
      [ "Create a repeating “study sprint” block (45–60 min) and log outcomes.";
        "Convert repeated topics into a mini-curriculum checklist." ]
    else if String.eqb maxTag "Hanuman Life" then
      [ "Batch errands and calls into a single afternoon block this week.";
        "Reflect: add one small habit (5–10 min) tied to meditation, prayer, or fitness." ]
    else
      [ "Tag your notes for better insights (Hanuman Life, Krazy Monkee, Dev & Design Education)." ] in
  {| Suggestion.headline := headline;
     Suggestion.recommendations :=
       match keywords with
       | [] => recs
       | _ :: _ =>
           JsArray.push recs
             ("Consider actions around: " ++ String.concat ", " keywords ++ ".")
       end |}.

(** The names [byTag] starts with. *)
Definition tagNames : list string :=
  [ "Hanuman Life"; "Krazy Monkee"; "Dev & Design Education"; "" ].

(** The counts of the tags [seen], under the starting names and then the
    other tags in the order of their first occurrence. *)
Definition tagCounts (seen : list string) : list (string * count) :=
  map (fun k => (k, CountNumber (occurrences k seen)))
    (firstSeen (tagNames ++ seen)).

(** *** The most frequent terms: [topN] *)

Module Term.
Record t : Type := {
  term : string;
  count : Z
}.
End Term.

(** [topN(map, n)], on the entries of the map in the order of their
    insertion. *)
Definition topN (entries : list (string * Z)) (n : nat) : list Term.t :=
  map (fun e => {| Term.term := fst e; Term.count := snd e |})
    (firstn n (JsArray.sort (fun a b => Num (snd b - snd a)) entries)).

(** A runtime for texts of letters without accents. *)
Module AsciiCase.

Definition upperAscii (c : ascii) : ascii :=
  let n := nat_of_ascii c in
  if (97 <=? n)%nat && (n <=? 122)%nat then ascii_of_nat (n - 32) else c.

Fixpoint mapUnits (f : ascii -> ascii) (s : string) : string :=
  match s with
  | EmptyString => EmptyString
  | String c rest => String (f c) (mapUnits f rest)
  end.

#[export] Instance host : CaseHost := {
  toLowerCase := mapUnits lowerAscii;
  toUpperCase := mapUnits upperAscii
}.

End AsciiCase.

(** ** Finding a database by its name: [titleOf], [findDatabaseByName] *)

(** What the search returns of a database or page: its [title] and the
    [title] of its [Name] property, each an array of texts when it is
    there. *)
Module Database.
Record t : Type := {
  id : string;
  title : option (list string);
  nameTitle : option (list string)
}.
End Database.

(** [texts?.map(t => t.plain_text).join('').trim()] *)
Definition joinedTitle (texts : option (list string)) : option string :=
  match texts with
  | Some l => Some (JsText.trim (String.concat "" l))
  | None => None
  end.

Definition titleOf (dbOrPage : Database.t) : string :=
  JsText.orEmpty
    (JsValue.orElse (joinedTitle (Database.title dbOrPage))
       (JsValue.orElse (joinedTitle (Database.nameTitle dbOrPage)) (Some ""))).

(** [findDatabaseByName], on the [results] of the search. *)
Definition findDatabaseByName `{CaseHost} (results : list Database.t)
  (name : string) : option Database.t :=
  let lower := toLowerCase name in
  match find (fun d => String.eqb (toLowerCase (titleOf d)) lower) results with
  | Some exact => Some exact
  | None =>
      find (fun d => JsText.includes lower (toLowerCase (titleOf d))) results
  end.

(** * Properties *)

(** ** Reading properties *)

Lemma truthy_eqb_empty (s : string) :
  JsString.truthy s = negb (String.eqb s "").
Proof. destruct s; reflexivity. Qed.

Lemma startOrNull_readProp (p : Page) (key : string) :
  JsValue.startOrNull (readProp p key) = startText p key.
Proof.
  unfold JsValue.startOrNull, readProp, startText.
  destruct (lookupProperty (properties p) key) as [[[d|]|[n|]|[n|]|ids|texts|]|];
    simpl; try reflexivity.
  - rewrite truthy_eqb_empty. now destruct (String.eqb (start d) "").
  - now destruct (JsString.truthy n).
  - now destruct (JsString.truthy n).
Qed.

Lemma startText_truthy (p : Page) (key s : string) :
  startText p key = Some s -> JsString.truthy s = true.
Proof.
  unfold startText.
  destruct (lookupProperty (properties p) key) as [[[d|]|?|?|?|?|]|];
    try discriminate.
  destruct (String.eqb (start d) "") eqn:E; [discriminate|].
  intros [= <-]. now rewrite truthy_eqb_empty, E.
Qed.

Lemma primaryText_truthy (p : Page) (s : string) :
  primaryText p = Some s -> JsString.truthy s = true.
Proof.
  unfold primaryText.
  destruct (startText p "Do Date") eqn:E.
  - intros [= <-]. eauto using startText_truthy.
  - eauto using startText_truthy.
Qed.

(** [v?.start] followed by a truth test sees the same text as
    [v?.start || null]. *)
Lemma orElse_startOf (v : PropValue) (b : option string) :
  JsValue.orElse (JsValue.startOf v) b
  = match JsValue.startOrNull v with Some s => Some s | None => b end.
Proof.
  unfold JsValue.startOrNull, JsValue.orElse.
  destruct (JsValue.startOf v) as [s|]; [|reflexivity].
  now destruct (JsString.truthy s).
Qed.

Section WithHost.
Context {H : Host}.

Lemma tsLocal_text (text : option string) :
  (forall s, text = Some s -> JsString.truthy s = true) ->
  tsLocal text = option_map DateParse text.
Proof.
  intros Ht. destruct text as [s|]; [|reflexivity].
  simpl. now rewrite (Ht s eq_refl).
Qed.

Lemma getPrimaryWhen_spec (p : Page) :
  getPrimaryWhen p
  = {| PrimaryWhen.which := primaryWhich p;
       PrimaryWhen.iso := primaryText p;
       PrimaryWhen.date := option_map DateParse (primaryText p) |}.
Proof.
  unfold getPrimaryWhen, primaryWhich, primaryText.
  rewrite !startOrNull_readProp.
  destruct (startText p "Do Date") as [s|] eqn:Edo.
  - simpl. now rewrite (startText_truthy _ _ _ Edo).
  - rewrite tsLocal_text; [reflexivity|].
    intros s. apply startText_truthy.
Qed.

(** The date of [getPrimaryWhen] compared with the clock. *)
Lemma primary_date_before (p : Page) (now : Z) :
  match PrimaryWhen.date (getPrimaryWhen p) with
  | Some date => JsDate.ltb date (TimeValue now)
  | None => false
  end = isOverdue now p.
Proof.
  rewrite getPrimaryWhen_spec. unfold isOverdue, primaryInstant. simpl.
  destruct (primaryText p) as [s|]; simpl; [|reflexivity].
  now destruct (DateParse s).
Qed.

End WithHost.

(** ** Sorting by insertion *)

Section Sorting.
Context {A : Type} (cmp : A -> A -> number).

Lemma insert_perm (x : A) (l : list A) :
  Permutation (JsArray.insert cmp x l) (x :: l).
Proof.
  induction l as [|y l IH]; simpl; [reflexivity|].
  destruct (JsArray.positive (cmp x y)); [|reflexivity].
  rewrite IH. apply perm_swap.
Qed.

Lemma sort_perm (l : list A) : Permutation (JsArray.sort cmp l) l.
Proof.
  induction l as [|x l IH]; simpl; [reflexivity|].
  rewrite insert_perm. now constructor.
Qed.

Lemma sort_length (l : list A) :
  List.length (JsArray.sort cmp l) = List.length l.
Proof. apply Permutation_length, sort_perm. Qed.

(** Elements of one class, none of which the comparator puts after
    another, keep their order. *)
Lemma insert_stable (c : A -> bool) (x : A) (l : list A) :
  (forall y, In y l -> c x = true -> c y = true ->
             JsArray.positive (cmp x y) = false) ->
  filter c (JsArray.insert cmp x l) = filter c (x :: l).
Proof.
  induction l as [|y l IH]; intros Hc; [reflexivity|].
  simpl. destruct (JsArray.positive (cmp x y)) eqn:Ep; [|reflexivity].
  simpl. rewrite IH by (intros; apply Hc; simpl; auto).
  simpl. destruct (c x) eqn:Ex; [|reflexivity].
  destruct (c y) eqn:Ey; [|reflexivity].
  rewrite Hc in Ep; simpl; auto. discriminate.
Qed.

Lemma sort_stable (c : A -> bool) (l : list A) :
  (forall x y, In x l -> In y l -> c x = true -> c y = true ->
               JsArray.positive (cmp x y) = false) ->
  filter c (JsArray.sort cmp l) = filter c l.
Proof.
  induction l as [|x l IH]; intros Hc; [reflexivity|].
  simpl JsArray.sort. rewrite insert_stable.
  - simpl. rewrite IH; [reflexivity|].
    intros; apply Hc; simpl; auto.
  - intros y Hy. apply Hc; simpl; auto.
    right. eapply Permutation_in; [apply sort_perm|exact Hy].
Qed.

(** With a comparator that decides a total preorder [le] on the elements
    of the list, the result is sorted. *)
Variable le : A -> A -> bool.
Variable good : A -> Prop.
Hypothesis cmp_le :
  forall x y, good x -> good y -> JsArray.positive (cmp x y) = negb (le x y).
Hypothesis le_total :
  forall x y, good x -> good y -> le x y = true \/ le y x = true.
Hypothesis le_trans :
  forall x y z, good x -> good y -> good z ->
                le x y = true -> le y z = true -> le x z = true.

Lemma insert_sorted (x : A) (l : list A) :
  good x -> Forall good l ->
  StronglySorted (fun a b => le a b = true) l ->
  StronglySorted (fun a b => le a b = true) (JsArray.insert cmp x l).
Proof.
  intros Hx Hl Hs. induction Hs as [|y l Hs IH Hy]; simpl.
  - repeat constructor.
  - inversion Hl as [|? ? Gy Gl]; subst.
    rewrite cmp_le by assumption.
    destruct (le x y) eqn:Exy; simpl.
    + constructor; [now constructor|].
      constructor; [assumption|].
      rewrite Forall_forall in *. intros z Hz.
      apply (le_trans x y z); auto.
    + constructor; [auto|].
      assert (Hyx : le y x = true).
      { destruct (le_total x y Hx Gy) as [E|E]; [congruence|exact E]. }
      eapply Permutation_Forall; [symmetry; apply insert_perm|].
      now constructor.
Qed.

Lemma sort_good (l : list A) : Forall good l -> Forall good (JsArray.sort cmp l).
Proof.
  intros Hl. eapply Permutation_Forall; [symmetry; apply sort_perm|exact Hl].
Qed.

Lemma sort_sorted (l : list A) :
  Forall good l ->
  StronglySorted (fun a b => le a b = true) (JsArray.sort cmp l).
Proof.
  induction l as [|x l IH]; intros Hl; simpl; [constructor|].
  inversion Hl; subst.
  apply insert_sorted; auto using sort_good.
Qed.

(** The sorted rearrangement that keeps the members of each class in their
    order is unique: whatever stable sort an engine runs, on such a list it
    returns what [JsArray.sort] returns. *)
Variable same : A -> A -> bool.
Hypothesis same_le :
  forall x y, good x -> good y ->
              le x y = true -> le y x = true -> same x y = true.

Lemma le_refl (x : A) : good x -> le x x = true.
Proof. intros Hx. now destruct (le_total x x Hx Hx). Qed.

Lemma stable_sorted_unique (out1 out2 : list A) :
  Forall good out1 ->
  Permutation out1 out2 ->
  StronglySorted (fun a b => le a b = true) out1 ->
  StronglySorted (fun a b => le a b = true) out2 ->
  (forall x, good x -> filter (same x) out1 = filter (same x) out2) ->
  out1 = out2.
Proof.
  revert out2. induction out1 as [|x t1 IH]; intros out2 Hg Hp Hs1 Hs2 Hf.
  - now apply Permutation_nil in Hp.
  - destruct out2 as [|y t2].
    { symmetry in Hp. now apply Permutation_nil in Hp. }
    inversion Hg as [|? ? Gx Gt]; subst.
    inversion Hs1 as [|? ? Hs1' Hx]; subst.
    inversion Hs2 as [|? ? Hs2' Hy]; subst.
    assert (Gy : good y).
    { rewrite Forall_forall in Hg. apply Hg.
      eapply Permutation_in; [symmetry; exact Hp|now left]. }
    assert (Lxy : le x y = true).
    { assert (Hin : In y (x :: t1))
        by (eapply Permutation_in; [symmetry; exact Hp|now left]).
      destruct Hin as [->|Hin]; [now apply le_refl|].
      rewrite Forall_forall in Hx. now apply Hx. }
    assert (Lyx : le y x = true).
    { assert (Hin : In x (y :: t2))
        by (eapply Permutation_in; [exact Hp|now left]).
      destruct Hin as [->|Hin]; [now apply le_refl|].
      rewrite Forall_forall in Hy. now apply Hy. }
    pose proof (Hf x Gx) as Hfx. simpl in Hfx.
    rewrite (same_le x x Gx Gx (le_refl x Gx) (le_refl x Gx)) in Hfx.
    rewrite (same_le x y Gx Gy Lxy Lyx) in Hfx.
    injection Hfx as -> _.
    f_equal. apply IH; auto.
    + eapply Permutation_cons_inv. exact Hp.
    + intros z Gz. specialize (Hf z Gz). simpl in Hf.
      destruct (same z y); [now injection Hf|exact Hf].
Qed.

Hypothesis same_class :
  forall x u v, good u -> good v ->
                same x u = true -> same x v = true -> le u v = true.

Lemma sort_unique (l out : list A) :
  Forall good l ->
  Permutation out l ->
  StronglySorted (fun a b => le a b = true) out ->
  (forall x, good x -> filter (same x) out = filter (same x) l) ->
  out = JsArray.sort cmp l.
Proof.
  intros Hg Hp Hs Hf. apply stable_sorted_unique.
  - eapply Permutation_Forall; [symmetry; exact Hp|exact Hg].
  - rewrite Hp. symmetry. apply sort_perm.
  - exact Hs.
  - now apply sort_sorted.
  - intros x Gx. rewrite (Hf x Gx). symmetry. apply sort_stable.
    rewrite Forall_forall in Hg.
    intros u v Hu Hv Su Sv. rewrite cmp_le by auto.
    now rewrite (same_class x u v (Hg u Hu) (Hg v Hv) Su Sv).
Qed.

End Sorting.

(** ** The coach line *)

Section CoachLines.
Context {H : Host}.

Lemma reminder_of_text (text : option string) (now : Z) :
  (forall s, text = Some s -> JsString.truthy s = true) ->
  match tsLocal text with
  | Some d => JsDate.gtb d (TimeValue now)
  | None => false
  end = true
  <-> exists t, instantOfText text = Some t /\ now < t.
Proof.
  intros Ht. rewrite tsLocal_text by assumption.
  destruct text as [s|]; simpl.
  - destruct (DateParse s) as [t|]; simpl.
    + unfold JsDate.gtb; simpl. rewrite Z.ltb_lt. split.
      * intros Hlt. now exists t.
      * now intros (t' & [= <-] & Hlt).
    + unfold JsDate.gtb; simpl. split; [discriminate|].
      now intros (t' & [=] & _).
  - split; [discriminate|]. now intros (t' & [=] & _).
Qed.

(** C9: the reminder flag of a coach line is set exactly when the instant
    that [which] selects (the do start for "do", the due start for "due")
    exists and lies strictly after [now]. *)
Theorem suggestReminder_iff (p : Page) (now : Z) :
  (CoachLine.suggestReminder (asCoachLine p "do" now) = true
   <-> exists t, doInstant p = Some t /\ now < t)
  /\ (CoachLine.suggestReminder (asCoachLine p "due" now) = true
      <-> exists t, dueInstant p = Some t /\ now < t).
Proof.
  unfold asCoachLine, doInstant, dueInstant; simpl.
  rewrite !startOrNull_readProp.
  split; apply reminder_of_text; intros s; apply startText_truthy.
Qed.

End CoachLines.

(** ** The risk watch of the period reports *)

Section RiskWatch.
Context {H : Host}.

Lemma strictEq_orStr_empty (v : PropValue) (text : string) :
  text <> "" ->
  JsValue.strictEq (JsValue.orStr v "") text = JsValue.strictEq v text.
Proof.
  intros Hne. unfold JsValue.orStr.
  destruct v as [|d|s|l]; simpl; try reflexivity.
  - destruct text; [congruence|reflexivity].
  - destruct s; simpl; [|reflexivity].
    destruct text; [congruence|reflexivity].
Qed.

Lemma first_start_text (p : Page) :
  JsValue.orElse (JsValue.startOf (readProp p "Do Date"))
    (JsValue.startOf (readProp p "Due Date"))
  = match primaryText p with
    | Some s => Some s
    | None => JsValue.startOf (readProp p "Due Date")
    end.
Proof.
  rewrite orElse_startOf, startOrNull_readProp. unfold primaryText.
  destruct (startText p "Do Date") as [s|]; [reflexivity|].
  rewrite <- (startOrNull_readProp p "Due Date").
  unfold JsValue.startOrNull, JsValue.orElse.
  destruct (JsValue.startOf (readProp p "Due Date")) as [s|]; [|reflexivity].
  now destruct (JsString.truthy s).
Qed.

Lemma riskWatch7day_atRisk (soon : Z) (p : Page) :
  riskWatch7day soon p = atRisk soon p.
Proof.
  unfold riskWatch7day, atRisk, getStatus.
  rewrite strictEq_orStr_empty by discriminate. f_equal.
  rewrite first_start_text. unfold primaryInstant.
  destruct (primaryText p) as [s|] eqn:Ep; simpl.
  - rewrite (primaryText_truthy _ _ Ep). now destruct (DateParse s).
  - unfold primaryText in Ep.
    destruct (startText p "Do Date"); [discriminate|].
    rewrite <- startOrNull_readProp in Ep.
    unfold JsValue.startOrNull, JsValue.orElse in Ep.
    destruct (JsValue.startOf (readProp p "Due Date")) as [s|]; [|reflexivity].
    destruct (JsString.truthy s); [discriminate|reflexivity].
Qed.

Lemma riskWatchPeriod_atRisk (soon : Z) (p : Page) :
  riskWatchPeriod soon p = atRisk soon p.
Proof.
  unfold riskWatchPeriod, atRisk, getStatus.
  rewrite strictEq_orStr_empty by discriminate. f_equal.
  rewrite first_start_text. unfold primaryInstant.
  destruct (primaryText p) as [s|] eqn:Ep; simpl.
  - rewrite !(primaryText_truthy _ _ Ep). now destruct (DateParse s).
  - unfold primaryText in Ep.
    destruct (startText p "Do Date"); [discriminate|].
    rewrite <- startOrNull_readProp in Ep.
    unfold JsValue.startOrNull in Ep. now rewrite Ep.
Qed.

Lemma no_instants_no_primary (p : Page) :
  doInstant p = None -> dueInstant p = None -> primaryInstant p = None.
Proof.
  unfold doInstant, dueInstant, primaryInstant, primaryText.
  now destruct (startText p "Do Date").
Qed.

(** On a well-formed item the code reads the status label. *)
Lemma status_label (p : Page) (text : string) :
  wellFormed p = true ->
  text <> "" ->
  JsValue.strictEq (readProp p "Status") text
  = String.eqb (choiceLabel p "Status") text.
Proof.
  unfold wellFormed. rewrite !andb_true_iff. intros [[[_ Hs] _] _] Hne.
  unfold choiceAmong, readProp, choiceLabel in *.
  destruct (lookupProperty (properties p) "Status")
    as [[[d|]|[n|]|[n|]|ids|texts|]|];
    try discriminate; cbn [JsValue.orNull JsValue.strictEq];
    try (destruct text; [congruence|reflexivity]).
  all: destruct n; cbn [JsString.truthy JsValue.strictEq];
    [destruct text; [congruence|reflexivity]|reflexivity].
Qed.

Lemma atRisk_notStartedBefore (soon : Z) (p : Page) :
  wellFormed p = true -> atRisk soon p = notStartedBefore soon p.
Proof.
  intros Hw. unfold atRisk, notStartedBefore.
  now rewrite (status_label p "Not started" Hw) by discriminate.
Qed.

(** C5: on well-formed items [riskWatch] holds exactly the items whose
    status is "Not started" and whose primary instant (do start, else due
    start) is strictly before [now] + 48 hours, in the order of the input;
    an item with neither a do instant nor a due instant is never in it. *)
Theorem riskWatch_exact (items : list Page) (now : Z) :
  Forall (fun p => wellFormed p = true) items ->
  riskWatch items now = filter (notStartedBefore (now + 172800000)) items
  /\ (forall p,
        In p (riskWatch items now)
        <-> In p items
            /\ choiceLabel p "Status" = "Not started"
            /\ exists t, primaryInstant p = Some t /\ t < now + 172800000)
  /\ (forall p,
        doInstant p = None -> dueInstant p = None ->
        ~ In p (riskWatch items now)).
Proof.
  intros Hw.
  assert (E : riskWatch items now
              = filter (notStartedBefore (now + 172800000)) items).
  { unfold riskWatch, soonAfter.
    induction Hw as [|p l Hp _ IH]; [reflexivity|].
    cbn [filter].
    rewrite riskWatch7day_atRisk, (atRisk_notStartedBefore _ p Hp), IH.
    reflexivity. }
  assert (Hin : forall p,
             In p (riskWatch items now)
             <-> In p items
                 /\ choiceLabel p "Status" = "Not started"
                 /\ exists t, primaryInstant p = Some t /\ t < now + 172800000).
  { intros p. rewrite E, filter_In. unfold notStartedBefore.
    rewrite andb_true_iff, String.eqb_eq.
    destruct (primaryInstant p) as [t|].
    - rewrite Z.ltb_lt. split.
      + intros (Hi & Hs & Hl). eauto.
      + intros (Hi & Hs & t' & [= <-] & Hl). auto.
    - split.
      + intros (_ & _ & Hf). discriminate.
      + intros (_ & _ & t' & [=] & _). }
  split; [exact E|]. split; [exact Hin|].
  intros p Hdo Hdue Hp. apply Hin in Hp.
  destruct Hp as (_ & _ & t & Ht & _).
  rewrite (no_instants_no_primary p Hdo Hdue) in Ht. discriminate.
Qed.

(** C10: the risk filter of the seven-day report (a missing instant read
    as [Infinity]) and the one of the period report (a missing instant
    rejected outright) decide alike on every item and every [soon], so that
    they keep the same items and the two reports show the same lines. *)
Theorem riskWatch_filters_agree (soon : Z) (items : list Page) (now : Z) :
  (forall p, riskWatch7day soon p = riskWatchPeriod soon p)
  /\ filter (riskWatch7day soon) items = filter (riskWatchPeriod soon) items
  /\ Sections.riskWatch (analysis7day items now)
     = Sections.riskWatch (analysisPeriod items now).
Proof.
  assert (E : forall s p, riskWatch7day s p = riskWatchPeriod s p).
  { intros s p. now rewrite riskWatch7day_atRisk, riskWatchPeriod_atRisk. }
  split; [apply E|]. split.
  - apply filter_ext. apply E.
  - simpl. unfold riskWatch. f_equal. apply filter_ext. apply E.
Qed.

End RiskWatch.

(** ** The partition of the day *)

Section Partition.
Context {H : Host}.

Lemma partitionStep_cases (now : Z) (b : Buckets.t) (p : Page) :
  partitionStep now b p
  = if isOverdue now p then
      {| Buckets.overdue :=
           Buckets.overdue b ++ [asCoachLine p (primaryWhich p) now];
         Buckets.scheduled := Buckets.scheduled b;
         Buckets.scheduledTimed := Buckets.scheduledTimed b |}
    else
      {| Buckets.overdue := Buckets.overdue b;
         Buckets.scheduled :=
           Buckets.scheduled b ++ [asCoachLine p (shownWhich p) now];
         Buckets.scheduledTimed :=
           Buckets.scheduledTimed b ++ timedEntry now p |}.
Proof.
  rewrite <- primary_date_before.
  unfold partitionStep, shownWhich, timedEntry, JsArray.push.
  rewrite getPrimaryWhen_spec; simpl.
  destruct (primaryText p) as [s|]; simpl.
  - now destruct (JsDate.ltb (DateParse s) (TimeValue now)).
  - now rewrite app_nil_r.
Qed.

Lemma partitionLoop_from (now : Z) (items : list Page) (b : Buckets.t) :
  fold_left (partitionStep now) items b
  = {| Buckets.overdue :=
         Buckets.overdue b
         ++ map (fun p => asCoachLine p (primaryWhich p) now)
              (filter (isOverdue now) items);
       Buckets.scheduled :=
         Buckets.scheduled b
         ++ map (fun p => asCoachLine p (shownWhich p) now)
              (filter (fun p => negb (isOverdue now p)) items);
       Buckets.scheduledTimed :=
         Buckets.scheduledTimed b
         ++ flat_map (timedEntry now)
              (filter (fun p => negb (isOverdue now p)) items) |}.
Proof.
  revert b. induction items as [|p items IH]; intros b; simpl.
  - rewrite !app_nil_r. now destruct b.
  - rewrite IH, partitionStep_cases.
    destruct (isOverdue now p); simpl; now rewrite <- ?app_assoc.
Qed.

Lemma filter_split_perm {A : Type} (f : A -> bool) (l : list A) :
  Permutation (filter f l ++ filter (fun x => negb (f x)) l) l.
Proof.
  induction l as [|x l IH]; simpl; [reflexivity|].
  destruct (f x); simpl.
  - now constructor.
  - rewrite <- Permutation_middle. now constructor.
Qed.

Lemma filter_split_length {A : Type} (f : A -> bool) (l : list A) :
  (List.length (filter f l) + List.length (filter (fun x => negb (f x)) l)
   = List.length l)%nat.
Proof.
  rewrite <- length_app. apply Permutation_length, filter_split_perm.
Qed.

(** C1: the partition loop puts every item into exactly one of [overdue]
    and [scheduled]: the items whose primary instant is strictly before the
    reference instant go to [overdue], in their order, and all others (an
    instant at or after it, or none) go to [scheduled]; the two lengths add
    up to the number of items and the lines carry the identifiers of the
    items, each once.  The same holds of the handler, which sorts first. *)
Theorem partition_overdue_scheduled (items : list Page) (now : Z) :
  let b := partitionLoop now items in
  let r := analysisToday items now in
  Buckets.overdue b
  = map (fun p => asCoachLine p (primaryWhich p) now)
      (filter (isOverdue now) items)
  /\ Buckets.scheduled b
     = map (fun p => asCoachLine p (shownWhich p) now)
         (filter (fun p => negb (isOverdue now p)) items)
  /\ (forall p,
        isOverdue now p = false
        <-> primaryInstant p = None
            \/ exists t, primaryInstant p = Some t /\ now <= t)
  /\ (List.length (Buckets.overdue b) + List.length (Buckets.scheduled b)
      = List.length items)%nat
  /\ Permutation
       (map CoachLine.id (Buckets.overdue b ++ Buckets.scheduled b))
       (map id items)
  /\ (List.length (TodayReport.overdue r) + List.length (TodayReport.scheduled r)
      = List.length items)%nat
  /\ Permutation
       (map CoachLine.id (TodayReport.overdue r ++ TodayReport.scheduled r))
       (map id items).
Proof.
  assert (Hloop : forall l,
             let b := partitionLoop now l in
             (List.length (Buckets.overdue b) + List.length (Buckets.scheduled b)
              = List.length l)%nat
             /\ Permutation
                  (map CoachLine.id (Buckets.overdue b ++ Buckets.scheduled b))
                  (map id l)).
  { intros l. unfold partitionLoop. rewrite partitionLoop_from. simpl.
    rewrite !length_map. split; [apply filter_split_length|].
    rewrite map_app, !map_map.
    change (Permutation
              (map id (filter (isOverdue now) l)
               ++ map id (filter (fun p => negb (isOverdue now p)) l))
              (map id l)).
    rewrite <- map_app. apply Permutation_map, filter_split_perm. }
  simpl. unfold partitionLoop at 1 2. rewrite partitionLoop_from. simpl.
  split; [reflexivity|]. split; [reflexivity|]. split.
  { intros p. unfold isOverdue. destruct (primaryInstant p) as [t|].
    - rewrite Z.ltb_ge. split.
      + intros Hle. right. now exists t.
      + intros [[=]|(t' & [= <-] & Hle)]. exact Hle.
    - split; auto. }
  destruct (Hloop items) as [Hlen Hperm].
  split; [exact Hlen|]. split; [exact Hperm|].
  destruct (Hloop (JsArray.sort compareItems items)) as [Hlen' Hperm'].
  split.
  - rewrite Hlen'. apply sort_length.
  - rewrite Hperm'. apply Permutation_map, sort_perm.
Qed.

End Partition.

(** ** The order of the day *)

Ltac bool_to_prop :=
  rewrite ?orb_true_iff, ?andb_true_iff, ?Z.ltb_lt, ?Z.eqb_eq, ?Z.leb_le in *.

Lemma keyLeb_total (k1 k2 : Z * option Z * Z) :
  keyLeb k1 k2 = true \/ keyLeb k2 k1 = true.
Proof.
  destruct k1 as [[p1 [t1|]] s1], k2 as [[p2 [t2|]] s2]; simpl;
    bool_to_prop; lia.
Qed.

Lemma keyLeb_trans (k1 k2 k3 : Z * option Z * Z) :
  keyLeb k1 k2 = true -> keyLeb k2 k3 = true -> keyLeb k1 k3 = true.
Proof.
  destruct k1 as [[p1 [t1|]] s1], k2 as [[p2 [t2|]] s2],
    k3 as [[p3 [t3|]] s3]; simpl; bool_to_prop; lia.
Qed.

Lemma keyEqb_keyLeb (k1 k2 k : Z * option Z * Z) :
  keyEqb k1 k = true -> keyEqb k2 k = true -> keyLeb k1 k2 = true.
Proof.
  destruct k1 as [[p1 [t1|]] s1], k2 as [[p2 [t2|]] s2],
    k as [[p [t|]] s]; simpl; bool_to_prop; lia.
Qed.

Section DayOrder.
Context {H : Host}.

Lemma choiceAmong_cases (allowed : list string) (p : Page) (key : string) :
  choiceAmong allowed p key = true ->
  JsValue.orStr (readProp p key) "" = Str (choiceLabel p key)
  /\ In (choiceLabel p key) ("" :: allowed).
Proof.
  unfold choiceAmong, readProp, choiceLabel.
  destruct (lookupProperty (properties p) key) as [[[d|]|[n|]|[n|]|ids|texts|]|];
    try discriminate; intros Hc;
    try (split; [reflexivity|now left]).
  all: apply existsb_exists in Hc; destruct Hc as (x & Hx & Ex);
    apply String.eqb_eq in Ex; subst x; split; [|exact Hx].
  all: unfold JsValue.orNull, JsValue.orStr;
    destruct n; reflexivity.
Qed.

Lemma priority_rank (p : Page) :
  wellFormed p = true ->
  rankOr99 prioRank (JsValue.orStr (readProp p "Priority Level") "")
  = RankNumber (priorityRank p).
Proof.
  unfold wellFormed. rewrite !andb_true_iff. intros [[[Hp _] _] _].
  destruct (choiceAmong_cases _ _ _ Hp) as [-> Hin].
  unfold priorityRank.
  simpl in Hin. destruct Hin as [<-|[<-|[<-|[<-|[]]]]]; reflexivity.
Qed.

Lemma status_rank (p : Page) :
  wellFormed p = true ->
  rankOr99 statusRank (JsValue.orStr (readProp p "Status") "")
  = RankNumber (statusRankOf p).
Proof.
  unfold wellFormed. rewrite !andb_true_iff. intros [[[_ Hs] _] _].
  destruct (choiceAmong_cases _ _ _ Hs) as [-> Hin].
  unfold statusRankOf.
  simpl in Hin. destruct Hin as [<-|[<-|[<-|[<-|[]]]]]; reflexivity.
Qed.

Lemma primary_valid (p : Page) :
  wellFormed p = true ->
  match primaryText p with
  | Some s => exists t, DateParse s = TimeValue t /\ Z.abs t <= JsDate.maxTime
  | None => True
  end.
Proof.
  unfold wellFormed. rewrite !andb_true_iff. intros [[_ Hdo] Hdue].
  unfold validStart, primaryText in *.
  destruct (startText p "Do Date") as [s|].
  - destruct (DateParse s) as [t|]; [|discriminate].
    exists t. split; [reflexivity|]. now apply Z.leb_le.
  - destruct (startText p "Due Date") as [s|]; [|exact I].
    destruct (DateParse s) as [t|]; [|discriminate].
    exists t. split; [reflexivity|]. now apply Z.leb_le.
Qed.

Lemma getTime_wellFormed (p : Page) :
  wellFormed p = true ->
  getTime p
  = match primaryInstant p with
    | Some t => Num t
    | None => Num JsNumber.MAX_SAFE_INTEGER
    end
  /\ match primaryInstant p with
     | Some t => Z.abs t <= JsDate.maxTime
     | None => True
     end.
Proof.
  intros Hw. pose proof (primary_valid p Hw) as Hv.
  unfold getTime, primaryInstant. rewrite getPrimaryWhen_spec. simpl.
  destruct (primaryText p) as [s|]; simpl; [|auto].
  destruct Hv as (t & -> & Hb). auto.
Qed.

(** On well-formed items the comparator is positive exactly when the key
    of the first item is after the key of the second. *)
Lemma compareItems_key (a b : Page) :
  wellFormed a = true -> wellFormed b = true ->
  JsArray.positive (compareItems a b)
  = negb (keyLeb (sortKey a) (sortKey b)).
Proof.
  intros Ha Hb. unfold compareItems, sortKey.
  rewrite !priority_rank, !status_rank by assumption.
  destruct (getTime_wellFormed a Ha) as [-> Ba].
  destruct (getTime_wellFormed b Hb) as [-> Bb].
  unfold JsDate.maxTime, JsNumber.MAX_SAFE_INTEGER in *.
  generalize (priorityRank a) (priorityRank b) (statusRankOf a)
    (statusRankOf b). intros pa pb sa sb.
  apply eq_true_iff_eq. rewrite negb_true_iff, <- not_true_iff_false.
  clear Ha Hb. unfold rankStrictNe, rankSub.
  destruct (primaryInstant a) as [ta|], (primaryInstant b) as [tb|];
    cbn [JsArray.positive JsNumber.strictNe JsNumber.sub keyLeb
         instantLtb instantEqb];
    destruct (Z.eqb_spec pa pb); cbn [negb JsArray.positive andb orb];
    repeat match goal with
      | |- context [negb (?x =? ?y)] => destruct (Z.eqb_spec x y)
      end;
    cbn [negb JsArray.positive andb orb];
    rewrite ?orb_false_r, ?orb_true_r; bool_to_prop; lia.
Qed.

(** C2: on well-formed items the sort of the day is a stable sort by the
    key (priority rank, primary instant with a missing one last, status
    rank): the result is a rearrangement of the items, each neighbouring
    pair has non-decreasing keys, and items of equal key keep their
    order. *)
Theorem today_sort_ordered (items : list Page) :
  Forall (fun p => wellFormed p = true) items ->
  let sorted := JsArray.sort compareItems items in
  Permutation sorted items
  /\ Sorted (fun a b => keyLeb (sortKey a) (sortKey b) = true) sorted
  /\ (forall k,
        filter (fun p => keyEqb (sortKey p) k) sorted
        = filter (fun p => keyEqb (sortKey p) k) items).
Proof.
  intros Hw. simpl. split; [apply sort_perm|]. split.
  - apply StronglySorted_Sorted.
    apply (sort_sorted compareItems
             (fun a b => keyLeb (sortKey a) (sortKey b))
             (fun p => wellFormed p = true)); auto.
    + intros; now apply compareItems_key.
    + intros; apply keyLeb_total.
    + intros; eapply keyLeb_trans; eauto.
  - intros k. apply sort_stable.
    rewrite Forall_forall in Hw.
    intros x y Hx Hy Ex Ey.
    rewrite compareItems_key by auto.
    now rewrite (keyEqb_keyLeb (sortKey x) (sortKey y) k Ex Ey).
Qed.

Lemma keyLeb_antisym (k1 k2 : Z * option Z * Z) :
  keyLeb k1 k2 = true -> keyLeb k2 k1 = true -> keyEqb k2 k1 = true.
Proof.
  destruct k1 as [[p1 [t1|]] s1], k2 as [[p2 [t2|]] s2]; simpl;
    bool_to_prop; lia.
Qed.

(** The order of the day does not depend on the sorting method: any
    rearrangement of well-formed items that is sorted by the key and keeps
    items of equal key in their order is the list the handler works on. *)
Lemma today_sort_unique (items out : list Page) :
  Forall (fun p => wellFormed p = true) items ->
  Permutation out items ->
  Sorted (fun a b => keyLeb (sortKey a) (sortKey b) = true) out ->
  (forall k,
     filter (fun p => keyEqb (sortKey p) k) out
     = filter (fun p => keyEqb (sortKey p) k) items) ->
  out = JsArray.sort compareItems items.
Proof.
  intros Hw Hp Hs Hf.
  apply (sort_unique compareItems
           (fun a b => keyLeb (sortKey a) (sortKey b))
           (fun p => wellFormed p = true))
    with (same := fun x p => keyEqb (sortKey p) (sortKey x)); auto.
  - intros; now apply compareItems_key.
  - intros; apply keyLeb_total.
  - intros; eapply keyLeb_trans; eauto.
  - intros x y _ _. apply keyLeb_antisym.
  - intros x u v _ _. apply keyEqb_keyLeb.
  - apply Sorted_StronglySorted; [|exact Hs].
    intros a b c. apply keyLeb_trans.
Qed.

End DayOrder.

(** ** Gaps between timed items *)

Lemma quotient_hour (x : Z) :
  quotientGe (divide (Num x) 60000) 60 = (3600000 <=? x).
Proof.
  unfold quotientGe, divide, Qle_bool. cbn [Qnum Qden inject_Z].
  now rewrite Z.mul_1_r.
Qed.

Section Gaps.
Context {H : Host}.

Lemma gapAt_cons (items : list Page) (x : Timed.t) (l : list Timed.t) (i : nat) :
  gapAt items (x :: l) (S i) = gapAt items l i.
Proof. reflexivity. Qed.

Lemma gapLoop_consecutive (items : list Page) (timed : list Timed.t) :
  gapLoop items timed = flat_map (gapOf items) (consecutive timed).
Proof.
  unfold gapLoop, consecutive.
  induction timed as [|x [|y l] IH]; [reflexivity|reflexivity|].
  replace (List.length (x :: y :: l) - 1)%nat
    with (S (List.length (y :: l) - 1)) by (simpl; lia).
  rewrite <- cons_seq, <- seq_shift.
  change (combine (x :: y :: l) (tl (x :: y :: l)))
    with ((x, y) :: combine (y :: l) (tl (y :: l))).
  cbn [flat_map]. f_equal.
  rewrite <- IH. rewrite flat_map_concat_map, map_map, <- flat_map_concat_map.
  apply flat_map_ext. intros i. apply gapAt_cons.
Qed.

Lemma gapOf_valid (items : list Page) (x y : Timed.t) :
  timedValid x -> timedValid y ->
  gapOf items (x, y)
  = if hourApart (timeOf x, timeOf y)
    then [gapBetween items (timeOf x, timeOf y)] else [].
Proof.
  intros [tx Hx] [ty Hy].
  unfold gapOf, gapAt, hourApart, timeOf, gapBetween; cbn [nth_error fst snd].
  rewrite Hx, Hy. cbn [JsDate.getTime JsNumber.sub].
  now rewrite quotient_hour.
Qed.

Lemma gaps_of_valid (items : list Page) (timed : list Timed.t) :
  Forall timedValid timed ->
  flat_map (gapOf items) (consecutive timed)
  = map (gapBetween items) (filter hourApart (consecutive (map timeOf timed))).
Proof.
  unfold consecutive.
  induction timed as [|x [|y l] IH]; intros Hv; [reflexivity|reflexivity|].
  inversion Hv as [|? ? Hx Hv']; subst.
  inversion Hv' as [|? ? Hy _]; subst.
  change (combine (x :: y :: l) (tl (x :: y :: l)))
    with ((x, y) :: combine (y :: l) (tl (y :: l))).
  change (combine (map timeOf (x :: y :: l)) (tl (map timeOf (x :: y :: l))))
    with ((timeOf x, timeOf y)
          :: combine (map timeOf (y :: l)) (tl (map timeOf (y :: l)))).
  cbn [flat_map filter]. rewrite (IH Hv'), (gapOf_valid items x y Hx Hy).
  now destruct (hourApart (timeOf x, timeOf y)).
Qed.

Lemma compareTimed_le (a b : Timed.t) :
  timedValid a -> timedValid b ->
  JsArray.positive (compareTimed a b) = negb (timeOf a <=? timeOf b).
Proof.
  intros [ta Ha] [tb Hb]. unfold compareTimed, timeOf. rewrite Ha, Hb.
  cbn [JsDate.getTime JsNumber.sub JsArray.positive].
  destruct (Z.ltb_spec 0 (ta - tb)), (Z.leb_spec ta tb); simpl; lia.
Qed.

Lemma sort_timed_sorted (timed : list Timed.t) :
  Forall timedValid timed ->
  StronglySorted Z.le (map timeOf (JsArray.sort compareTimed timed)).
Proof.
  intros Hv.
  assert (Hs : StronglySorted (fun a b => (timeOf a <=? timeOf b) = true)
                 (JsArray.sort compareTimed timed)).
  { apply (sort_sorted compareTimed _ timedValid); auto.
    - apply compareTimed_le.
    - intros x y _ _. rewrite !Z.leb_le. lia.
    - intros x y z _ _ _. rewrite !Z.leb_le. lia. }
  induction Hs as [|x l Hs IH Hx]; simpl; constructor; auto.
  rewrite Forall_map. eapply Forall_impl; [|exact Hx].
  intros y. apply Z.leb_le.
Qed.

Lemma timedEntry_upcoming (now : Z) (p : Page) :
  wellFormed p = true ->
  if isOverdue now p then upcomingOf now p = []
  else Forall timedValid (timedEntry now p)
       /\ map timeOf (timedEntry now p) = upcomingOf now p.
Proof.
  intros Hp. pose proof (primary_valid p Hp) as Hv.
  unfold isOverdue, upcomingOf, timedEntry, primaryInstant.
  destruct (primaryText p) as [s|]; cbn [instantOfText].
  - destruct Hv as (t & Ht & _). rewrite Ht.
    rewrite Z.leb_antisym. destruct (t <? now); cbn [negb]; [reflexivity|].
    split.
    + constructor; [now exists t|constructor].
    + reflexivity.
  - split; [constructor|reflexivity].
Qed.

(** The timed entries the loop collects, on well-formed items. *)
Lemma scheduledTimed_upcoming (now : Z) (items : list Page) :
  Forall (fun p => wellFormed p = true) items ->
  let timed := Buckets.scheduledTimed (partitionLoop now items) in
  Forall timedValid timed /\ map timeOf timed = upcoming now items.
Proof.
  intros Hw. unfold partitionLoop. rewrite partitionLoop_from.
  cbn [Buckets.scheduledTimed Buckets.empty app]. unfold upcoming.
  induction Hw as [|p l Hp Hl [IHv IHm]]; [split; constructor|].
  pose proof (timedEntry_upcoming now p Hp) as He.
  cbn [filter flat_map].
  destruct (isOverdue now p); cbn [negb].
  - rewrite He. now split.
  - destruct He as [Hv Hm]. cbn [flat_map].
    rewrite map_app, Hm, IHm. split; [|reflexivity].
    apply Forall_app. now split.
Qed.

(** C3: the gap scan runs over the timed scheduled items in ascending order
    of their instants and reports exactly the neighbouring pairs that are at
    least 60 minutes apart; for items at 09:00, 09:30 and 11:00 in the zone
    the one gap is 09:30 to 11:00. *)
Theorem gaps_of_the_day (items : list Page) (now : Z) :
  Forall (fun p => wellFormed p = true) items ->
  (exists ts : list Z,
      Permutation ts (upcoming now items)
      /\ StronglySorted Z.le ts
      /\ TodayReport.gaps (analysisToday items now)
         = map (gapBetween (JsArray.sort compareItems items))
             (filter hourApart (consecutive ts)))
  /\ TodayReport.gaps (analysisToday (H := SummerHost.host) morning morningClock)
     = [ {| Gap.window := "9:30 AM–11:00 AM";
            Gap.suggestions := [Str "Review"; Str "Call back"] |} ].
Proof.
  intros Hw. split; [|vm_compute; reflexivity].
  set (sorted := JsArray.sort compareItems items).
  assert (Hws : Forall (fun p => wellFormed p = true) sorted).
  { apply sort_good. exact Hw. }
  destruct (scheduledTimed_upcoming now sorted Hws) as [Hv Hm].
  set (timed := Buckets.scheduledTimed (partitionLoop now sorted)) in *.
  exists (map timeOf (JsArray.sort compareTimed timed)).
  split; [|split].
  - rewrite (Permutation_map timeOf (sort_perm compareTimed timed)), Hm.
    unfold upcoming. apply Permutation_flat_map, sort_perm.
  - apply sort_timed_sorted, Hv.
  - unfold analysisToday; cbn [TodayReport.gaps]. fold sorted. fold timed.
    rewrite gapLoop_consecutive. apply gaps_of_valid.
    apply sort_good. exact Hv.
Qed.

End Gaps.

(** ** Date texts *)

Lemma append_assoc (a b c : string) : (a ++ b) ++ c = a ++ (b ++ c).
Proof. induction a as [|x a IH]; simpl; [reflexivity|now rewrite IH]. Qed.

Lemma includes_append (c : ascii) (a b : string) :
  JsString.includes c (a ++ b)
  = JsString.includes c a || JsString.includes c b.
Proof.
  induction a as [|x a IH]; simpl; [reflexivity|].
  now destruct (Ascii.eqb x c).
Qed.

Lemma split_none (c : ascii) (a : string) :
  JsString.includes c a = false -> JsString.split c a = [a].
Proof.
  induction a as [|x a IH]; simpl; [reflexivity|].
  destruct (Ascii.eqb x c); [discriminate|].
  intros Ha. now rewrite (IH Ha).
Qed.

Lemma split_append (c : ascii) (a b : string) :
  JsString.includes c a = false ->
  JsString.split c (a ++ String c b) = a :: JsString.split c b.
Proof.
  induction a as [|x a IH]; simpl.
  - now rewrite Ascii.eqb_refl.
  - destruct (Ascii.eqb x c); [discriminate|].
    intros Ha. now rewrite (IH Ha).
Qed.

Lemma allDigits_includes (c : ascii) (s : string) :
  JsString.isDigit c = false -> JsString.allDigits s = true ->
  JsString.includes c s = false.
Proof.
  intros Hc. induction s as [|x s IH]; simpl; [reflexivity|].
  rewrite andb_true_iff. intros [Hx Hs].
  destruct (Ascii.eqb_spec x c); [congruence|auto].
Qed.

Lemma digits_includes (n : nat) (c : ascii) (s : string) :
  JsString.isDigit c = false -> JsString.digits n s = true ->
  JsString.includes c s = false.
Proof.
  unfold JsString.digits. rewrite andb_true_iff.
  intros Hc [_ Hs]. now apply allDigits_includes.
Qed.

Lemma padStart_two (s : string) :
  JsString.digits 2 s = true -> JsString.padStart 2 "0" s = s.
Proof.
  unfold JsString.digits, JsString.padStart. rewrite andb_true_iff.
  intros [Hl _]. apply Nat.eqb_eq in Hl. now rewrite Hl.
Qed.

Lemma toISOLocal_no_slash (dateStr : string) (timeStr : option string) :
  JsString.includes "/" dateStr = false ->
  toISOLocal dateStr timeStr = dateStr ++ "T" ++ timePart timeStr
  /\ ServerJs.toISOLocal dateStr timeStr = dateStr ++ "T" ++ timePart timeStr.
Proof.
  intros Hn. unfold toISOLocal, ServerJs.toISOLocal. now rewrite Hn.
Qed.

Lemma toISOLocal_slash_parts (m d y : string) (timeStr : option string) :
  JsString.includes "/" m = false ->
  JsString.includes "/" d = false ->
  JsString.includes "/" y = false ->
  JsString.truthy y = true ->
  toISOLocal (m ++ "/" ++ d ++ "/" ++ y) timeStr
  = y ++ "-" ++ JsString.padStart 2 "0" m ++ "-" ++ JsString.padStart 2 "0" d
    ++ "T" ++ timePart timeStr.
Proof.
  intros Hm Hd Hy Ht. unfold toISOLocal.
  rewrite includes_append. cbn [append JsString.includes Ascii.eqb].
  change (JsString.includes "/" (String "/" (d ++ String "/" y))) with true.
  rewrite orb_true_r.
  rewrite (split_append "/" m _ Hm), (split_append "/" d _ Hd),
    (split_none "/" y Hy).
  cbn [map nth]. rewrite Ht. cbn [JsString.ofOptional].
  repeat (rewrite append_assoc; cbn [append]). reflexivity.
Qed.

Lemma digits_truthy (n : nat) (s : string) :
  JsString.digits (S n) s = true -> JsString.truthy s = true.
Proof.
  unfold JsString.digits. destruct s; [discriminate|reflexivity].
Qed.

Lemma isoLocalShape_parts (yyyy mm dd : string) (timeStr : option string) :
  JsString.digits 4 yyyy = true ->
  JsString.digits 2 mm = true ->
  JsString.digits 2 dd = true ->
  match timeStr with Some t => clockTime t = true | None => True end ->
  isoLocalShape (yyyy ++ "-" ++ mm ++ "-" ++ dd ++ "T" ++ timePart timeStr)
  = true.
Proof.
  unfold JsString.digits.
  destruct yyyy as [|y1 [|y2 [|y3 [|y4 [|? ?]]]]]; try discriminate.
  destruct mm as [|m1 [|m2 [|? ?]]]; try discriminate.
  destruct dd as [|d1 [|d2 [|? ?]]]; try discriminate.
  cbn [String.length Nat.eqb andb JsString.allDigits].
  rewrite !andb_true_iff.
  intros (Y1 & Y2 & Y3 & Y4 & _) (M1 & M2 & _) (D1 & D2 & _) Ht.
  destruct timeStr as [t|].
  - destruct t as [|h1 [|h2 [|c [|n1 [|n2 [|? ?]]]]]]; try discriminate.
    cbn [clockTime forallb] in Ht. rewrite !andb_true_iff in Ht.
    destruct Ht as ((H1 & H2 & N1 & N2 & _) & Hc).
    cbn [append timePart JsString.truthy isoLocalShape forallb].
    rewrite Y1, Y2, Y3, Y4, M1, M2, D1, D2, H1, H2, N1, N2, Hc.
    reflexivity.
  - cbn [append timePart isoLocalShape forallb].
    rewrite Y1, Y2, Y3, Y4, M1, M2, D1, D2. reflexivity.
Qed.

(** C7: a date written as MM/DD/YYYY and the same date written as
    YYYY-MM-DD, with the same time, give the same text; the text is the
    dash date, [T], and the time with [:00] (or [00:00:00] when the time is
    absent), of the shape YYYY-MM-DDTHH:MM:SS. *)
Theorem toISOLocal_formats_agree (mm dd yyyy : string) (timeStr : option string) :
  JsString.digits 2 mm = true ->
  JsString.digits 2 dd = true ->
  JsString.digits 4 yyyy = true ->
  match timeStr with Some t => clockTime t = true | None => True end ->
  toISOLocal (mm ++ "/" ++ dd ++ "/" ++ yyyy) timeStr
  = toISOLocal (yyyy ++ "-" ++ mm ++ "-" ++ dd) timeStr
  /\ toISOLocal (mm ++ "/" ++ dd ++ "/" ++ yyyy) None
     = yyyy ++ "-" ++ mm ++ "-" ++ dd ++ "T00:00:00"
  /\ isoLocalShape (toISOLocal (mm ++ "/" ++ dd ++ "/" ++ yyyy) timeStr) = true
  /\ isoLocalShape (toISOLocal (yyyy ++ "-" ++ mm ++ "-" ++ dd) timeStr) = true
  /\ toISOLocal "06/15/2024" (Some "14:30")
     = toISOLocal "2024-06-15" (Some "14:30").
Proof.
  intros Hm Hd Hy Ht.
  assert (Sm : JsString.includes "/" mm = false)
    by (eapply digits_includes; [reflexivity|exact Hm]).
  assert (Sd : JsString.includes "/" dd = false)
    by (eapply digits_includes; [reflexivity|exact Hd]).
  assert (Sy : JsString.includes "/" yyyy = false)
    by (eapply digits_includes; [reflexivity|exact Hy]).
  assert (Eslash : forall t,
             toISOLocal (mm ++ "/" ++ dd ++ "/" ++ yyyy) t
             = yyyy ++ "-" ++ mm ++ "-" ++ dd ++ "T" ++ timePart t).
  { intros t. rewrite toISOLocal_slash_parts; auto.
    - now rewrite !padStart_two.
    - eapply digits_truthy, Hy. }
  assert (Edash : forall t,
             toISOLocal (yyyy ++ "-" ++ mm ++ "-" ++ dd) t
             = yyyy ++ "-" ++ mm ++ "-" ++ dd ++ "T" ++ timePart t).
  { intros t.
    destruct (toISOLocal_no_slash (yyyy ++ "-" ++ mm ++ "-" ++ dd) t) as [E _].
    - rewrite !includes_append, Sy, Sm, Sd. reflexivity.
    - rewrite E. repeat (rewrite append_assoc; cbn [append]). reflexivity. }
  split; [now rewrite Eslash, Edash|].
  split; [apply Eslash|].
  split; [rewrite Eslash; now apply isoLocalShape_parts|].
  split; [rewrite Edash; now apply isoLocalShape_parts|].
  reflexivity.
Qed.

(** The date of the specification's example. *)
Lemma toISOLocal_formats_agree_witness :
  (JsString.digits 2 "06" = true
   /\ JsString.digits 2 "15" = true
   /\ JsString.digits 4 "2024" = true
   /\ clockTime "14:30" = true)
  /\ toISOLocal "06/15/2024" (Some "14:30")
     = toISOLocal "2024-06-15" (Some "14:30")
  /\ toISOLocal "06/15/2024" None = "2024-06-15T00:00:00"
  /\ isoLocalShape (toISOLocal "06/15/2024" (Some "14:30")) = true
  /\ isoLocalShape (toISOLocal "2024-06-15" (Some "14:30")) = true
  /\ toISOLocal "06/15/2024" (Some "14:30")
     = toISOLocal "2024-06-15" (Some "14:30").
Proof.
  split; [repeat split|].
  apply (toISOLocal_formats_agree "06" "15" "2024" (Some "14:30"));
    reflexivity.
Defined.

(** Where the specification wants a format error the code returns a text:
    "tomorrow" matches neither pattern and comes back with a time
    appended, in both variants of the function. *)
Lemma toISOLocal_returns_on_bad_text :
  slashDate "tomorrow" = false
  /\ dashDate "tomorrow" = false
  /\ parseFlexibleLocalDateTime "tomorrow" None = FormatError
  /\ toISOLocal "tomorrow" None = "tomorrowT00:00:00"
  /\ ServerJs.toISOLocal "tomorrow" None = "tomorrowT00:00:00"
  /\ ~ (forall dateStr timeStr,
          slashDate dateStr = false -> dashDate dateStr = false ->
          Composite (toISOLocal dateStr timeStr)
          = parseFlexibleLocalDateTime dateStr timeStr).
Proof.
  repeat (split; [reflexivity|]).
  intros Hall. specialize (Hall "tomorrow" None eq_refl eq_refl).
  discriminate Hall.
Qed.

Lemma no_slash_not_slashDate (dateStr : string) :
  JsString.includes "/" dateStr = false -> slashDate dateStr = false.
Proof.
  intros Hn. unfold slashDate. now rewrite (split_none _ _ Hn).
Qed.

(** C8, as the code has it: a date text that matches neither pattern is
    not rejected.  The function has no error path; a text without a slash
    (such a text matches neither pattern unless it is a dash date) comes
    back as it is, followed by [T] and the time part, in both variants of
    the function, where the contract of the specification has a format
    error. *)
Theorem toISOLocal_unvalidated (dateStr : string) (timeStr : option string) :
  JsString.includes "/" dateStr = false ->
  dashDate dateStr = false ->
  slashDate dateStr = false
  /\ parseFlexibleLocalDateTime dateStr timeStr = FormatError
  /\ toISOLocal dateStr timeStr = dateStr ++ "T" ++ timePart timeStr
  /\ ServerJs.toISOLocal dateStr timeStr = dateStr ++ "T" ++ timePart timeStr.
Proof.
  intros Hn Hd.
  split; [now apply no_slash_not_slashDate|]. split.
  - unfold parseFlexibleLocalDateTime.
    now rewrite (split_none _ _ Hn), Hd.
  - now apply toISOLocal_no_slash.
Qed.

(** A text that is no date at all. *)
Lemma toISOLocal_unvalidated_witness :
  (JsString.includes "/" "tomorrow" = false /\ dashDate "tomorrow" = false)
  /\ slashDate "tomorrow" = false
  /\ parseFlexibleLocalDateTime "tomorrow" (Some "9:00") = FormatError
  /\ toISOLocal "tomorrow" (Some "9:00")
     = "tomorrow" ++ "T" ++ timePart (Some "9:00")
  /\ ServerJs.toISOLocal "tomorrow" (Some "9:00")
     = "tomorrow" ++ "T" ++ timePart (Some "9:00").
Proof.
  split; [split; reflexivity|].
  apply (toISOLocal_unvalidated "tomorrow" (Some "9:00")); reflexivity.
Defined.

(** ** The civil calendar *)

Lemma civil_round_trip (day : Z) :
  let '(y, m, d) := JsTime.civilFromDays day in
  JsTime.daysFromCivil y m + d - 1 = day /\ 0 <= m <= 11 /\ 1 <= d <= 31.
Proof.
  unfold JsTime.civilFromDays, JsTime.daysFromCivil.
  set (z := day + 719468).
  set (era := z / 146097).
  set (doe := z - era * 146097).
  set (yoe := (doe - doe / 1460 + doe / 36524 - doe / 146096) / 365).
  set (doy := doe - (365 * yoe + yoe / 4 - yoe / 100)).
  set (mp := (5 * doy + 2) / 153).
  assert (Hdoe : 0 <= doe <= 146096).
  { subst doe era. pose proof (Z.mod_pos_bound z 146097 ltac:(lia)).
    rewrite Z.mod_eq in * by lia. lia. }
  assert (Hyoe : 0 <= yoe <= 399).
  { subst yoe. Z.div_mod_to_equations. lia. }
  assert (Hdoy : 0 <= doy <= 365).
  { subst doy yoe. Z.div_mod_to_equations. lia. }
  assert (Hmp : 0 <= mp <= 11).
  { subst mp. Z.div_mod_to_equations. lia. }
  destruct (Z.ltb_spec mp 10).
  - destruct (Z.leb_spec (mp + 3) 2); [lia|].
    destruct (Z.leb_spec (mp + 3 - 1) 1); [lia|].
    destruct (Z.ltb_spec 1 (mp + 3 - 1)); [|lia].
    replace (mp + 3 - 1 - 2) with mp by lia.
    replace ((yoe + era * 400) / 400) with era by (Z.div_mod_to_equations; lia).
    replace (yoe + era * 400 - era * 400) with yoe by lia.
    split; [|split; [lia|]].
    + unfold doy, doe, z. lia.
    + subst mp. Z.div_mod_to_equations. lia.
  - destruct (Z.leb_spec (mp - 9) 2); [|lia].
    destruct (Z.leb_spec (mp - 9 - 1) 1); [|lia].
    destruct (Z.ltb_spec 1 (mp - 9 - 1)); [lia|].
    replace (mp - 9 - 1 + 10) with mp by lia.
    replace (yoe + era * 400 + 1 - 1) with (yoe + era * 400) by lia.
    replace ((yoe + era * 400) / 400) with era by (Z.div_mod_to_equations; lia).
    replace (yoe + era * 400 - era * 400) with yoe by lia.
    split; [|split; [lia|]].
    + unfold doy, doe, z. lia.
    + subst mp. Z.div_mod_to_equations. lia.
Qed.

(** The fields of a time value make its day again. *)
Lemma MakeDay_fields (t : Z) :
  JsTime.MakeDay (JsTime.YearFromTime t) (JsTime.MonthFromTime t)
    (JsTime.DateFromTime t)
  = JsTime.Day t.
Proof.
  unfold JsTime.MakeDay, JsTime.YearFromTime, JsTime.MonthFromTime,
    JsTime.DateFromTime.
  pose proof (civil_round_trip (JsTime.Day t)) as Hr.
  destruct (JsTime.civilFromDays (JsTime.Day t)) as [[y m] d].
  cbn [fst snd]. destruct Hr as (Hr & Hm & _).
  rewrite (Z.div_small m 12), (Z.mod_small m 12) by lia.
  rewrite Z.add_0_r. exact Hr.
Qed.

(** The clock fields make the time within the day, to the second. *)
Lemma MakeTime_fields (t : Z) :
  JsTime.MakeTime (JsTime.HourFromTime t) (JsTime.MinFromTime t)
    (JsTime.SecFromTime t) 0
  = JsTime.TimeWithinDay t - t mod 1000.
Proof.
  unfold JsTime.MakeTime, JsTime.HourFromTime, JsTime.MinFromTime,
    JsTime.SecFromTime, JsTime.TimeWithinDay, JsTime.msPerHour,
    JsTime.msPerMinute, JsTime.msPerSecond, JsTime.msPerDay.
  Z.div_mod_to_equations. lia.
Qed.

Lemma MakeDate_fields (t : Z) :
  JsTime.MakeDate
    (JsTime.MakeDay (JsTime.YearFromTime t) (JsTime.MonthFromTime t)
       (JsTime.DateFromTime t))
    (JsTime.MakeTime (JsTime.HourFromTime t) (JsTime.MinFromTime t)
       (JsTime.SecFromTime t) 0)
  = t - t mod 1000.
Proof.
  rewrite MakeDay_fields, MakeTime_fields.
  unfold JsTime.MakeDate, JsTime.Day, JsTime.TimeWithinDay, JsTime.msPerDay.
  Z.div_mod_to_equations. lia.
Qed.

Lemma Day_of_second (t : Z) : JsTime.Day (t - t mod 1000) = JsTime.Day t.
Proof.
  unfold JsTime.Day, JsTime.msPerDay. Z.div_mod_to_equations. lia.
Qed.

(** From 1970 on the year has four digits or more. *)
Lemma YearFromTime_late (t : Z) : 0 <= t -> 1600 <= JsTime.YearFromTime t.
Proof.
  intros Ht. unfold JsTime.YearFromTime, JsTime.civilFromDays, JsTime.Day,
    JsTime.msPerDay. cbn [fst].
  match goal with
  | |- 1600 <= (if _ then ?a + 1 else ?a) => assert (1600 <= a)
  end.
  { Z.div_mod_to_equations. lia. }
  match goal with |- context [if ?c then _ else _] => destruct c end; lia.
Qed.

(** ** The window of today *)

Section TodayWindow.
Context {H : Host}.
Variable h : Z.
Hypothesis fixedZone : forall t b, LocalTZA t b = h.
Hypothesis smallOffset : Z.abs h <= 86400000.

Lemma newDate_fixedZone (y m d hh mi s v : Z) :
  v = JsTime.MakeDate
        (JsTime.MakeDay (if (0 <=? y) && (y <=? 99) then 1900 + y else y) m d)
        (JsTime.MakeTime hh mi s 0) ->
  Z.abs v <= 8000000000000000 ->
  JsTime.newDate y m d hh mi s = TimeValue (v - h).
Proof.
  intros -> Hv. unfold JsTime.newDate, JsTime.UTC, JsDate.TimeClip.
  rewrite fixedZone.
  match goal with
  | |- (if ?c then _ else _) = _ => replace c with true; [reflexivity|]
  end.
  symmetry. apply Z.leb_le. unfold JsDate.maxTime. lia.
Qed.

Lemma LocalTime_fixedZone (t : Z) : JsTime.LocalTime t = t + h.
Proof. unfold JsTime.LocalTime. now rewrite fixedZone. Qed.

Lemma newDate_late (y m d hh mi s : Z) :
  1600 <= y ->
  Z.abs (JsTime.MakeDate (JsTime.MakeDay y m d) (JsTime.MakeTime hh mi s 0))
  <= 8000000000000000 ->
  JsTime.newDate y m d hh mi s
  = TimeValue
      (JsTime.MakeDate (JsTime.MakeDay y m d) (JsTime.MakeTime hh mi s 0) - h).
Proof.
  intros Hy Hv. apply newDate_fixedZone; [|exact Hv].
  destruct (Z.leb_spec y 99); [lia|]. now rewrite andb_false_r.
Qed.

(** What [startEndOfToday] computes, for a process whose local zone has a
    fixed offset: with [w] the wall clock of the zone at [now], the bounds
    are midnight and 23:59:59 of the civil day of [w], moved by the offset
    of the zone at [now] -- and by the milliseconds of [w] past the
    second, which the text of the zone clock drops. *)
Lemma todayBounds_fixedZone (now : Z) :
  let w := now + zoneOffset now in
  0 <= w <= 7000000000000000 ->
  Z.abs (zoneOffset now) <= 86400000 ->
  todayBounds now
  = Some {| TodayBounds.start_ :=
              TimeValue (JsTime.Day w * JsTime.msPerDay - zoneOffset now
                         + w mod 1000);
            TodayBounds.end_ :=
              TimeValue (JsTime.Day w * JsTime.msPerDay + 86399000
                         - zoneOffset now + w mod 1000);
            TodayBounds.y := JsTime.YearFromTime w;
            TodayBounds.m := JsTime.MonthFromTime w;
            TodayBounds.d := JsTime.DateFromTime w |}.
Proof.
  intros w Hw Hz. unfold todayBounds, zoneClock. fold w.
  assert (Hm : 0 <= w mod 1000 < 1000) by (apply Z.mod_pos_bound; lia).
  assert (Hday : 0 <= JsTime.Day w * JsTime.msPerDay <= w).
  { unfold JsTime.Day, JsTime.msPerDay. Z.div_mod_to_equations. lia. }
  rewrite newDate_late; rewrite ?MakeDate_fields;
    [|now apply YearFromTime_late|lia].
  rewrite LocalTime_fixedZone.
  replace (w - w mod 1000 - h + h) with (w - w mod 1000) by lia.
  unfold JsTime.YearFromTime, JsTime.MonthFromTime, JsTime.DateFromTime.
  rewrite Day_of_second.
  fold (JsTime.YearFromTime w) (JsTime.MonthFromTime w) (JsTime.DateFromTime w).
  assert (Hd : forall hh mi s,
             JsTime.MakeDate
               (JsTime.MakeDay (JsTime.YearFromTime w) (JsTime.MonthFromTime w)
                  (JsTime.DateFromTime w))
               (JsTime.MakeTime hh mi s 0)
             = JsTime.Day w * JsTime.msPerDay + JsTime.MakeTime hh mi s 0).
  { intros. now rewrite MakeDay_fields. }
  rewrite !newDate_late; rewrite ?Hd;
    try (now apply YearFromTime_late);
    try (unfold JsTime.MakeTime, JsTime.msPerHour, JsTime.msPerMinute,
           JsTime.msPerSecond, JsTime.msPerDay in *; lia).
  cbn [JsDate.getTime]. unfold JsDate.TimeClip, JsDate.maxTime.
  unfold JsTime.MakeTime, JsTime.msPerHour, JsTime.msPerMinute,
    JsTime.msPerSecond, JsTime.msPerDay in *.
  repeat match goal with
    | |- context [Z.abs ?x <=? ?y] =>
        let E := fresh in
        assert (E : (Z.abs x <=? y) = true) by (apply Z.leb_le; lia);
        rewrite E; clear E
    end.
  do 2 f_equal; f_equal; unfold w; lia.
Qed.

End TodayWindow.

(** The example of the specification: at 2024-06-15T18:00:00Z, with the
    zone five hours behind UTC, the window is 05:00:00Z of that day to
    04:59:59Z of the next. *)
Lemma startEndOfToday_on_the_second (H : Host) (h : Z) :
  (forall t b, LocalTZA t b = h) ->
  Z.abs h <= 86400000 ->
  zoneOffset 1718474400000 = -18000000 ->
  startEndOfToday 1718474400000
  = Some {| TodayWindow.startISO := "2024-06-15T05:00:00.000Z";
            TodayWindow.endISO := "2024-06-16T04:59:59.000Z";
            TodayWindow.y := 2024;
            TodayWindow.m := 6;
            TodayWindow.d := 15 |}.
Proof.
  intros Hfix Hsmall Hz. unfold startEndOfToday.
  rewrite (todayBounds_fixedZone h Hfix Hsmall); rewrite Hz;
    [vm_compute; reflexivity|lia|lia].
Qed.

(** C4: half a second later the two bounds are half a second late: the
    window no longer starts at civil midnight of the zone nor ends at
    23:59:59, for the text of the zone clock has no milliseconds while the
    difference [delta] keeps those of [now]. *)
Theorem startEndOfToday_subsecond_drift (H : Host) (h : Z) :
  (forall t b, LocalTZA t b = h) ->
  Z.abs h <= 86400000 ->
  zoneOffset 1718474400500 = -18000000 ->
  startEndOfToday 1718474400500
  = Some {| TodayWindow.startISO := "2024-06-15T05:00:00.500Z";
            TodayWindow.endISO := "2024-06-16T04:59:59.500Z";
            TodayWindow.y := 2024;
            TodayWindow.m := 6;
            TodayWindow.d := 15 |}.
Proof.
  intros Hfix Hsmall Hz. unfold startEndOfToday.
  rewrite (todayBounds_fixedZone h Hfix Hsmall); rewrite Hz;
    [vm_compute; reflexivity|lia|lia].
Qed.

(** A process in UTC, the zone on daylight time. *)
Lemma startEndOfToday_subsecond_drift_witness :
  ((forall t b, LocalTZA (Host := SummerHost.host) t b = 0)
   /\ Z.abs 0 <= 86400000
   /\ zoneOffset (Host := SummerHost.host) 1718474400500 = -18000000)
  /\ startEndOfToday (H := SummerHost.host) 1718474400500
     = Some {| TodayWindow.startISO := "2024-06-15T05:00:00.500Z";
               TodayWindow.endISO := "2024-06-16T04:59:59.500Z";
               TodayWindow.y := 2024;
               TodayWindow.m := 6;
               TodayWindow.d := 15 |}.
Proof.
  split; [repeat split; simpl; lia|].
  apply (startEndOfToday_subsecond_drift SummerHost.host 0);
    [reflexivity|simpl; lia|reflexivity].
Defined.

(** ** Counting by alignment *)

Lemma occurrences_snoc (k a : string) (l : list string) :
  occurrences k (l ++ [a])
  = occurrences k l + (if String.eqb k a then 1 else 0).
Proof.
  unfold occurrences. rewrite filter_app, length_app. simpl.
  destruct (String.eqb k a); simpl; lia.
Qed.

Lemma occurrences_absent (k : string) (l : list string) :
  ~ In k l -> occurrences k l = 0.
Proof.
  unfold occurrences. induction l as [|x l IH]; intros Hn; [reflexivity|].
  simpl. destruct (String.eqb_spec k x) as [->|_].
  - exfalso. apply Hn. now left.
  - apply IH. intros Hk. apply Hn. now right.
Qed.

Lemma firstSeen_In (k : string) (l : list string) :
  In k (firstSeen l) <-> In k l.
Proof.
  induction l as [|x l IH]; simpl; [reflexivity|].
  rewrite filter_In, IH, negb_true_iff, String.eqb_neq.
  destruct (String.eqb_spec k x) as [->|Hne]; intuition congruence.
Qed.

Lemma firstSeen_NoDup (l : list string) : NoDup (firstSeen l).
Proof.
  induction l as [|x l IH]; simpl; constructor.
  - rewrite filter_In, String.eqb_refl. now intros [_ [=]].
  - now apply NoDup_filter.
Qed.

Lemma firstSeen_snoc (a : string) (l : list string) :
  firstSeen (l ++ [a])
  = (firstSeen l ++ (if existsb (String.eqb a) l then [] else [a]))%list.
Proof.
  induction l as [|x l IH]; [reflexivity|].
  simpl. f_equal. rewrite IH, filter_app. f_equal.
  destruct (existsb (String.eqb a) l); simpl.
  - now rewrite orb_true_r.
  - now destruct (String.eqb a x).
Qed.

Lemma existsb_eqb_In (a : string) (l : list string) :
  existsb (String.eqb a) l = true <-> In a l.
Proof.
  rewrite existsb_exists. split.
  - intros (x & Hx & E). apply String.eqb_eq in E. now subst.
  - intros Ha. exists a. split; [exact Ha|apply String.eqb_refl].
Qed.

(** Reading and writing the properties of an object whose own properties
    are given by their names. *)
Section Tabulated.
Context {V : Type} (f : string -> V).

Lemma getOwn_tabulated (ks : list string) (a : string) :
  JsObject.getOwn (map (fun k => (k, f k)) ks) a
  = if existsb (String.eqb a) ks then Some (f a) else None.
Proof.
  induction ks as [|k ks IH]; [reflexivity|].
  simpl. rewrite (String.eqb_sym a k).
  destruct (String.eqb_spec k a) as [->|_]; [reflexivity|exact IH].
Qed.

Lemma setOwn_new (ks : list string) (a : string) (v : V) :
  existsb (String.eqb a) ks = false ->
  JsObject.setOwn (map (fun k => (k, f k)) ks) a v
  = (map (fun k => (k, f k)) ks ++ [(a, v)])%list.
Proof.
  induction ks as [|k ks IH]; [reflexivity|].
  simpl. rewrite (String.eqb_sym a k), orb_false_iff. intros [-> Hks].
  now rewrite (IH Hks).
Qed.

Lemma setOwn_old (ks : list string) (a : string) (v : V) :
  NoDup ks -> In a ks ->
  JsObject.setOwn (map (fun k => (k, f k)) ks) a v
  = map (fun k => (k, if String.eqb k a then v else f k)) ks.
Proof.
  induction ks as [|k ks IH]; intros Hnd Hin; [destruct Hin|].
  inversion Hnd as [|? ? Hk Hks]; subst. simpl.
  destruct (String.eqb_spec k a) as [->|Hne].
  - f_equal. apply map_ext_in. intros k Hk'.
    destruct (String.eqb_spec k a) as [->|_]; [contradiction|reflexivity].
  - f_equal. apply IH; [exact Hks|].
    destruct Hin as [->|Hin]; [congruence|exact Hin].
Qed.

End Tabulated.

(** One turn of the reducer on the counts of the labels seen so far. *)
Lemma groupStep_counts (seen : list string) (a : string) :
  JsObject.inherited a = false ->
  JsObject.set (firstSeenCounts seen) a (bump (firstSeenCounts seen) a)
  = firstSeenCounts (seen ++ [a]).
Proof.
  intros Ha.
  assert (Hp : String.eqb a "__proto__" = false).
  { destruct (String.eqb_spec a "__proto__") as [->|]; [discriminate|reflexivity]. }
  unfold JsObject.set, bump, JsObject.get, firstSeenCounts.
  rewrite Hp, getOwn_tabulated, firstSeen_snoc.
  destruct (existsb (String.eqb a) (firstSeen seen)) eqn:Es.
  - assert (Hin : In a seen) by (now rewrite <- firstSeen_In, <- existsb_eqb_In).
    rewrite <- existsb_eqb_In in Hin. rewrite Hin.
    rewrite app_nil_r, setOwn_old;
      [|apply firstSeen_NoDup|now apply existsb_eqb_In].
    apply map_ext. intros k. rewrite occurrences_snoc.
    destruct (String.eqb_spec k a) as [->|_]; [reflexivity|].
    now rewrite Z.add_0_r.
  - assert (Hn : ~ In a seen).
    { intros Hin. rewrite <- firstSeen_In, <- existsb_eqb_In in Hin.
      congruence. }
    replace (existsb (String.eqb a) seen) with false.
    2:{ symmetry. apply not_true_iff_false. now rewrite existsb_eqb_In. }
    rewrite Ha, setOwn_new by exact Es.
    rewrite map_app. simpl. f_equal.
    + apply map_ext_in. intros k Hk. rewrite occurrences_snoc.
      destruct (String.eqb_spec k a) as [->|_].
      * rewrite firstSeen_In in Hk. contradiction.
      * now rewrite Z.add_0_r.
    + rewrite occurrences_snoc, String.eqb_refl, occurrences_absent by exact Hn.
      reflexivity.
Qed.

Lemma groups_from (items : list Page) (seen : list string) :
  Forall (fun p => JsObject.inherited (alignLabel p) = false) items ->
  fold_left groupStep items (firstSeenCounts seen)
  = firstSeenCounts (seen ++ map alignLabel items).
Proof.
  intros Hi. revert seen.
  induction Hi as [|p items Hp _ IH]; intros seen; simpl.
  - now rewrite app_nil_r.
  - unfold groupStep at 2. fold (alignLabel p).
    rewrite (groupStep_counts seen _ Hp), IH, <- app_assoc. reflexivity.
Qed.

(** Without inherited names among the labels, the object holds the counts
    of the labels in the order of their first occurrence. *)
Lemma groups_counts (items : list Page) :
  Forall (fun p => JsObject.inherited (alignLabel p) = false) items ->
  groups items = firstSeenCounts (map alignLabel items).
Proof. intros Hi. exact (groups_from items [] Hi). Qed.

Lemma objectEntries_order {V : Type} (o : list (string * V)) :
  exists indexed,
    Permutation indexed (filter (fun e => JsObject.isArrayIndex (fst e)) o)
    /\ StronglySorted indexLe indexed
    /\ objectEntries o
       = (indexed ++ filter (fun e => negb (JsObject.isArrayIndex (fst e))) o)%list.
Proof.
  unfold objectEntries.
  set (cmp := fun a b : string * V =>
                Num (JsObject.indexOf (fst a) - JsObject.indexOf (fst b))).
  set (idx := filter (fun e => JsObject.isArrayIndex (fst e)) o).
  exists (JsArray.sort cmp idx).
  split; [apply sort_perm|]. split; [|reflexivity].
  assert (Hs : StronglySorted
                 (fun a b =>
                    (JsObject.indexOf (fst a) <=? JsObject.indexOf (fst b)) = true)
                 (JsArray.sort cmp idx)).
  { apply (sort_sorted cmp _ (fun _ => True)).
    - intros x y _ _. unfold cmp. cbn [JsArray.positive].
      destruct (Z.ltb_spec 0 (JsObject.indexOf (fst x) - JsObject.indexOf (fst y))),
        (Z.leb_spec (JsObject.indexOf (fst x)) (JsObject.indexOf (fst y)));
        simpl; lia.
    - intros x y _ _. rewrite !Z.leb_le. lia.
    - intros x y z _ _ _. rewrite !Z.leb_le. lia.
    - apply Forall_forall. auto. }
  induction Hs as [|x l Hs IH Hx]; constructor; auto.
  eapply Forall_impl; [|exact Hx]. intros y. apply Z.leb_le.
Qed.

(** The claim as the specification words it fails on a numeric label:
    "7" is listed before "B", which was seen first. *)
Lemma alignmentCheck_index_label_first :
  let items := [aligned "first" (Some "B"); aligned "second" (Some "7")] in
  map alignLabel items = ["B"; "7"]
  /\ alignmentCheck items
     = [ {| AlignmentCount.alignment := "7";
            AlignmentCount.count_ := CountNumber 1 |};
         {| AlignmentCount.alignment := "B";
            AlignmentCount.count_ := CountNumber 1 |} ]
  /\ alignmentCheck items
     <> map asAlignmentCount (firstSeenCounts (map alignLabel items)).
Proof.
  split; [reflexivity|]. split; [reflexivity|].
  vm_compute. discriminate.
Qed.

(** A label that names a property of [Object.prototype] is not counted: the
    inherited function is found under it and text is appended. *)
Example alignmentCheck_inherited_label :
  alignmentCheck [aligned "first" (Some "constructor");
                  aligned "second" (Some "constructor")]
  = [ {| AlignmentCount.alignment := "constructor";
         AlignmentCount.count_ :=
           CountText "function Object() { [native code] }11" |} ].
Proof. reflexivity. Qed.

(** C6, as the code has it: items whose alignment labels are not names of
    [Object.prototype] are counted per label, an unset alignment under
    "Unassigned"; the entries whose label is an array index come first, in
    ascending numeric order, and the other labels follow in the order of
    their first occurrence.  For the alignments A, unset, A, B the entries
    are A:2, Unassigned:1, B:1 in this order. *)
Theorem alignmentCheck_entries (items : list Page) :
  Forall (fun p => JsObject.inherited (alignLabel p) = false) items ->
  (exists indexed,
      Permutation indexed
        (filter (fun e => JsObject.isArrayIndex (fst e))
           (firstSeenCounts (map alignLabel items)))
      /\ StronglySorted indexLe indexed
      /\ alignmentCheck items
         = map asAlignmentCount
             (indexed
              ++ filter (fun e => negb (JsObject.isArrayIndex (fst e)))
                   (firstSeenCounts (map alignLabel items))))
  /\ map alignLabel fourAligned = ["A"; "Unassigned"; "A"; "B"]
  /\ alignmentCheck fourAligned
     = [ {| AlignmentCount.alignment := "A";
            AlignmentCount.count_ := CountNumber 2 |};
         {| AlignmentCount.alignment := "Unassigned";
            AlignmentCount.count_ := CountNumber 1 |};
         {| AlignmentCount.alignment := "B";
            AlignmentCount.count_ := CountNumber 1 |} ].
Proof.
  intros Hi. split; [|split; reflexivity].
  unfold alignmentCheck. rewrite (groups_counts items Hi).
  destruct (objectEntries_order (firstSeenCounts (map alignLabel items)))
    as (indexed & Hp & Hs & ->).
  exists indexed. repeat split; assumption.
Qed.

(** The four items of the example have no inherited name among their
    labels. *)
Lemma alignmentCheck_entries_witness :
  Forall (fun p => JsObject.inherited (alignLabel p) = false) fourAligned
  /\ (exists indexed,
         Permutation indexed
           (filter (fun e => JsObject.isArrayIndex (fst e))
              (firstSeenCounts (map alignLabel fourAligned)))
         /\ StronglySorted indexLe indexed
         /\ alignmentCheck fourAligned
            = map asAlignmentCount
                (indexed
                 ++ filter (fun e => negb (JsObject.isArrayIndex (fst e)))
                      (firstSeenCounts (map alignLabel fourAligned))))
  /\ map alignLabel fourAligned = ["A"; "Unassigned"; "A"; "B"]
  /\ alignmentCheck fourAligned
     = [ {| AlignmentCount.alignment := "A";
            AlignmentCount.count_ := CountNumber 2 |};
         {| AlignmentCount.alignment := "Unassigned";
            AlignmentCount.count_ := CountNumber 1 |};
         {| AlignmentCount.alignment := "B";
            AlignmentCount.count_ := CountNumber 1 |} ].
Proof.
  split; [repeat constructor|].
  apply (alignmentCheck_entries fourAligned). repeat constructor.
Defined.

(** When no label is an array index either, the entries are in the order
    of first occurrence throughout. *)
Lemma alignmentCheck_first_seen (items : list Page) :
  Forall (fun p => JsObject.inherited (alignLabel p) = false) items ->
  Forall (fun p => JsObject.isArrayIndex (alignLabel p) = false) items ->
  alignmentCheck items
  = map asAlignmentCount (firstSeenCounts (map alignLabel items)).
Proof.
  intros Hi Hx. unfold alignmentCheck. rewrite (groups_counts items Hi).
  f_equal. unfold objectEntries.
  assert (Hall : forall e, In e (firstSeenCounts (map alignLabel items)) ->
                           JsObject.isArrayIndex (fst e) = false).
  { intros e He. unfold firstSeenCounts in He.
    apply in_map_iff in He. destruct He as (k & <- & Hk).
    rewrite firstSeen_In in Hk. apply in_map_iff in Hk.
    destruct Hk as (p & <- & Hp).
    rewrite Forall_forall in Hx. now apply Hx. }
  generalize dependent (firstSeenCounts (map alignLabel items)).
  intros o Hall.
  replace (filter (fun e => JsObject.isArrayIndex (fst e)) o) with (@nil (string * count)).
  - simpl. induction o as [|e o IH]; [reflexivity|].
    simpl. rewrite (Hall e) by now left. simpl. f_equal.
    apply IH. intros; apply Hall; now right.
  - induction o as [|e o IH]; [reflexivity|].
    simpl. rewrite (Hall e) by now left.
    apply IH. intros; apply Hall; now right.
Qed.

(** ** The morning of the example *)

Lemma morning_wellFormed :
  Forall (fun p => wellFormed (H := SummerHost.host) p = true) morning.
Proof. repeat constructor. Qed.

(** The three items of the morning are well-formed, and sorted as the
    theorem says. *)
Lemma today_sort_ordered_witness :
  Forall (fun p => wellFormed (H := SummerHost.host) p = true) morning
  /\ (let sorted := JsArray.sort (compareItems (H := SummerHost.host)) morning in
      Permutation sorted morning
      /\ Sorted
           (fun a b =>
              keyLeb (sortKey (H := SummerHost.host) a)
                (sortKey (H := SummerHost.host) b) = true)
           sorted
      /\ (forall k,
            filter (fun p => keyEqb (sortKey (H := SummerHost.host) p) k) sorted
            = filter (fun p => keyEqb (sortKey (H := SummerHost.host) p) k)
                morning)).
Proof.
  split; [repeat constructor|].
  apply (today_sort_ordered (H := SummerHost.host) morning).
  repeat constructor.
Defined.

(** Their gaps, with the clock at 08:00. *)
Lemma gaps_of_the_day_witness :
  Forall (fun p => wellFormed (H := SummerHost.host) p = true) morning
  /\ (exists ts : list Z,
         Permutation ts (upcoming (H := SummerHost.host) morningClock morning)
         /\ StronglySorted Z.le ts
         /\ TodayReport.gaps
              (analysisToday (H := SummerHost.host) morning morningClock)
            = map
                (gapBetween (H := SummerHost.host)
                   (JsArray.sort (compareItems (H := SummerHost.host)) morning))
                (filter hourApart (consecutive ts)))
  /\ TodayReport.gaps (analysisToday (H := SummerHost.host) morning morningClock)
     = [ {| Gap.window := "9:30 AM–11:00 AM";
            Gap.suggestions := [Str "Review"; Str "Call back"] |} ].
Proof.
  split; [repeat constructor|].
  apply (gaps_of_the_day (H := SummerHost.host) morning morningClock).
  repeat constructor.
Defined.

Example morning_sorted :
  map id (JsArray.sort (compareItems (H := SummerHost.host)) morning)
  = ["Standup"; "Review"; "Call back"].
Proof. reflexivity. Qed.

Example morning_upcoming :
  upcoming (H := SummerHost.host) morningClock morning
  = [1718460000000; 1718467200000; 1718461800000].
Proof. reflexivity. Qed.

Example morning_coach_line :
  asCoachLine (H := SummerHost.host) (aligned "Plan" (Some "DEV ED")) "do"
    morningClock
  = {| CoachLine.id := "Plan";
       CoachLine.line := "**Plan** — Do • no time — DEV ED — Status: N/A";
       CoachLine.why := "Keeps your cadence strong and reduces task spillover.";
       CoachLine.next := "Define the first 10-minute action and start it.";
       CoachLine.fix_ := coachFixNow;
       CoachLine.suggestReminder := false |}.
Proof. reflexivity. Qed.

Example morning_scheduled :
  map CoachLine.line
    (TodayReport.scheduled
       (analysisToday (H := SummerHost.host) morning morningClock))
  = [ "**Standup** — Do • 9:00 AM — Status: N/A";
      "**Review** — Do • 11:00 AM — Status: Not started";
      "**Call back** — Due • 9:30 AM — Call — Status: N/A" ]
  /\ TodayReport.overdue
       (analysisToday (H := SummerHost.host) morning morningClock)
     = [].
Proof. split; reflexivity. Qed.

(** At 09:15 the standup is overdue and the other two are scheduled. *)
Example morning_later :
  let r := analysisToday (H := SummerHost.host) morning (morningClock + 4500000) in
  map CoachLine.id (TodayReport.overdue r) = ["Standup"]
  /\ map CoachLine.id (TodayReport.scheduled r) = ["Review"; "Call back"]
  /\ map Gap.window (TodayReport.gaps r) = ["9:30 AM–11:00 AM"].
Proof. repeat split; reflexivity. Qed.

Example morning_risk :
  Sections.riskWatch (analysis7day (H := SummerHost.host) morning morningClock)
  = [ "**Review** — Do • 06/15, 11:00 AM — Priority: MID — Status: Not started" ].
Proof. reflexivity. Qed.

(** The risk watch of the three items of the morning. *)
Lemma riskWatch_exact_witness :
  Forall (fun p => wellFormed (H := SummerHost.host) p = true) morning
  /\ riskWatch (H := SummerHost.host) morning morningClock
     = filter (notStartedBefore (H := SummerHost.host) (morningClock + 172800000))
         morning
  /\ (forall p,
        In p (riskWatch (H := SummerHost.host) morning morningClock)
        <-> In p morning
            /\ choiceLabel p "Status" = "Not started"
            /\ exists t, primaryInstant (H := SummerHost.host) p = Some t
                         /\ t < morningClock + 172800000)
  /\ (forall p,
        doInstant (H := SummerHost.host) p = None ->
        dueInstant (H := SummerHost.host) p = None ->
        ~ In p (riskWatch (H := SummerHost.host) morning morningClock)).
Proof.
  split; [repeat constructor|].
  apply (riskWatch_exact (H := SummerHost.host) morning morningClock).
  repeat constructor.
Defined.

(** * Further properties of the code *)

(** ** The window of today and the clock *)

(** The window of today always holds the instant it is computed at, and is
    one second short of a day long. *)
Theorem todayWindow_contains_now (H : Host) (h now : Z) :
  (forall t b, LocalTZA t b = h) ->
  Z.abs h <= 86400000 ->
  0 <= now + zoneOffset now <= 7000000000000000 ->
  Z.abs (zoneOffset now) <= 86400000 ->
  exists b s e,
    todayBounds now = Some b
    /\ TodayBounds.start_ b = TimeValue s
    /\ TodayBounds.end_ b = TimeValue e
    /\ s <= now <= e
    /\ e - s = 86399000.
Proof.
  intros Hfix Hsmall Hw Hz.
  pose proof (todayBounds_fixedZone h Hfix Hsmall now Hw Hz) as Hb.
  cbv zeta in Hb. rewrite Hb.
  eexists. eexists. eexists.
  split; [reflexivity|]. split; [reflexivity|]. split; [reflexivity|].
  unfold JsTime.Day, JsTime.msPerDay.
  Z.div_mod_to_equations. lia.
Qed.

Lemma todayWindow_contains_now_witness :
  ((forall t b, LocalTZA (Host := SummerHost.host) t b = 0)
   /\ Z.abs 0 <= 86400000
   /\ 0 <= 1718474400500 + zoneOffset (Host := SummerHost.host) 1718474400500
      <= 7000000000000000
   /\ Z.abs (zoneOffset (Host := SummerHost.host) 1718474400500) <= 86400000)
  /\ exists b s e,
       todayBounds (H := SummerHost.host) 1718474400500 = Some b
       /\ TodayBounds.start_ b = TimeValue s
       /\ TodayBounds.end_ b = TimeValue e
       /\ s <= 1718474400500 <= e
       /\ e - s = 86399000.
Proof.
  split; [repeat split; simpl; lia|].
  apply (todayWindow_contains_now SummerHost.host 0);
    [reflexivity|simpl; lia|simpl; lia|simpl; lia].
Defined.

(** ** Reminders, tally and gaps of the day *)

Section DayReport.
Context {H : Host}.

Lemma reminder_primary (p : Page) (now : Z) :
  CoachLine.suggestReminder (asCoachLine p (primaryWhich p) now)
  = match primaryInstant p with Some t => now <? t | None => false end
  /\ CoachLine.suggestReminder (asCoachLine p (shownWhich p) now)
     = match primaryInstant p with Some t => now <? t | None => false end.
Proof.
  assert (E : forall text,
             (forall s, text = Some s -> JsString.truthy s = true) ->
             match tsLocal text with
             | Some d => JsDate.gtb d (TimeValue now)
             | None => false
             end
             = match instantOfText text with
               | Some t => now <? t
               | None => false
               end).
  { intros text Ht. rewrite tsLocal_text by assumption.
    destruct text as [s|]; simpl; [|reflexivity].
    now destruct (DateParse s). }
  unfold asCoachLine, shownWhich, primaryWhich, primaryInstant, primaryText.
  cbn [CoachLine.suggestReminder]. rewrite !startOrNull_readProp.
  destruct (startText p "Do Date") as [s|] eqn:Edo.
  - split; apply (E (Some s)); intros s' [= <-];
      eauto using startText_truthy.
  - destruct (startText p "Due Date") as [s|] eqn:Edue.
    + split; apply (E (Some s)); intros s' [= <-];
        eauto using startText_truthy.
    + split; reflexivity.
Qed.

Lemma filter_perm {A : Type} (f : A -> bool) (l l' : list A) :
  Permutation l l' -> Permutation (filter f l) (filter f l').
Proof.
  intros Hp. induction Hp as [|x l l' _ IH|x y l|l l' l'' _ IH1 _ IH2];
    simpl.
  - constructor.
  - destruct (f x); [now constructor|exact IH].
  - destruct (f x), (f y); try reflexivity. constructor.
  - now transitivity (filter f l').
Qed.

(** The lines of the loop, run over the items in any order [sorted]. *)
Lemma reminders_any_order (items sorted : list Page) (now : Z) :
  Permutation sorted items ->
  let b := partitionLoop now sorted in
  (forall l, In l (Buckets.overdue b) -> CoachLine.suggestReminder l = false)
  /\ Permutation (Buckets.scheduled b)
       (map (fun p => asCoachLine p (shownWhich p) now)
          (filter (fun p => negb (isOverdue now p)) items)).
Proof.
  intros Hp. cbv zeta. unfold partitionLoop. rewrite partitionLoop_from.
  cbn [Buckets.overdue Buckets.scheduled Buckets.empty app]. split.
  - intros l Hl. apply in_map_iff in Hl. destruct Hl as (p & <- & Hin).
    apply filter_In in Hin. destruct Hin as [_ Ho].
    rewrite (proj1 (reminder_primary p now)).
    unfold isOverdue in Ho. destruct (primaryInstant p) as [t|]; [|reflexivity].
    apply Z.ltb_lt in Ho. apply Z.ltb_ge. lia.
  - apply Permutation_map, filter_perm, Hp.
Qed.

(** The reminders of the day, whatever the order the sort leaves the
    items in: no overdue line asks for a reminder; the scheduled lines are
    the lines of the items that are not overdue, each once; and such a line
    asks for a reminder exactly when its item has a primary instant
    strictly after [now]. *)
Theorem reminders_of_the_day (items : list Page) (now : Z) :
  let r := analysisToday items now in
  let lineOf p := asCoachLine p (shownWhich p) now in
  let later p :=
    match primaryInstant p with
    | Some t => now <? t
    | None => false
    end in
  (forall l, In l (TodayReport.overdue r) -> CoachLine.suggestReminder l = false)
  /\ Permutation (TodayReport.scheduled r)
       (map lineOf (filter (fun p => negb (isOverdue now p)) items))
  /\ (forall l,
        In l (TodayReport.scheduled r) ->
        exists p,
          In p items /\ isOverdue now p = false /\ l = lineOf p
          /\ CoachLine.suggestReminder l = later p)
  /\ (forall p,
        In p items -> isOverdue now p = false ->
        In (lineOf p) (TodayReport.scheduled r)
        /\ CoachLine.suggestReminder (lineOf p) = later p).
Proof.
  cbv zeta. cbn [analysisToday TodayReport.overdue TodayReport.scheduled].
  destruct (reminders_any_order items (JsArray.sort compareItems items) now
              (sort_perm compareItems items)) as [Ho Hs].
  split; [exact Ho|]. split; [exact Hs|]. split.
  - intros l Hl. apply (Permutation_in _ Hs) in Hl.
    apply in_map_iff in Hl. destruct Hl as (p & <- & Hin).
    apply filter_In in Hin. destruct Hin as [Hin Hn].
    exists p. repeat split; [exact Hin|now apply negb_true_iff|].
    apply (proj2 (reminder_primary p now)).
  - intros p Hin Hn. split; [|apply (proj2 (reminder_primary p now))].
    apply (Permutation_in _ (Permutation_sym Hs)).
    apply (in_map (fun q => asCoachLine q (shownWhich q) now)).
    apply filter_In. split; [exact Hin|now rewrite Hn].
Qed.

Lemma filter_length_perm {A : Type} (f : A -> bool) (l l' : list A) :
  Permutation l l' -> List.length (filter f l) = List.length (filter f l').
Proof.
  intros Hp. induction Hp as [|x l l' _ IH|x y l|l l' l'' _ IH1 _ IH2];
    simpl; try reflexivity.
  - destruct (f x); simpl; congruence.
  - destruct (f x), (f y); reflexivity.
  - congruence.
Qed.

Lemma filter_length_le {A : Type} (f : A -> bool) (l : list A) :
  (List.length (filter f l) <= List.length l)%nat.
Proof.
  induction l as [|x l IH]; simpl; [lia|]. destruct (f x); simpl; lia.
Qed.

Lemma filter3_length_le {A : Type} (f g k : A -> bool) (l : list A) :
  (forall x, f x = true -> g x = false /\ k x = false) ->
  (forall x, g x = true -> k x = false) ->
  (List.length (filter f l) + List.length (filter g l)
   + List.length (filter k l) <= List.length l)%nat.
Proof.
  intros Hf Hg. induction l as [|x l IH]; simpl; [lia|].
  destruct (f x) eqn:Ef.
  - destruct (Hf x Ef) as [-> ->]. simpl. lia.
  - destruct (g x) eqn:Eg.
    + rewrite (Hg x Eg). simpl. lia.
    + destruct (k x); simpl; lia.
Qed.

Lemma quickTally_perm (l l' : list Page) :
  Permutation l l' -> quickTally l = quickTally l'.
Proof.
  intros Hp. unfold quickTally, countWhere.
  rewrite (Permutation_length Hp).
  repeat match goal with
    | |- context [List.length (filter ?f l)] =>
        rewrite (filter_length_perm f l l' Hp)
    end.
  reflexivity.
Qed.

(** The tally does not depend on the order of the items; it counts every
    item once in [total], which is the number of lines shown, and the three
    statuses, the HIGH items and the dated items are at most that many. *)
Theorem quickTally_bounds (items : list Page) (now : Z) :
  let r := analysisToday items now in
  let t := TodayReport.quickTally r in
  t = quickTally items
  /\ QuickTally.total t = List.length items
  /\ (QuickTally.total t
      = List.length (TodayReport.overdue r) + List.length (TodayReport.scheduled r))%nat
  /\ (QuickTally.high t <= QuickTally.total t)%nat
  /\ (QuickTally.dueHard t <= QuickTally.total t)%nat
  /\ (QuickTally.doCount t <= QuickTally.total t)%nat
  /\ (StatusMix.notStarted (QuickTally.statusMix t)
      + StatusMix.inProgress (QuickTally.statusMix t)
      + StatusMix.done (QuickTally.statusMix t) <= QuickTally.total t)%nat.
Proof.
  cbv zeta. cbn [TodayReport.quickTally analysisToday].
  rewrite (quickTally_perm _ _ (sort_perm compareItems items)).
  split; [reflexivity|]. split; [reflexivity|]. split.
  { unfold analysisToday. cbn [TodayReport.overdue TodayReport.scheduled].
    unfold partitionLoop. rewrite partitionLoop_from. simpl.
    rewrite !length_map, filter_split_length. symmetry. apply sort_length. }
  unfold quickTally, countWhere; cbn.
  repeat split; try apply filter_length_le.
  apply filter3_length_le.
  - intros p Hp. destruct (readProp p "Status") as [|?|s|?]; try discriminate.
    simpl in *. apply String.eqb_eq in Hp. subst. split; reflexivity.
  - intros p Hp. destruct (readProp p "Status") as [|?|s|?]; try discriminate.
    simpl in *. apply String.eqb_eq in Hp. subst. reflexivity.
Qed.

Lemma In_firstn {A : Type} (n : nat) (x : A) (l : list A) :
  In x (firstn n l) -> In x l.
Proof.
  revert l. induction n as [|n IH]; intros [|y l]; simpl; try tauto.
  intros [->|Hx]; auto.
Qed.

Lemma gapAt_length (items : list Page) (timed : list Timed.t) (i : nat) :
  (List.length (gapAt items timed i) <= 1)%nat.
Proof.
  unfold gapAt.
  destruct (nth_error timed i), (nth_error timed (S i)); simpl; try lia.
  match goal with |- context [if ?c then _ else _] => destruct c end; simpl; lia.
Qed.

Lemma gapAt_suggestions (items : list Page) (timed : list Timed.t) (i : nat)
  (g : Gap.t) :
  In g (gapAt items timed i) -> Gap.suggestions g = gapSuggestions items.
Proof.
  unfold gapAt.
  destruct (nth_error timed i), (nth_error timed (S i)); simpl; try tauto.
  match goal with |- context [if ?c then _ else _] => destruct c end;
    simpl; [|tauto].
  now intros [<-|[]].
Qed.

Lemma gapLoop_length (items : list Page) (timed : list Timed.t) :
  (List.length (gapLoop items timed) <= List.length timed - 1)%nat.
Proof.
  assert (Hl : forall l,
             (List.length (flat_map (gapAt items timed) l) <= List.length l)%nat).
  { induction l as [|i l IH]; simpl; [lia|].
    rewrite length_app. pose proof (gapAt_length items timed i). lia. }
  unfold gapLoop. etransitivity; [apply Hl|]. now rewrite length_seq.
Qed.

Lemma timedEntry_length (now : Z) (l : list Page) :
  (List.length (flat_map (timedEntry now) l) <= List.length l)%nat.
Proof.
  induction l as [|p l IH]; simpl; [lia|].
  rewrite length_app. unfold timedEntry at 1.
  destruct (primaryText p); simpl; lia.
Qed.

(** There are fewer gaps than scheduled items: none unless two items at
    least are scheduled. *)
Theorem gaps_fewer_than_scheduled (items : list Page) (now : Z) :
  let r := analysisToday items now in
  (List.length (TodayReport.gaps r) <= List.length (TodayReport.scheduled r) - 1)%nat.
Proof.
  cbv zeta. cbn [analysisToday TodayReport.gaps TodayReport.scheduled].
  etransitivity; [apply gapLoop_length|].
  rewrite sort_length. unfold partitionLoop. rewrite partitionLoop_from.
  simpl. rewrite length_map.
  pose proof (timedEntry_length now
                (filter (fun p => negb (isOverdue now p))
                   (JsArray.sort compareItems items))).
  lia.
Qed.

(** On well-formed items, whose order of the day is fixed, every gap
    carries the same suggestions: the names of the first two items, in the
    order of the day, whose priority is not HIGH. *)
Theorem gap_suggestions_not_high (items : list Page) (now : Z) (g : Gap.t) :
  Forall (fun p => wellFormed p = true) items ->
  In g (TodayReport.gaps (analysisToday items now)) ->
  Gap.suggestions g
  = map (fun p => readProp p "Name")
      (firstn 2
         (filter (fun p => negb (String.eqb (choiceLabel p "Priority Level") "HIGH"))
            (JsArray.sort compareItems items)))
  /\ (List.length (Gap.suggestions g) <= 2)%nat
  /\ forall v, In v (Gap.suggestions g) ->
       exists p, In p items /\ v = readProp p "Name"
                 /\ choiceLabel p "Priority Level" <> "HIGH".
Proof.
  intros Hw.
  assert (Hs : gapSuggestions (JsArray.sort compareItems items)
               = map (fun p => readProp p "Name")
                   (firstn 2
                      (filter
                         (fun p => negb (String.eqb (choiceLabel p "Priority Level")
                                           "HIGH"))
                         (JsArray.sort compareItems items)))).
  { unfold gapSuggestions. do 2 f_equal.
    pose proof (sort_good compareItems (fun p => wellFormed p = true) items Hw)
      as Hg.
    induction Hg as [|p l Hp _ IH]; [reflexivity|].
    cbn [filter]. rewrite IH. clear IH.
    replace (JsValue.strictEq (JsValue.orStr (readProp p "Priority Level") "") "HIGH")
      with (String.eqb (choiceLabel p "Priority Level") "HIGH"); [reflexivity|].
    unfold wellFormed in Hp. rewrite !andb_true_iff in Hp.
    destruct Hp as [[[Hp _] _] _].
    destruct (choiceAmong_cases _ _ _ Hp) as [-> _]. reflexivity. }
  cbn [analysisToday TodayReport.gaps]. unfold gapLoop. intros Hg.
  apply in_flat_map in Hg. destruct Hg as (i & _ & Hg).
  apply gapAt_suggestions in Hg. rewrite Hg, Hs. split; [reflexivity|].
  split.
  - rewrite length_map. apply firstn_le_length.
  - intros v Hv. apply in_map_iff in Hv. destruct Hv as (p & <- & Hp).
    apply In_firstn in Hp.
    apply filter_In in Hp. destruct Hp as [Hp Hpr].
    exists p. split; [|split; [reflexivity|]].
    + eapply Permutation_in; [apply sort_perm|exact Hp].
    + apply negb_true_iff, String.eqb_neq in Hpr. exact Hpr.
Qed.

End DayReport.

Lemma gap_suggestions_not_high_witness :
  let g := {| Gap.window := "9:30 AM–11:00 AM";
              Gap.suggestions := [Str "Review"; Str "Call back"] |} in
  (Forall (fun p => wellFormed (H := SummerHost.host) p = true) morning
   /\ In g (TodayReport.gaps
              (analysisToday (H := SummerHost.host) morning morningClock)))
  /\ Gap.suggestions g
     = map (fun p => readProp p "Name")
         (firstn 2
            (filter
               (fun p => negb (String.eqb (choiceLabel p "Priority Level") "HIGH"))
               (JsArray.sort (compareItems (H := SummerHost.host)) morning)))
  /\ (List.length (Gap.suggestions g) <= 2)%nat
  /\ forall v, In v (Gap.suggestions g) ->
       exists p, In p morning /\ v = readProp p "Name"
                 /\ choiceLabel p "Priority Level" <> "HIGH".
Proof.
  intros g. split; [split; [repeat constructor|vm_compute; left; reflexivity]|].
  apply (gap_suggestions_not_high (H := SummerHost.host) morning morningClock).
  - repeat constructor.
  - vm_compute; left; reflexivity.
Defined.

(** ** The sections of the period reports *)

Section PeriodSections.
Context {H : Host}.

Lemma filter2_length {A : Type} (f g : A -> bool) (l : list A) :
  (forall x, f x = true -> g x = false) ->
  (List.length (filter f l) + List.length (filter g l) <= List.length l)%nat
  /\ (Forall (fun x => f x || g x = true) l ->
      (List.length (filter f l) + List.length (filter g l) = List.length l)%nat).
Proof.
  intros Hd. induction l as [|x l [IHle IHeq]]; simpl; [split; [lia|reflexivity]|].
  split.
  - destruct (f x) eqn:Ef; [rewrite (Hd x Ef)|destruct (g x)]; simpl; lia.
  - intros Hall. inversion Hall as [|? ? Hx Hl]; subst.
    specialize (IHeq Hl).
    destruct (f x) eqn:Ef; [rewrite (Hd x Ef)|]; simpl in *; [lia|].
    rewrite Hx. simpl. lia.
Qed.

Lemma high_not_strategic (p : Page) : isHigh p = true -> isStrategic p = false.
Proof.
  unfold isHigh, isStrategic.
  destruct (getPriority p) as [|?|s|?]; try discriminate.
  simpl. intros Hs. apply String.eqb_eq in Hs. now subst.
Qed.

Lemma wellFormed_priority (p : Page) :
  wellFormed p = true -> isHigh p || isStrategic p = true.
Proof.
  unfold wellFormed. rewrite !andb_true_iff. intros [[[Hp _] _] _].
  destruct (choiceAmong_cases _ _ _ Hp) as [E Hin].
  unfold isHigh, isStrategic, getPriority. rewrite E.
  simpl in Hin. destruct Hin as [<-|[<-|[<-|[<-|[]]]]]; reflexivity.
Qed.

(** No item is listed under both priority sections.  Well-formed items
    are each listed under exactly one; an item with another priority label
    is listed under neither. *)
Theorem priority_sections_split (items : list Page) (now : Z) :
  let s := analysis7day items now in
  (forall p, isHigh p = true -> isStrategic p = false)
  /\ (List.length (Sections.highPriority s) + List.length (Sections.strategicWins s)
      <= List.length items)%nat
  /\ (Forall (fun p => wellFormed p = true) items ->
      (List.length (Sections.highPriority s)
       + List.length (Sections.strategicWins s) = List.length items)%nat)
  /\ (isHigh urgentItem = false /\ isStrategic urgentItem = false).
Proof.
  cbv zeta. cbn [analysis7day Sections.highPriority Sections.strategicWins].
  rewrite !length_map.
  destruct (filter2_length isHigh isStrategic items high_not_strategic)
    as [Hle Heq].
  split; [exact high_not_strategic|]. split; [exact Hle|].
  split; [|split; reflexivity].
  intros Hw. apply Heq. eapply Forall_impl; [|exact Hw].
  intros p. apply wellFormed_priority.
Qed.

End PeriodSections.

(** ** Counts by alignment, again *)

Lemma totalCount_perm (l l' : list (string * count)) :
  Permutation l l' ->
  totalCount (map asAlignmentCount l) = totalCount (map asAlignmentCount l').
Proof.
  intros Hp. unfold totalCount. induction Hp; simpl in *; lia.
Qed.

Lemma objectEntries_perm {V : Type} (o : list (string * V)) :
  Permutation (objectEntries o) o.
Proof.
  unfold objectEntries. rewrite sort_perm. apply filter_split_perm.
Qed.

Lemma occurrences_nonneg (k : string) (l : list string) : 0 <= occurrences k l.
Proof. unfold occurrences. lia. Qed.

Lemma filter_member_cons (k : string) (ks seen : list string) :
  ~ In k ks ->
  (List.length (filter (String.eqb k) seen)
   + List.length (filter (fun x => existsb (String.eqb x) ks) seen)
   = List.length (filter (fun x => existsb (String.eqb x) (k :: ks)) seen))%nat.
Proof.
  intros Hk. induction seen as [|x seen IH]; [reflexivity|].
  cbn [filter existsb]. cbn [existsb] in IH.
  rewrite (String.eqb_sym x k).
  destruct (String.eqb_spec k x) as [<-|Hne]; cbn [orb].
  - replace (existsb (String.eqb k) ks) with false.
    2:{ symmetry. apply not_true_iff_false. now rewrite existsb_eqb_In. }
    cbn [List.length]. lia.
  - destruct (existsb (String.eqb x) ks); cbn [List.length]; lia.
Qed.

Lemma totalCount_tabulated (ks seen : list string) :
  NoDup ks ->
  totalCount
    (map asAlignmentCount
       (map (fun k => (k, CountNumber (occurrences k seen))) ks))
  = Z.of_nat (List.length (filter (fun x => existsb (String.eqb x) ks) seen)).
Proof.
  intros Hnd. induction Hnd as [|k ks Hk Hnd IH].
  - cbn [map totalCount fold_right existsb].
    induction seen as [|x seen IHs]; [reflexivity|exact IHs].
  - rewrite <- (filter_member_cons k ks seen Hk), Nat2Z.inj_add, <- IH.
    reflexivity.
Qed.

Lemma filter_all {A : Type} (f : A -> bool) (l : list A) :
  (forall x, In x l -> f x = true) -> filter f l = l.
Proof.
  induction l as [|x l IH]; intros Hf; [reflexivity|].
  simpl. rewrite (Hf x) by now left. f_equal.
  apply IH. intros y Hy. apply Hf. now right.
Qed.

Lemma totalCount_firstSeen (l : list string) :
  totalCount (map asAlignmentCount (firstSeenCounts l)) = Z.of_nat (List.length l).
Proof.
  unfold firstSeenCounts.
  rewrite (totalCount_tabulated (firstSeen l) l (firstSeen_NoDup l)).
  rewrite filter_all; [reflexivity|].
  intros x Hx. apply existsb_eqb_In, firstSeen_In, Hx.
Qed.

(** The counts of the alignment check add up to the number of items: every
    item is counted once, under its label or under "Unassigned". *)
Theorem alignment_counts_total (items : list Page) :
  Forall (fun p => JsObject.inherited (alignLabel p) = false) items ->
  totalCount (alignmentCheck items) = Z.of_nat (List.length items).
Proof.
  intros Hi. unfold alignmentCheck. rewrite (groups_counts items Hi).
  change (map (fun e => {| AlignmentCount.alignment := fst e;
                           AlignmentCount.count_ := snd e |}))
    with (map asAlignmentCount).
  rewrite (totalCount_perm _ _ (objectEntries_perm _)).
  now rewrite totalCount_firstSeen, length_map.
Qed.

Lemma alignment_counts_total_witness :
  Forall (fun p => JsObject.inherited (alignLabel p) = false) fourAligned
  /\ totalCount (alignmentCheck fourAligned) = Z.of_nat (List.length fourAligned).
Proof.
  split; [repeat constructor|].
  apply (alignment_counts_total fourAligned). repeat constructor.
Defined.

(** ** The two variants of [toISOLocal] *)

Lemma split_parts (c : ascii) (s : string) :
  Forall (fun p => JsString.includes c p = false) (JsString.split c s).
Proof.
  induction s as [|x s IH]; simpl; [repeat constructor|].
  destruct (Ascii.eqb x c) eqn:E; [now constructor|].
  destruct (JsString.split c s) as [|p ps]; [repeat constructor; simpl; now rewrite E|].
  inversion IH; subst. constructor; [simpl; now rewrite E|assumption].
Qed.

Lemma nth_map_Some {A : Type} (l : list A) (n : nat) :
  nth n (map Some l) None = nth_error l n.
Proof.
  revert l. induction n as [|n IH]; intros [|x l]; simpl; auto.
Qed.

Lemma length_append (a b : string) :
  String.length (a ++ b) = (String.length a + String.length b)%nat.
Proof. induction a as [|x a IH]; simpl; [reflexivity|now rewrite IH]. Qed.

Lemma append_inj_r (a b c : string) : a ++ c = b ++ c -> a = b.
Proof.
  intros E.
  assert (L : String.length a = String.length b).
  { apply (f_equal String.length) in E. rewrite !length_append in E. lia. }
  revert b E L. induction a as [|x a IH]; intros [|y b] E L;
    try discriminate; [reflexivity|].
  simpl in E. injection E as -> E. f_equal. apply IH; [exact E|].
  simpl in L. lia.
Qed.

Lemma includes_repeat (c f : ascii) (n : nat) :
  Ascii.eqb f c = false -> JsString.includes c (JsString.repeat f n) = false.
Proof.
  intros E. induction n as [|n IH]; simpl; [reflexivity|now rewrite E].
Qed.

Lemma includes_padStart (s : string) :
  JsString.includes "/" (JsString.padStart 2 "0" s) = JsString.includes "/" s.
Proof.
  unfold JsString.padStart.
  now rewrite includes_append, includes_repeat.
Qed.

Lemma includes_ofOptional (l : list string) (n : nat) :
  Forall (fun p => JsString.includes "/" p = false) l ->
  JsString.includes "/" (JsString.ofOptional (nth_error l n)) = false.
Proof.
  intros Hl. destruct (nth_error l n) as [p|] eqn:E; [|reflexivity].
  apply nth_error_In in E. rewrite Forall_forall in Hl. now apply Hl.
Qed.

(** The two variants of [toISOLocal] give the same text exactly on the
    texts without a slash and on the texts whose third slash-separated part
    is there and not empty.  On any other text with a slash the full server
    keeps the text as it is, while the variant of [src/server.js] builds a
    dash date from the parts it finds, with [undefined] for a missing
    one. *)
Theorem toISOLocal_variants_agree (dateStr : string) (timeStr : option string) :
  toISOLocal dateStr timeStr = ServerJs.toISOLocal dateStr timeStr
  <-> (JsString.includes "/" dateStr = false
       \/ exists y, nth_error (JsString.split "/" dateStr) 2 = Some y
                    /\ JsString.truthy y = true).
Proof.
  destruct (JsString.includes "/" dateStr) eqn:Hs.
  2:{ split; [now left|]. intros _.
      destruct (toISOLocal_no_slash dateStr timeStr Hs) as [-> ->].
      reflexivity. }
  unfold toISOLocal, ServerJs.toISOLocal. rewrite Hs.
  rewrite !nth_map_Some.
  pose proof (split_parts "/" dateStr) as Hp.
  destruct (nth_error (JsString.split "/" dateStr) 2) as [y|] eqn:Ey.
  - destruct (JsString.truthy y) eqn:Ht.
    + split; [right; now exists y|reflexivity].
    + split; [|intros [?|(y' & [= <-] & ?)]; congruence].
      intros E. apply append_inj_r in E.
      apply (f_equal (JsString.includes "/")) in E.
      rewrite Hs in E. destruct y; [|discriminate].
      cbn [JsString.ofOptional append JsString.includes Ascii.eqb] in E.
      change (Ascii.eqb "-" "/") with false in E. cbv iota in E.
      rewrite includes_append, includes_padStart in E.
      cbn [append JsString.includes] in E.
      change (Ascii.eqb "-" "/") with false in E. cbv iota in E.
      rewrite includes_padStart, !includes_ofOptional in E by exact Hp.
      discriminate.
  - split; [|intros [?|(y' & ? & ?)]; congruence].
    intros E. apply append_inj_r in E.
    apply (f_equal (JsString.includes "/")) in E.
    rewrite Hs in E.
    rewrite includes_append in E. cbn [JsString.ofOptional] in E.
    change (JsString.includes "/" "undefined") with false in E.
    cbn [orb append JsString.includes] in E.
    change (Ascii.eqb "-" "/") with false in E. cbv iota in E.
    rewrite includes_append, includes_padStart in E.
    cbn [append JsString.includes] in E.
    change (Ascii.eqb "-" "/") with false in E. cbv iota in E.
    rewrite includes_padStart, !includes_ofOptional in E by exact Hp.
    discriminate.
Qed.

(** A month and a day without a year, in the two variants. *)
Example toISOLocal_month_day :
  toISOLocal "6/15" None = "6/15T00:00:00"
  /\ ServerJs.toISOLocal "6/15" None = "undefined-06-15T00:00:00".
Proof. split; reflexivity. Qed.

(** ** The window of the next seven days *)

Section FixedProcessZone.
Context {H : Host}.
Variable h : Z.
Hypothesis fixedZone : forall t b, LocalTZA t b = h.
Hypothesis smallOffset : Z.abs h <= 86400000.

(** The zone clock on a process with a fixed offset: the wall clock of the
    zone, to the second, read as a local time. *)
Lemma zoneClock_fixedZone (t : Z) :
  let w := t + zoneOffset t in
  0 <= w <= 7000000000000000 ->
  zoneClock t = TimeValue (w - w mod 1000 - h).
Proof.
  intros w Hw. unfold zoneClock. fold w.
  assert (Hm : 0 <= w mod 1000 < 1000) by (apply Z.mod_pos_bound; lia).
  rewrite (newDate_late h fixedZone smallOffset); rewrite ?MakeDate_fields;
    [reflexivity|now apply YearFromTime_late|lia].
Qed.

Lemma next7End_fixedZone (now : Z) :
  let w := now + zoneOffset now in
  0 <= w <= 7000000000000000 ->
  Z.abs (zoneOffset now) <= 86400000 ->
  next7End now
  = TimeValue ((JsTime.Day w + 7) * JsTime.msPerDay + 86399000
               - zoneOffset now + w mod 1000).
Proof.
  intros w Hw Hz. unfold next7End. rewrite (zoneClock_fixedZone now Hw). fold w.
  assert (Hm : 0 <= w mod 1000 < 1000) by (apply Z.mod_pos_bound; lia).
  set (w0 := w - w mod 1000).
  assert (Hday : 0 <= JsTime.Day w0 * JsTime.msPerDay <= w0
                 /\ JsTime.TimeWithinDay w0 = w0 - JsTime.Day w0 * JsTime.msPerDay
                 /\ JsTime.Day (w0 + 7 * JsTime.msPerDay) = JsTime.Day w0 + 7).
  { unfold JsTime.Day, JsTime.TimeWithinDay, JsTime.msPerDay, w0.
    Z.div_mod_to_equations. lia. }
  destruct Hday as (Hday & Hwithin & Hnext).
  cbn [getDate setDate JsDate.getTime JsNumber.sub].
  rewrite (LocalTime_fixedZone h fixedZone).
  replace (w0 - h + h) with w0 by lia.
  assert (Hset : JsTime.MakeDate
                   (JsTime.MakeDay (JsTime.YearFromTime w0)
                      (JsTime.MonthFromTime w0) (JsTime.DateFromTime w0 + 7))
                   (JsTime.TimeWithinDay w0)
                 = w0 + 7 * JsTime.msPerDay).
  { pose proof (MakeDay_fields w0) as Hf. unfold JsTime.MakeDay in *.
    unfold JsTime.MakeDate. rewrite Hwithin.
    unfold JsTime.msPerDay in *. lia. }
  rewrite Hset. unfold JsTime.UTC. rewrite fixedZone.
  unfold JsDate.TimeClip at 2.
  assert (E : (Z.abs (w0 + 7 * JsTime.msPerDay - h) <=? JsDate.maxTime) = true).
  { apply Z.leb_le. unfold JsDate.maxTime, JsTime.msPerDay. lia. }
  rewrite E. clear E.
  rewrite (LocalTime_fixedZone h fixedZone).
  replace (w0 + 7 * JsTime.msPerDay - h + h) with (w0 + 7 * JsTime.msPerDay)
    by lia.
  set (e := w0 + 7 * JsTime.msPerDay) in *.
  assert (He : 0 <= e) by (unfold e, JsTime.msPerDay; lia).
  rewrite (newDate_late h fixedZone smallOffset);
    rewrite ?MakeDay_fields, ?Hnext;
    [|now apply YearFromTime_late
     |unfold JsTime.MakeDate, JsTime.MakeTime, JsTime.msPerHour,
        JsTime.msPerMinute, JsTime.msPerSecond, JsTime.msPerDay in *; lia].
  cbn [JsDate.getTime]. unfold JsDate.TimeClip, JsDate.maxTime.
  unfold JsTime.MakeDate, JsTime.MakeTime, JsTime.msPerHour,
    JsTime.msPerMinute, JsTime.msPerSecond, JsTime.msPerDay in *.
  assert (Hd0 : JsTime.Day w0 = JsTime.Day w) by apply Day_of_second.
  rewrite Hd0 in *.
  match goal with
  | |- context [Z.abs ?x <=? ?y] =>
      let E := fresh in
      assert (E : (Z.abs x <=? y) = true) by (apply Z.leb_le; unfold w0; lia);
      rewrite E; clear E
  end.
  f_equal. unfold w0, w. lia.
Qed.

(** The window of the next seven days ends seven days after the window of
    today does: between seven days and eight days less a second after the
    clock reading it is computed from. *)
Theorem next7Window_week (now : Z) :
  0 <= now + zoneOffset now <= 7000000000000000 ->
  Z.abs (zoneOffset now) <= 86400000 ->
  exists b e,
    todayBounds now = Some b
    /\ TodayBounds.end_ b = TimeValue e
    /\ next7End now = TimeValue (e + 7 * 86400000)
    /\ now + 7 * 86400000 <= e + 7 * 86400000 <= now + 8 * 86400000 - 1000.
Proof.
  intros Hw Hz.
  pose proof (todayBounds_fixedZone h fixedZone smallOffset now Hw Hz) as Hb.
  cbv zeta in Hb. rewrite Hb. eexists. eexists.
  split; [reflexivity|]. split; [reflexivity|].
  rewrite (next7End_fixedZone now Hw Hz). split.
  - f_equal. unfold JsTime.msPerDay. lia.
  - unfold JsTime.Day, JsTime.msPerDay. Z.div_mod_to_equations. lia.
Qed.

End FixedProcessZone.

Lemma next7Window_week_witness :
  ((forall t b, LocalTZA (Host := SummerHost.host) t b = 0)
   /\ Z.abs 0 <= 86400000
   /\ 0 <= 1718474400500 + zoneOffset (Host := SummerHost.host) 1718474400500
      <= 7000000000000000
   /\ Z.abs (zoneOffset (Host := SummerHost.host) 1718474400500) <= 86400000)
  /\ exists b e,
       todayBounds (H := SummerHost.host) 1718474400500 = Some b
       /\ TodayBounds.end_ b = TimeValue e
       /\ next7End (H := SummerHost.host) 1718474400500
          = TimeValue (e + 7 * 86400000)
       /\ 1718474400500 + 7 * 86400000 <= e + 7 * 86400000
          <= 1718474400500 + 8 * 86400000 - 1000.
Proof.
  split; [repeat split; simpl; lia|].
  apply (next7Window_week (H := SummerHost.host) 0);
    [reflexivity|simpl; lia|simpl; lia|simpl; lia].
Defined.

(** The window asked for at 2024-06-15T18:00:00Z, the clock read again
    two milliseconds later. *)
Example next7Window_june :
  next7Window (H := SummerHost.host) 1718474400000 1718474400002
  = Some {| Next7Window.startISO := "2024-06-15T18:00:00.002Z";
            Next7Window.endISO := "2024-06-23T04:59:59.000Z" |}.
Proof. vm_compute. reflexivity. Qed.

(** ** The stamp of a note *)

Lemma stampAt_second (t : Z) (withTime : bool) :
  stampAt (t - t mod 1000) withTime = stampAt t withTime.
Proof.
  unfold stampAt, JsTime.YearFromTime, JsTime.MonthFromTime,
    JsTime.DateFromTime.
  rewrite Day_of_second.
  replace (JsTime.HourFromTime (t - t mod 1000)) with (JsTime.HourFromTime t).
  2:{ unfold JsTime.HourFromTime, JsTime.msPerHour.
      Z.div_mod_to_equations. lia. }
  replace (JsTime.MinFromTime (t - t mod 1000)) with (JsTime.MinFromTime t).
  2:{ unfold JsTime.MinFromTime, JsTime.msPerMinute.
      Z.div_mod_to_equations. lia. }
  reflexivity.
Qed.

Section NoteStamp.
Context {H : Host}.
Variable h : Z.
Hypothesis fixedZone : forall t b, LocalTZA t b = h.
Hypothesis smallOffset : Z.abs h <= 86400000.

Lemma stampOf_zoneClock (t : Z) (withTime : bool) :
  0 <= t + zoneOffset t <= 7000000000000000 ->
  stampOf (zoneClock t) withTime = stampAt (t + zoneOffset t) withTime.
Proof.
  intros Hw. rewrite (zoneClock_fixedZone h fixedZone smallOffset t Hw).
  cbn [stampOf]. rewrite (LocalTime_fixedZone h fixedZone).
  set (w := t + zoneOffset t).
  replace (w - w mod 1000 - h + h) with (w - w mod 1000) by lia.
  apply stampAt_second.
Qed.

(** The stamp of the second unnamed part shows the wall clock of the zone
    at [now].  The stamp [src/server.js] gives a new note is taken from the
    zone clock of the date [chicagoNow()] returns, which already carries the
    wall clock of the zone as a local time of the process: it shows that
    wall clock moved once more, by the offset of the zone at the instant [u]
    this date stands for, less the offset of the process. *)
Theorem fixedTimestamp_shifted_twice (now : Z) :
  let w := now + zoneOffset now in
  let u := w - w mod 1000 - h in
  0 <= w <= 7000000000000000 ->
  0 <= u + zoneOffset u <= 7000000000000000 ->
  formatChicagoStamp now = stampAt w true
  /\ fixedTimestamp now = stampAt (w - w mod 1000 + (zoneOffset u - h)) true.
Proof.
  intros w u Hw Hu.
  unfold formatChicagoStamp, fixedTimestamp, formatChicago, chicagoNow.
  rewrite (stampOf_zoneClock now true Hw). fold w.
  rewrite (zoneClock_fixedZone h fixedZone smallOffset now Hw). fold w. fold u.
  rewrite (stampOf_zoneClock u true Hu).
  split; [reflexivity|]. f_equal. unfold u. lia.
Qed.

End NoteStamp.

Lemma fixedTimestamp_shifted_twice_witness :
  ((forall t b, LocalTZA (Host := SummerHost.host) t b = 0)
   /\ Z.abs 0 <= 86400000
   /\ 0 <= 1718474400000 + zoneOffset (Host := SummerHost.host) 1718474400000
      <= 7000000000000000
   /\ 0 <= 1718456400000 + zoneOffset (Host := SummerHost.host) 1718456400000
      <= 7000000000000000)
  /\ formatChicagoStamp (H := SummerHost.host) 1718474400000
     = stampAt 1718456400000 true
  /\ fixedTimestamp (H := SummerHost.host) 1718474400000
     = stampAt (1718456400000 + (-18000000 - 0)) true.
Proof.
  split; [repeat split; simpl; lia|].
  apply (fixedTimestamp_shifted_twice (H := SummerHost.host) 0);
    [reflexivity|simpl; lia|simpl; lia|simpl; lia].
Defined.

(** At 2024-06-15T18:00:00Z on a process in UTC, with the zone five hours
    behind: the wall clock of the zone shows 13:00, the stamp of
    [src/server.js] 08:00. *)
Example fixedTimestamp_june :
  formatChicagoStamp (H := SummerHost.host) 1718474400000 = "2024-06-15 13:00"
  /\ fixedTimestamp (H := SummerHost.host) 1718474400000 = "2024-06-15 08:00".
Proof. split; vm_compute; reflexivity. Qed.

(** ** Notes: reading a row, listing rows *)

Lemma notesFrom_find (idx : anyNumber) (values : list (list string)) (i : Z) :
  match find (fun r => isWhole (NoteRow.rowIndex r) idx) (notesFrom i values) with
  | Some r =>
      exists k row,
        isWhole k idx = true
        /\ i + 2 <= k < i + 2 + Z.of_nat (List.length values)
        /\ nth_error values (Z.to_nat (k - 2 - i)) = Some row
        /\ r = noteOf (k - 2) row
  | None =>
      forall k, i + 2 <= k < i + 2 + Z.of_nat (List.length values) ->
                isWhole k idx = false
  end.
Proof.
  revert i. induction values as [|row rest IH]; intros i.
  - cbn [notesFrom find List.length]. intros k Hk. lia.
  - cbn [notesFrom find noteOf NoteRow.rowIndex].
    destruct (isWhole (i + 2) idx) eqn:E.
    + exists (i + 2), row. repeat split; try (cbn [List.length]; lia).
      * exact E.
      * now replace (i + 2 - 2 - i) with 0 by lia.
      * now replace (i + 2 - 2) with i by lia.
    + specialize (IH (i + 1)).
      destruct (find _ (notesFrom (i + 1) rest)) as [r|].
      * destruct IH as (k & row' & Hk & Hr & Hn & ->).
        exists k, row'. repeat split; try (cbn [List.length]; lia);
          [exact Hk|].
        replace (Z.to_nat (k - 2 - i)) with (S (Z.to_nat (k - 2 - (i + 1))))
          by lia.
        exact Hn.
      * intros k Hk. cbn [List.length] in Hk.
        destruct (Z.eq_dec k (i + 2)) as [->|Hne]; [exact E|].
        apply IH. lia.
Qed.

Lemma readNote_find (values : list (list string)) (idx : anyNumber) :
  match readNote values idx with
  | Some r =>
      exists k row,
        isWhole k idx = true
        /\ 2 <= k < Z.of_nat (List.length values) + 2
        /\ nth_error values (Z.to_nat (k - 2)) = Some row
        /\ r = noteOf (k - 2) row
  | None =>
      forall k, 2 <= k < Z.of_nat (List.length values) + 2 ->
                isWhole k idx = false
  end.
Proof.
  unfold readNote, listAllNotes.
  pose proof (notesFrom_find idx values 0) as Hf.
  destruct (find _ (notesFrom 0 values)) as [r|].
  - destruct Hf as (k & row & Hk & Hr & Hn & ->).
    exists k, row. repeat split; try lia; [exact Hk|].
    now rewrite Z.sub_0_r in Hn.
  - intros k Hk. apply Hf. lia.
Qed.

(** [readNote] finds the note of the row that stands [rowIndex - 2] rows
    below the first row of notes, and numbers it [rowIndex]; it finds
    nothing exactly when [rowIndex] is none of the whole numbers from 2 to
    the number of the last row: no number, a fraction, below 2, or past the
    last row. *)
Theorem readNote_row (values : list (list string)) (idx : anyNumber) :
  match readNote values idx with
  | Some r =>
      exists k row,
        isWhole k idx = true
        /\ 2 <= k < Z.of_nat (List.length values) + 2
        /\ nth_error values (Z.to_nat (k - 2)) = Some row
        /\ r = noteOf (k - 2) row
        /\ NoteRow.rowIndex r = k
  | None =>
      forall k, 2 <= k < Z.of_nat (List.length values) + 2 ->
                isWhole k idx = false
  end.
Proof.
  pose proof (readNote_find values idx) as Hf.
  destruct (readNote values idx) as [r|]; [|exact Hf].
  destruct Hf as (k & row & Hk & Hr & Hn & ->).
  exists k, row. repeat split; try lia; try assumption.
  cbn [noteOf NoteRow.rowIndex]. lia.
Qed.

(** The second row, a row index between the first two rows, and one that
    is no number. *)
Example readNote_between_rows :
  let values := [["Logo"; "2024-06-15 13:00"; "Krazy Monkee"; "logo draft"];
                 ["Gym"; "2024-06-15 14:00"; "Hanuman Life"; "gym at six"]] in
  option_map NoteRow.title (readNote values (Finite (inject_Z 3))) = Some "Gym"
  /\ readNote values (Finite (5 # 2)) = None
  /\ readNote values NotANumber = None
  /\ readNote values (Finite (inject_Z 4)) = None.
Proof. repeat split; reflexivity. Qed.

Lemma sliceFrom_suffix {A : Type} (start : number) (l : list A) :
  exists before, l = (before ++ sliceFrom start l)%list.
Proof.
  unfold sliceFrom. eexists. symmetry. apply firstn_skipn.
Qed.

(** [/notes/list] counts all the rows its filters leave and returns the
    last [limit] of them, in the order of the sheet.  A [limit] of [0]
    returns all of them, and a negative [limit] drops that many rows from
    the front. *)
Theorem notesList_limit (H : CaseHost) (values : list (list string))
  (tag fromDate toDate : option string) (n : Z) :
  let filtered := filteredNotes values tag fromDate toDate in
  let r := notesList values tag fromDate toDate (Some (Num n)) in
  NotesList.count r = List.length filtered
  /\ (exists before, filtered = (before ++ NotesList.rows r)%list)
  /\ List.length (NotesList.rows r)
     = (if (0 <? n)%Z then Nat.min (Z.to_nat n) (List.length filtered)
        else List.length filtered - Z.to_nat (- n)%Z)%nat
  /\ NotesList.rows (notesList values tag fromDate toDate (Some (Num 0)))
     = filtered
  /\ notesList values tag fromDate toDate None
     = notesList values tag fromDate toDate (Some (Num 50)).
Proof.
  cbv zeta. cbn [notesList NotesList.count NotesList.rows negate].
  split; [reflexivity|]. split; [apply sliceFrom_suffix|].
  split; [|split; [|reflexivity]].
  - unfold sliceFrom. rewrite length_skipn.
    destruct (Z.ltb_spec 0 n), (Z.ltb_spec (- n) 0); lia.
  - unfold sliceFrom. cbn [Z.opp Z.ltb Z.compare].
    rewrite Z.min_l by lia. reflexivity.
Qed.

(** ** Notes: the tag *)

Lemma startsWith_spec (w s : string) :
  JsText.startsWith w s = true <-> exists b, s = w ++ b.
Proof.
  revert s. induction w as [|a w IH]; intros s; simpl.
  - split; [intros _; now exists s|reflexivity].
  - destruct s as [|b s].
    + split; [discriminate|intros (x & Hx); discriminate].
    + rewrite andb_true_iff, IH. split.
      * intros [E (x & ->)]. apply Ascii.eqb_eq in E. subst. now exists x.
      * intros (x & [= <- ->]). split; [apply Ascii.eqb_refl|now exists x].
Qed.

Lemma includes_spec (w s : string) :
  JsText.includes w s = true <-> exists a b, s = a ++ w ++ b.
Proof.
  induction s as [|c s IH].
  - cbn [JsText.includes]. rewrite orb_false_r, startsWith_spec. split.
    + intros (b & E). now exists EmptyString, b.
    + intros ([|x a] & b & E); [now exists b|discriminate].
  - cbn [JsText.includes]. rewrite orb_true_iff, startsWith_spec, IH. split.
    + intros [(b & E)|(a & b & E)].
      * now exists EmptyString, b.
      * exists (String c a), b. simpl. now rewrite E.
    + intros ([|x a] & b & E).
      * left. now exists b.
      * right. simpl in E. injection E as -> E. now exists a, b.
Qed.

Lemma includes_trans (a b c : string) :
  JsText.includes a b = true -> JsText.includes b c = true ->
  JsText.includes a c = true.
Proof.
  rewrite !includes_spec. intros (x & y & ->) (u & v & ->).
  exists (u ++ x), (y ++ v). now rewrite !append_assoc.
Qed.

Lemma includes_inside (a w b : string) :
  JsText.includes w (a ++ w ++ b) = true.
Proof. apply includes_spec. now exists a, b. Qed.

Lemma includes_padded (w t : string) :
  JsText.includes (" " ++ w ++ " ") t = true -> JsText.includes w t = true.
Proof. apply includes_trans, includes_inside. Qed.

Lemma existsb_same {A : Type} (f g : A -> bool) (l : list A) :
  (forall x, f x = g x) -> existsb f l = existsb g l.
Proof.
  intros E. induction l as [|x l IH]; simpl; [reflexivity|].
  now rewrite E, IH.
Qed.

(** A bag of words is looked up by substring: the test for a word between
    two spaces adds nothing to the test for the word anywhere in the
    text. *)
Theorem bagContains_substring (H : CaseHost) (text : string)
  (list : list string) :
  bagContains text list
  = existsb (fun w => JsText.includes w (" " ++ toLowerCase text ++ " ")) list.
Proof.
  unfold bagContains. apply existsb_same. intros w.
  destruct (JsText.includes (" " ++ w ++ " ") (" " ++ toLowerCase text ++ " "))
    eqn:E; [|reflexivity].
  symmetry. apply includes_padded, E.
Qed.

Lemma bagContains_word (H : CaseHost) (text w : string) (list : list string) :
  In w list -> JsText.includes w (toLowerCase text) = true ->
  bagContains text list = true.
Proof.
  intros Hin Hw. unfold bagContains. apply existsb_exists. exists w.
  split; [exact Hin|]. apply orb_true_iff. right.
  eapply includes_trans; [exact Hw|]. apply includes_inside.
Qed.

(** A note is never tagged Hanuman Life when its text holds a word of the
    work bag, be it inside another word: [ad] inside [dad], [edit] inside
    [meditate], both words of the life bag. *)
Theorem classifyTag_work_inside (H : CaseHost) (title notes : option string)
  (v w : string) :
  In v WORK_WORDS ->
  JsText.includes v w = true ->
  JsText.includes w (toLowerCase (tagText title notes)) = true ->
  classifyTag title notes <> "Hanuman Life".
Proof.
  intros Hv Hvw Hw. unfold classifyTag.
  rewrite (bagContains_word H (tagText title notes) v WORK_WORDS Hv
             (includes_trans _ _ _ Hvw Hw)).
  destruct (bagContains (tagText title notes) EDU_WORDS); discriminate.
Qed.

Lemma classifyTag_work_inside_witness :
  (In "ad" WORK_WORDS
   /\ JsText.includes "ad" "dad" = true
   /\ JsText.includes "dad"
        (toLowerCase (CaseHost := AsciiCase.host)
           (tagText (H := AsciiCase.host) None (Some "Lunch with Dad")))
      = true)
  /\ classifyTag (H := AsciiCase.host) None (Some "Lunch with Dad")
     <> "Hanuman Life".
Proof.
  split; [repeat split; vm_compute; tauto|].
  apply (classifyTag_work_inside AsciiCase.host None (Some "Lunch with Dad")
           "ad" "dad"); vm_compute; tauto.
Defined.

(** The words of the life bag that a word of the work bag hides. *)
Example classifyTag_hidden_words :
  In "dad" LIFE_WORDS /\ In "meditate" LIFE_WORDS
  /\ classifyTag (H := AsciiCase.host) None (Some "Lunch with Dad")
     = "Krazy Monkee"
  /\ classifyTag (H := AsciiCase.host) None (Some "Meditate at the temple")
     = "Krazy Monkee"
  /\ classifyTag (H := AsciiCase.host) None (Some "Pray at the temple")
     = "Hanuman Life".
Proof. repeat split; vm_compute; tauto. Qed.

(** ** Notes: the title *)

Lemma headWord_matched (w s m rest : string) :
  headWord w s = Some (m, rest) -> String.length m = String.length w.
Proof.
  revert s m rest. induction w as [|a w IH]; intros s m rest; simpl.
  - now intros [= <- _].
  - destruct s as [|b s]; [discriminate|].
    destruct (Ascii.eqb a (lowerAscii b)); [|discriminate].
    destruct (headWord w s) as [[m' r']|] eqn:E; [|discriminate].
    intros [= <- _]. simpl. f_equal. eapply IH, E.
Qed.

Lemma meetingAt_word (s m1 m2 : string) :
  meetingAt s = Some (m1, m2) -> JsString.truthy m1 = true.
Proof.
  unfold meetingAt, meetingWords. cbn [fold_right].
  repeat match goal with
    | |- context [headWord ?w s] =>
        let E := fresh "E" in
        destruct (headWord w s) as [[? [|? ?]]|] eqn:E;
        [| match goal with
           | |- context [if isSeparator ?c then _ else _] =>
               destruct (isSeparator c);
               [intros [= <- _]; apply headWord_matched in E;
                match goal with
                | x : string |- JsString.truthy ?x = true =>
                    now destruct x
                end|]
           end|]
    end;
    discriminate.
Qed.

Lemma meetingMatch_word (s m1 m2 : string) :
  meetingMatch s = Some (m1, m2) -> JsString.truthy m1 = true.
Proof.
  induction s as [|c s IH]; cbn [meetingMatch].
  - destruct (meetingAt "") as [[a b]|] eqn:E; [|discriminate].
    intros [= <- <-]. eapply meetingAt_word, E.
  - destruct (meetingAt (String c s)) as [[a b]|] eqn:E; [|exact IH].
    intros [= <- <-]. eapply meetingAt_word, E.
Qed.

Lemma sliceTo_length (n : nat) (s : string) :
  (String.length (JsText.sliceTo n s) <= n)%nat.
Proof.
  unfold JsText.sliceTo. revert s. induction n as [|n IH]; intros [|c s];
    simpl; try lia.
  specialize (IH s). lia.
Qed.

Lemma sliceTo_truthy (n : nat) (s : string) :
  JsString.truthy s = true -> JsString.truthy (JsText.sliceTo (S n) s) = true.
Proof. now destruct s. Qed.

Lemma truthy_append_r (a b : string) :
  JsString.truthy b = true -> JsString.truthy (a ++ b) = true.
Proof. destruct a; [trivial|reflexivity]. Qed.

Lemma generateTitle_some (H : CaseHost) (notes : option string) :
  exists t,
    generateTitle notes = Some t
    /\ JsString.truthy t = true
    /\ (String.length t <= 60)%nat.
Proof.
  unfold generateTitle.
  set (str := JsText.trim _).
  destruct (JsString.truthy str); cbn [negb];
    [|exists "General Note"; repeat split; simpl; lia].
  set (firstLine := nth 0 (JsString.split "010" str) "").
  assert (Hwords : forall short,
             exists t,
               Some (JsText.orText (JsText.sliceTo 60 short) "General Note")
               = Some t
               /\ JsString.truthy t = true /\ (String.length t <= 60)%nat).
  { intros short. eexists. split; [reflexivity|].
    unfold JsText.orText.
    destruct (JsString.truthy (JsText.sliceTo 60 short)) eqn:E.
    - split; [exact E|apply sliceTo_length].
    - split; [reflexivity|simpl; lia]. }
  destruct (meetingMatch firstLine) as [[m1 m2]|] eqn:E; [|apply Hwords].
  destruct (JsString.truthy m2) eqn:E2; [|apply Hwords].
  pose proof (meetingMatch_word _ _ _ E) as H1.
  destruct m1 as [|c rest]; [discriminate|].
  eexists. split; [reflexivity|]. split; [|apply sliceTo_length].
  apply sliceTo_truthy. rewrite <- !append_assoc.
  now apply truthy_append_r.
Qed.


Lemma classifyTag_label (H : CaseHost) (title notes : option string) :
  In (classifyTag title notes)
    ["Dev & Design Education"; "Krazy Monkee"; "Hanuman Life"].
Proof.
  unfold classifyTag.
  repeat match goal with
    | |- context [if ?c then _ else _] => destruct c
    end; simpl; tauto.
Qed.

Lemma trimmedOr_cases (x other : option string) :
  (exists s, x = Some s /\ JsString.truthy (JsText.trim s) = true
             /\ trimmedOr x other = Some (JsText.trim s))
  \/ trimmedOr x other = other.
Proof.
  destruct x as [s|]; [|now right]. unfold trimmedOr.
  destruct (JsString.truthy s); [|now right].
  destruct (JsString.truthy (JsText.trim s)) eqn:E; [|now right].
  left. now exists s.
Qed.

(** A note is never written with an empty title or an empty tag: the
    title is the given one, trimmed, or a generated one; the tag is the
    given one, trimmed, or one of the three labels. *)
Theorem createNote_title_tag (H : CaseHost) (title tag notes : option string) :
  exists finalTitle finalTag,
    createNoteFields title tag notes = Some (finalTitle, finalTag)
    /\ JsString.truthy finalTitle = true
    /\ JsString.truthy finalTag = true
    /\ (Some finalTitle = option_map JsText.trim title
        \/ Some finalTitle = generateTitle notes)
    /\ (Some finalTag = option_map JsText.trim tag
        \/ In finalTag
             ["Dev & Design Education"; "Krazy Monkee"; "Hanuman Life"]).
Proof.
  unfold createNoteFields.
  assert (Ht : exists t,
             trimmedOr title (generateTitle notes) = Some t
             /\ JsString.truthy t = true
             /\ (Some t = option_map JsText.trim title
                 \/ Some t = generateTitle notes)).
  { destruct (trimmedOr_cases title (generateTitle notes))
      as [(s & -> & Hs & ->)| ->].
    - exists (JsText.trim s). repeat split; [exact Hs|now left].
    - destruct (generateTitle_some H notes) as (t & E & Ht & _).
      exists t. rewrite E. repeat split; [exact Ht|now right]. }
  destruct Ht as (t & -> & Ht & Hfrom).
  exists t.
  destruct (trimmedOr_cases tag (Some (classifyTag (Some t) notes)))
    as [(s & -> & Hs & ->)| ->].
  - exists (JsText.trim s). repeat split; try assumption. now left.
  - exists (classifyTag (Some t) notes).
    pose proof (classifyTag_label H (Some t) notes) as Hl.
    repeat split; try assumption; [|now right].
    simpl in Hl. destruct Hl as [<-|[<-|[<-|[]]]]; reflexivity.
Qed.

(** ** Notes: what they lean toward *)

Lemma orText_empty (s : string) : JsText.orText s "" = s.
Proof. now destruct s. Qed.

Lemma tagStep_counts (seen : list string) (a : string) :
  JsObject.inherited a = false ->
  JsObject.set (tagCounts seen) a (bump (tagCounts seen) a)
  = tagCounts (seen ++ [a]).
Proof.
  intros Ha.
  assert (Hp : String.eqb a "__proto__" = false).
  { destruct (String.eqb_spec a "__proto__") as [->|]; [discriminate|reflexivity]. }
  unfold JsObject.set, bump, JsObject.get, tagCounts.
  rewrite Hp, getOwn_tabulated, app_assoc, firstSeen_snoc.
  set (all := (tagNames ++ seen)%list).
  destruct (existsb (String.eqb a) (firstSeen all)) eqn:Es.
  - assert (Hin : In a all) by (now rewrite <- firstSeen_In, <- existsb_eqb_In).
    rewrite <- existsb_eqb_In in Hin. rewrite Hin.
    rewrite app_nil_r, setOwn_old;
      [|apply firstSeen_NoDup|now apply existsb_eqb_In].
    apply map_ext. intros k. rewrite occurrences_snoc.
    destruct (String.eqb_spec k a) as [->|_]; [reflexivity|].
    now rewrite Z.add_0_r.
  - assert (Hn : ~ In a all).
    { intros Hin. rewrite <- firstSeen_In, <- existsb_eqb_In in Hin.
      congruence. }
    replace (existsb (String.eqb a) all) with false.
    2:{ symmetry. apply not_true_iff_false. now rewrite existsb_eqb_In. }
    rewrite Ha, setOwn_new by exact Es.
    rewrite map_app. f_equal.
    + apply map_ext_in. intros k Hk. rewrite occurrences_snoc.
      destruct (String.eqb_spec k a) as [->|_].
      * rewrite firstSeen_In in Hk. contradiction.
      * now rewrite Z.add_0_r.
    + cbn [map].
      rewrite occurrences_snoc, String.eqb_refl, occurrences_absent.
      * reflexivity.
      * intros Hs. apply Hn. apply in_or_app. now right.
Qed.

Lemma byTag_from (rows : list NoteRow.t) (seen : list string) :
  Forall (fun r => JsObject.inherited (NoteRow.tag r) = false) rows ->
  fold_left tagStep rows (tagCounts seen)
  = tagCounts (seen ++ map NoteRow.tag rows).
Proof.
  intros Hi. revert seen.
  induction Hi as [|r rows Hr _ IH]; intros seen; simpl.
  - now rewrite app_nil_r.
  - unfold tagStep at 2. rewrite orText_empty.
    rewrite (tagStep_counts seen _ Hr), IH, <- app_assoc. reflexivity.
Qed.

(** Without inherited names among the tags, [byTag] holds the number of
    notes of each tag: the starting names first, then the other tags in the
    order of their first occurrence. *)
Lemma byTag_counts (rows : list NoteRow.t) :
  Forall (fun r => JsObject.inherited (NoteRow.tag r) = false) rows ->
  byTag rows = tagCounts (map NoteRow.tag rows).
Proof. intros Hi. exact (byTag_from rows [] Hi). Qed.

(** The head of an array sorted in descending order of a key: the first
    element whose key is the largest. *)
Lemma sort_head_max {A : Type} (cmp : A -> A -> number) (key : A -> Z)
  (l : list A) :
  (forall a b, In a l -> In b l ->
               JsArray.positive (cmp a b) = (key a <? key b)) ->
  forall x rest,
    JsArray.sort cmp l = x :: rest ->
    exists before after,
      l = (before ++ x :: after)%list
      /\ Forall (fun e => key e < key x) before
      /\ Forall (fun e => key e <= key x) after.
Proof.
  induction l as [|y l IH]; intros Hc x rest; [discriminate|].
  cbn [JsArray.sort fold_right]. fold (JsArray.sort cmp l).
  destruct (JsArray.sort cmp l) as [|x' r'] eqn:Es.
  - assert (l = []).
    { apply Permutation_nil. rewrite <- Es. apply sort_perm. }
    subst l. cbn [JsArray.insert]. intros [= <- <-].
    exists [], []. repeat split; constructor.
  - destruct (IH (fun a b Ha Hb => Hc a b (or_intror Ha) (or_intror Hb))
                x' r' eq_refl) as (b & a & -> & Hb & Ha).
    cbn [JsArray.insert].
    rewrite (Hc y x') by (simpl; rewrite in_app_iff; simpl; tauto).
    destruct (Z.ltb_spec (key y) (key x')) as [Hlt|Hge].
    + intros [= <- _]. exists (y :: b), a.
      repeat split; [now constructor|exact Ha].
    + intros [= <- _]. exists [], (b ++ x' :: a)%list.
      repeat split; [constructor|].
      apply Forall_app. split; [|constructor].
      * eapply Forall_impl; [|exact Hb]. intros e He. simpl in He. lia.
      * exact Hge.
      * eapply Forall_impl; [|exact Ha]. intros e He. simpl in He. lia.
Qed.

(** The tag the suggestion names is a tag with the most notes, among the
    three labels, no tag, and the tags of the notes; of the tags with the
    most notes it is the one that [Object.entries] lists first.  With no
    note at all it is Hanuman Life. *)
Theorem maxTag_most_notes (rows : list NoteRow.t) :
  Forall (fun r => JsObject.inherited (NoteRow.tag r) = false) rows ->
  let tags := map NoteRow.tag rows in
  let m := maxTag (byTag rows) in
  In m (tagNames ++ tags)%list
  /\ (forall t, occurrences t tags <= occurrences m tags)
  /\ (exists before after,
         objectEntries (byTag rows)
         = (before ++ (m, CountNumber (occurrences m tags)) :: after)%list
         /\ Forall (fun e => countValue (snd e) < occurrences m tags) before)
  /\ maxTag (byTag []) = "Hanuman Life".
Proof.
  intros Hi tags m. subst m. rewrite (byTag_counts rows Hi). fold tags.
  unfold maxTag at 1 2 3 4 5.
  set (cmp := fun a b : string * count =>
                JsNumber.sub (countOrZero (snd b)) (countOrZero (snd a))).
  set (entries := objectEntries (tagCounts tags)).
  assert (Hent : forall e, In e entries <->
                   In (fst e) (tagNames ++ tags)%list
                   /\ snd e = CountNumber (occurrences (fst e) tags)).
  { intros e.
    assert (Hperm : In e entries <-> In e (tagCounts tags)).
    { split; apply Permutation_in;
        [apply objectEntries_perm|apply Permutation_sym, objectEntries_perm]. }
    rewrite Hperm. unfold tagCounts. rewrite in_map_iff. split.
    - intros (k & <- & Hk). cbn [fst snd].
      rewrite firstSeen_In in Hk. now split.
    - intros [Hk He]. exists (fst e). rewrite firstSeen_In.
      split; [|exact Hk]. destruct e. cbn [fst snd] in *. now subst. }
  assert (Hcmp : forall a b, In a entries -> In b entries ->
                   JsArray.positive (cmp a b)
                   = (countValue (snd a) <? countValue (snd b))).
  { intros a b Ha Hb. apply Hent in Ha, Hb.
    destruct Ha as [_ Ha], Hb as [_ Hb]. unfold cmp.
    rewrite Ha, Hb.
    cbn [countOrZero JsNumber.sub JsArray.positive countValue].
    destruct (Z.ltb_spec 0 (occurrences (fst b) tags - occurrences (fst a) tags)),
      (Z.ltb_spec (occurrences (fst a) tags) (occurrences (fst b) tags));
      lia || reflexivity. }
  destruct (JsArray.sort cmp entries) as [|x rest] eqn:Es.
  { exfalso.
    assert (Hh : In ("Hanuman Life",
                     CountNumber (occurrences "Hanuman Life" tags)) entries)
      by (apply Hent; split; [now left|reflexivity]).
    apply (Permutation_in _ (Permutation_sym (sort_perm cmp entries))) in Hh.
    rewrite Es in Hh. exact Hh. }
  destruct (sort_head_max cmp (fun e => countValue (snd e)) entries Hcmp x rest Es)
    as (before & after & Hsplit & Hb & Ha).
  assert (Hx : In x entries) by (rewrite Hsplit, in_app_iff; simpl; tauto).
  apply Hent in Hx. destruct Hx as [Hk Hv].
  rewrite orText_empty. cbn beta in Hb, Ha. rewrite Hv in Hb, Ha.
  cbn [countValue] in Hb, Ha.
  split; [exact Hk|]. split; [|split; [|reflexivity]].
  - intros t.
    destruct (in_dec string_dec t (tagNames ++ tags)%list) as [Ht|Ht].
    + assert (He : In (t, CountNumber (occurrences t tags)) entries)
        by (apply Hent; now split).
      rewrite Hsplit, in_app_iff in He. rewrite Forall_forall in Hb, Ha.
      destruct He as [He|[He|He]].
      * specialize (Hb _ He). cbn [snd countValue] in Hb. lia.
      * rewrite He. cbn [fst]. lia.
      * specialize (Ha _ He). cbn [snd countValue] in Ha. lia.
    + rewrite (occurrences_absent t tags).
      * apply occurrences_nonneg.
      * intros Hin. apply Ht. apply in_or_app. now right.
  - exists before, after. split; [|exact Hb].
    rewrite Hsplit. destruct x as [k v]. cbn [fst snd] in *. now subst v.
Qed.

Lemma maxTag_most_notes_witness :
  let rows := [ noteOf 0 ["Logo"; "2024-06-15 13:00"; "Krazy Monkee"; "logo draft"];
                noteOf 1 ["Gym"; "2024-06-15 14:00"; "Hanuman Life"; "gym at six"];
                noteOf 2 ["Invoice"; "2024-06-15 15:00"; "Krazy Monkee"; "send it"] ] in
  Forall (fun r => JsObject.inherited (NoteRow.tag r) = false) rows
  /\ In (maxTag (byTag rows)) (tagNames ++ map NoteRow.tag rows)%list
  /\ (forall t, occurrences t (map NoteRow.tag rows)
                <= occurrences (maxTag (byTag rows)) (map NoteRow.tag rows))
  /\ (exists before after,
         objectEntries (byTag rows)
         = (before
            ++ (maxTag (byTag rows),
                CountNumber (occurrences (maxTag (byTag rows))
                               (map NoteRow.tag rows))) :: after)%list
         /\ Forall (fun e => countValue (snd e)
                             < occurrences (maxTag (byTag rows))
                                 (map NoteRow.tag rows)) before)
  /\ maxTag (byTag []) = "Hanuman Life".
Proof.
  intros rows. split; [repeat constructor|].
  apply (maxTag_most_notes rows). repeat constructor.
Defined.

(** With no note to go by the suggestion still names a tag; two notes for
    Krazy Monkee against one for Hanuman Life name Krazy Monkee, one
    against one Hanuman Life. *)
Example suggestFromAnalysis_leaning :
  Suggestion.headline (suggestFromAnalysis (byTag []) [])
  = "Focus is leaning toward **Hanuman Life** — prioritize personal logistics & well-being."
  /\ maxTag (byTag [ noteOf 0 ["Logo"; "2024-06-15 13:00"; "Krazy Monkee"];
                     noteOf 1 ["Gym"; "2024-06-15 14:00"; "Hanuman Life"];
                     noteOf 2 ["Invoice"; "2024-06-15 15:00"; "Krazy Monkee"] ])
     = "Krazy Monkee"
  /\ maxTag (byTag [ noteOf 0 ["Logo"; "2024-06-15 13:00"; "Krazy Monkee"];
                     noteOf 1 ["Gym"; "2024-06-15 14:00"; "Hanuman Life"] ])
     = "Hanuman Life".
Proof. repeat split; vm_compute; reflexivity. Qed.

(** ** Finding a database by its name *)

Lemma includes_refl (s : string) : JsText.includes s s = true.
Proof.
  apply includes_spec. exists EmptyString, EmptyString. simpl.
  induction s as [|c s IH]; simpl; [reflexivity|now rewrite <- IH].
Qed.

Lemma find_first {A : Type} (f : A -> bool) (l : list A) :
  match find f l with
  | Some x =>
      exists before after,
        l = (before ++ x :: after)%list
        /\ f x = true
        /\ Forall (fun y => f y = false) before
  | None => Forall (fun y => f y = false) l
  end.
Proof.
  induction l as [|y l IH]; simpl; [constructor|].
  destruct (f y) eqn:E.
  - exists [], l. repeat split; [exact E|constructor].
  - destruct (find f l) as [x|].
    + destruct IH as (b & a & -> & Hx & Hb).
      exists (y :: b), a. repeat split; [exact Hx|now constructor].
    + now constructor.
Qed.

(** The database found is the first of the results whose title is the
    name, case apart; when there is none, the first whose title holds the
    name, case apart; and nothing is found only when no title holds the
    name. *)
Theorem findDatabaseByName_first (H : CaseHost) (results : list Database.t)
  (name : string) :
  let isName d := String.eqb (toLowerCase (titleOf d)) (toLowerCase name) in
  let hasName d :=
    JsText.includes (toLowerCase name) (toLowerCase (titleOf d)) in
  match findDatabaseByName results name with
  | Some d =>
      hasName d = true
      /\ exists before after,
           results = (before ++ d :: after)%list
           /\ Forall (fun x => isName x = false) before
           /\ (isName d = true
               \/ Forall (fun x => isName x = false) results
                  /\ Forall (fun x => hasName x = false) before)
  | None => Forall (fun x => hasName x = false) results
  end.
Proof.
  cbv zeta. unfold findDatabaseByName.
  pose proof (find_first
                (fun d => String.eqb (toLowerCase (titleOf d)) (toLowerCase name))
                results) as He.
  destruct (find _ results) as [d|].
  - destruct He as (b & a & -> & Hd & Hb). split.
    + apply String.eqb_eq in Hd. rewrite Hd. apply includes_refl.
    + exists b, a. repeat split; [exact Hb|now left].
  - pose proof (find_first
                  (fun d => JsText.includes (toLowerCase name)
                              (toLowerCase (titleOf d)))
                  results) as Hp.
    destruct (find _ results) as [d|]; [|exact Hp].
    destruct Hp as (b & a & E & Hd & Hb). split; [exact Hd|].
    exists b, a. rewrite <- E. repeat split; [|right; now split].
    rewrite E in He. apply Forall_app in He. apply He.
Qed.

(** The exact title wins over an earlier title that only holds the
    name. *)
Example findDatabaseByName_exact :
  let archive := {| Database.id := "1";
                    Database.title := Some ["Action Base "; "Archive"];
                    Database.nameTitle := None |} in
  let base := {| Database.id := "2";
                 Database.title := Some ["Action Base"];
                 Database.nameTitle := None |} in
  findDatabaseByName (H := AsciiCase.host) [archive; base] "action base"
  = Some base
  /\ findDatabaseByName (H := AsciiCase.host) [archive] "action base"
     = Some archive
  /\ findDatabaseByName (H := AsciiCase.host) [archive; base] "Notes" = None.
Proof. repeat split; vm_compute; reflexivity. Qed.

(** ** Notes: updating a row *)





(** An index between two rows, and notes that are a number. *)
Example updateNote_unchecked_body :
  let sheet := [["Logo"; "2024-06-15 13:00"; "Krazy Monkee"; "logo draft"];
                ["Gym"; "2024-06-15 14:00"; "Hanuman Life"; "gym at six"]] in
  updateNote (H := AsciiCase.host) sheet (Finite (5 # 2)) Absent Absent Absent
    (NoArray false)
  = inl (RowNotFound (Finite (5 # 2)))
  /\ updateNote (H := AsciiCase.host) sheet (Finite (inject_Z 3)) Absent Absent
       (Other true (Some "5")) (Elements [Text "title"])
     = inl TypeError
  /\ updateNote (H := AsciiCase.host) sheet (Finite (inject_Z 3)) Absent Absent
       (Text "call: mom") (Elements [Text "title"; Text "tag"])
     = inr {| NoteUpdate.rowIndex := Finite (inject_Z 3);
              NoteUpdate.values :=
                [ Text "Call: mom"; Text "2024-06-15 14:00";
                  Text "Hanuman Life"; Text "call: mom" ] |}.
Proof. repeat split; vm_compute; reflexivity. Qed.

(** ** Notes: the most frequent terms *)

Lemma sorted_firstn {A : Type} (R : A -> A -> Prop) (n : nat) (l : list A) :
  StronglySorted R l ->
  StronglySorted R (firstn n l)
  /\ Forall (fun x => Forall (R x) (skipn n l)) (firstn n l).
Proof.
  intros Hs. revert n. induction Hs as [|x l Hs IH Hx]; intros [|n]; simpl;
    try (split; constructor; fail).
  destruct (IH n) as [Hf Hr].
  rewrite <- (firstn_skipn n l) in Hx. apply Forall_app in Hx.
  destruct Hx as [Hx1 Hx2].
  split; constructor; assumption.
Qed.

(** [topN] returns [n] terms, or all of them when there are fewer, in
    descending order of their counts; no term left out has a larger count
    than a term returned. *)
Theorem topN_most_frequent (entries : list (string * Z)) (n : nat) :
  let top := topN entries n in
  List.length top = Nat.min n (List.length entries)
  /\ StronglySorted (fun a b => Term.count b <= Term.count a) top
  /\ exists rest,
       Permutation (map (fun t => (Term.term t, Term.count t)) top ++ rest)
         entries
       /\ Forall (fun t => Forall (fun e => snd e <= Term.count t) rest) top.
Proof.
  cbv zeta. unfold topN.
  set (cmp := fun a b : string * Z => Num (snd b - snd a)).
  assert (Hs : StronglySorted (fun a b => (snd b <=? snd a) = true)
                 (JsArray.sort cmp entries)).
  { apply (sort_sorted cmp (fun a b => snd b <=? snd a) (fun _ => True)).
    - intros x y _ _. unfold cmp. cbn [JsArray.positive].
      destruct (Z.ltb_spec 0 (snd y - snd x)), (Z.leb_spec (snd y) (snd x));
        simpl; lia.
    - intros x y _ _. rewrite !Z.leb_le. lia.
    - intros x y z _ _ _. rewrite !Z.leb_le. lia.
    - apply Forall_forall. auto. }
  destruct (sorted_firstn _ n _ Hs) as [Hf Hr].
  split; [|split].
  - now rewrite length_map, length_firstn, sort_length.
  - clear Hr. induction Hf as [|x l Hl IH Hx]; simpl; constructor; auto.
    apply Forall_map. eapply Forall_impl; [|exact Hx].
    intros y Hy. cbn [Term.count]. now apply Z.leb_le.
  - exists (skipn n (JsArray.sort cmp entries)). split.
    + rewrite map_map. cbn [Term.term Term.count].
      rewrite (map_ext _ (fun e => e)) by (now intros [a b]).
      rewrite map_id, firstn_skipn. apply sort_perm.
    + apply Forall_map. eapply Forall_impl; [|exact Hr].
      intros x Hx. cbn [Term.count]. eapply Forall_impl; [|exact Hx].
      intros y Hy. now apply Z.leb_le.
Qed.

(** ** The header of the day *)

(** The header of [/analysis/today] shows the civil date of the zone at
    the instant the window is computed, whatever the date of the process
    is. *)
Theorem todayHeader_zone_date (H : Host) (h now : Z) :
  (forall t b, LocalTZA t b = h) ->
  Z.abs h <= 86400000 ->
  0 <= now + zoneOffset now <= 7000000000000000 ->
  Z.abs (zoneOffset now) <= 86400000 ->
  let w := now + zoneOffset now in
  todayHeader now
  = Some ("TODAY FOCUS ("
          ++ JsString.padStart 2 "0" (integerText (JsTime.MonthFromTime w + 1))
          ++ "/"
          ++ JsString.padStart 2 "0" (integerText (JsTime.DateFromTime w))
          ++ "/" ++ integerText (JsTime.YearFromTime w)
          ++ ") — “Alright J-Maal, here’s what wins the day. Tight focus, clean execution, ya heard me.”").
Proof.
  intros Hfix Hsmall Hw Hz w. unfold todayHeader, startEndOfToday.
  pose proof (todayBounds_fixedZone h Hfix Hsmall now Hw Hz) as Hb.
  cbv zeta in Hb. rewrite Hb.
  cbn [TodayBounds.start_ TodayBounds.end_ JsTime.toISOString TodayBounds.y
       TodayBounds.m TodayBounds.d TodayWindow.y TodayWindow.m TodayWindow.d].
  reflexivity.
Qed.

(** At 2024-06-16T02:00:00Z it is still June 15 in the zone. *)
Lemma todayHeader_zone_date_witness :
  ((forall t b, LocalTZA (Host := SummerHost.host) t b = 0)
   /\ Z.abs 0 <= 86400000
   /\ 0 <= 1718503200000 + zoneOffset (Host := SummerHost.host) 1718503200000
      <= 7000000000000000
   /\ Z.abs (zoneOffset (Host := SummerHost.host) 1718503200000) <= 86400000)
  /\ todayHeader (H := SummerHost.host) 1718503200000
     = Some ("TODAY FOCUS ("
             ++ JsString.padStart 2 "0"
                  (integerText
                     (JsTime.MonthFromTime
                        (1718503200000
                         + zoneOffset (Host := SummerHost.host) 1718503200000)
                      + 1))
             ++ "/"
             ++ JsString.padStart 2 "0"
                  (integerText
                     (JsTime.DateFromTime
                        (1718503200000
                         + zoneOffset (Host := SummerHost.host) 1718503200000)))
             ++ "/"
             ++ integerText
                  (JsTime.YearFromTime
                     (1718503200000
                      + zoneOffset (Host := SummerHost.host) 1718503200000))
             ++ ") — “Alright J-Maal, here’s what wins the day. Tight focus, clean execution, ya heard me.”").
Proof.
  split; [repeat split; simpl; lia|].
  apply (todayHeader_zone_date SummerHost.host 0);
    [reflexivity|simpl; lia|simpl; lia|simpl; lia].
Defined.

Example todayHeader_june :
  todayHeader (H := SummerHost.host) 1718503200000
  = Some "TODAY FOCUS (06/15/2024) — “Alright J-Maal, here’s what wins the day. Tight focus, clean execution, ya heard me.”".
Proof. vm_compute. reflexivity. Qed.
